(** * Board synchronisation core of the project-management tool

    A shallow embedding of the task / board controllers
    (backend/src/controllers/taskController.ts, projectController.ts,
    workspaceController.ts), of the request schemas
    (backend/src/utils/validation.ts), of the error middleware
    (backend/src/middleware/errorHandler.ts), of the socket handlers
    (backend/src/socket/handlers.ts) and of the column editor of the board
    settings form (frontend, CreateBoardModal.removeColumn).

    Modelling conventions.
    - The relational store is a record of tables.  Tables that are only read
      by key are finite maps keyed by their primary or unique key; the task
      table, which is queried with [orderBy] and scanned, is a list of rows.
    - Prisma [Int] columns are [Z] (the 32-bit range of the column is not
      modelled); time stamps ([createdAt], [updatedAt]) and the user table
      are left out: no statement below reads them.  The comment and the
      attachment table are tables of the store, with the [onDelete: Cascade]
      of their relation to the task; of an attachment only its id and its
      task are kept.
    - A request handler is a computation in a state-and-exception monad over
      the world (store + outbox of socket emissions); [throw] is the
      JavaScript [throw], caught by [asyncHandler] and rendered by
      [errorHandler].
    - Request bodies that a handler parses with a zod schema are typed as
      the front end sends them (CreateTaskData, UpdateTaskData); the
      constraints of the schemas are checked explicitly.  The body of
      moveTask and the content of updateComment are read without a schema:
      each of their fields may be absent ([None] is the JavaScript
      [undefined], which the Prisma client drops from [where] and [data]).
      The two string formats of zod (cuid, datetime) are an interface; the
      statements hold for every implementation of it, the examples use the
      regular expressions of zod 3.22.
    - A plain JavaScript object used as a map is a finite map of its own
      properties together with the properties it inherits from
      [Object.prototype]. *)

From Stdlib Require Import Ascii.
From stdpp Require Import gmap strings list sorting pretty.

Local Open Scope string_scope.
Local Open Scope Z_scope.

(** ** Data model (prisma/schema.prisma) *)

Inductive Role := ADMIN | MEMBER | VIEWER.
Inductive Priority := LOW | MEDIUM | HIGH | URGENT.

#[global] Instance Role_eq_dec : EqDecision Role.
Proof. solve_decision. Defined.
#[global] Instance Priority_eq_dec : EqDecision Priority.
Proof. solve_decision. Defined.

Record User := { user_id : string; user_email : string; user_name : string }.

Record Workspace := { workspace_name : string; createdBy : string }.

Record Project := { project_name : string; workspaceId : string }.

(** An element of the [columns] Json array of a board. *)
Record BoardColumn := {
  col_id : string;
  col_title : string;
  col_position : option Z
}.

Record Board := {
  board_name : string;
  projectId : string;
  columns : list BoardColumn
}.

Record Task := {
  task_id : string;
  title : string;
  description : option string;
  boardId : string;
  columnId : string;
  assignedTo : option string;
  priority : Priority;
  dueDate : option string;
  position : Z
}.

#[global] Instance User_eq_dec : EqDecision User.
Proof. solve_decision. Defined.
#[global] Instance BoardColumn_eq_dec : EqDecision BoardColumn.
Proof. solve_decision. Defined.
#[global] Instance Board_eq_dec : EqDecision Board.
Proof. solve_decision. Defined.
#[global] Instance Task_eq_dec : EqDecision Task.
Proof. solve_decision. Defined.

(** A comment on a task. *)
Record Comment := {
  comment_id : string;
  comment_content : string;
  comment_taskId : string;
  comment_userId : string
}.

(** An attachment of a task.  The handlers of the model neither read nor
    write the table; it is in the store because the rows of a task go with
    the task. *)
Record Attachment := {
  attachment_id : string;
  attachment_taskId : string
}.

(** The store.  [workspaceMembers] is keyed by the unique pair
    [(workspaceId, userId)] of the schema; the comment table is in order of
    creation ([createdAt]). *)
Record Db := {
  workspaces : gmap string Workspace;
  workspaceMembers : gmap (string * string) Role;
  projects : gmap string Project;
  boards : gmap string Board;
  tasks : list Task;
  comments : list Comment;
  attachments : list Attachment
}.

Definition set_tasks (d : Db) (ts : list Task) : Db :=
  {| workspaces := workspaces d; workspaceMembers := workspaceMembers d;
     projects := projects d; boards := boards d; tasks := ts;
     comments := comments d; attachments := attachments d |}.

Definition set_boards (d : Db) (bs : gmap string Board) : Db :=
  {| workspaces := workspaces d; workspaceMembers := workspaceMembers d;
     projects := projects d; boards := bs; tasks := tasks d;
     comments := comments d; attachments := attachments d |}.

Definition set_workspaceMembers (d : Db) (ms : gmap (string * string) Role) : Db :=
  {| workspaces := workspaces d; workspaceMembers := ms;
     projects := projects d; boards := boards d; tasks := tasks d;
     comments := comments d; attachments := attachments d |}.

Definition set_comments (d : Db) (cs : list Comment) : Db :=
  {| workspaces := workspaces d; workspaceMembers := workspaceMembers d;
     projects := projects d; boards := boards d; tasks := tasks d;
     comments := cs; attachments := attachments d |}.

(** ** Errors (middleware/errorHandler.ts) *)

Inductive Error :=
| AppError (message : string) (statusCode : Z)
| ZodError (issues : list string)
| PrismaClientKnownRequestError (code : string)
| InternalError.

Definition createError (message : string) (statusCode : Z) : Error :=
  AppError message statusCode.

(** Status and [error] field of the response written by [errorHandler]. *)
Definition errorHandler (error : Error) : Z * string :=
  match error with
  | ZodError _ => (400, "Validation failed")
  | PrismaClientKnownRequestError code =>
      if decide (code = "P2002") then (409, "Resource already exists")
      else if decide (code = "P2025") then (404, "Resource not found")
      else if decide (code = "P2003") then (400, "Invalid reference")
      else (500, "Database error")
  | AppError message statusCode =>
      (if decide (statusCode = 0) then 500 else statusCode, message)
  | InternalError => (500, "Internal server error")
  end.

Definition NotFound (e : Error) : Prop := (errorHandler e).1 = 404.
Definition Forbidden (e : Error) : Prop := (errorHandler e).1 = 403.
Definition ValidationFailed (e : Error) : Prop := (errorHandler e).1 = 400.

(** ** The handler monad *)

Inductive Result (A : Type) := Ok (a : A) | Throw (e : Error).
Arguments Ok {A} a.
Arguments Throw {A} e.

Definition M (S A : Type) : Type := S -> Result A * S.

Definition ret {S A} (a : A) : M S A := fun s => (Ok a, s).
Definition throw {S A} (e : Error) : M S A := fun s => (Throw e, s).
Definition bind {S A B} (c : M S A) (k : A -> M S B) : M S B :=
  fun s => match c s with
           | (Ok a, s') => k a s'
           | (Throw e, s') => (Throw e, s')
           end.
Definition gets {S A} (f : S -> A) : M S A := fun s => (Ok (f s), s).
Definition modify {S} (f : S -> S) : M S unit := fun s => (Ok tt, f s).

Notation "'let*' x ':=' c 'in' k" := (bind c (fun x => k))
  (at level 10, x name, c at level 100, k at level 200).
Notation "c ;;; k" := (bind c (fun _ => k))
  (at level 100, k at level 200, right associativity, only parsing).

(** [for (const x of xs) { await body(x) }] *)
Fixpoint for_of {S A} (xs : list A) (body : A -> M S unit) : M S unit :=
  match xs with
  | [] => ret tt
  | x :: xs' => body x ;;; for_of xs' body
  end.

(** ** Socket emissions of the HTTP handlers: [io.to(room).emit(event, payload)] *)

Inductive Payload :=
| PTask (t : Task)
| PNull
| PTaskId (taskId : string)
| PComment (comment : Comment)
| PCommentId (commentId : string).

Record Emit := { emit_room : string; emit_event : string; emit_payload : Payload }.

Record World := { db : Db; outbox : list Emit }.

Definition App (A : Type) : Type := M World A.

Definition board_room (boardId : string) : string := "board-" +:+ boardId.
Definition workspace_room (workspaceId : string) : string := "workspace-" +:+ workspaceId.

Definition io_to_emit (room event : string) (p : Payload) : App unit :=
  modify (fun w => {| db := db w;
                      outbox := outbox w ++ [{| emit_room := room; emit_event := event;
                                                emit_payload := p |}] |}).

Definition prisma {A} (q : Db -> A) : App A := gets (fun w => q (db w)).
Definition prisma_write (f : Db -> Db) : App unit :=
  modify (fun w => {| db := f (db w); outbox := outbox w |}).

(** ** Queries (the Prisma client calls the controllers make) *)

(** [members: { where: { userId, role: { in: roles } } }] of one workspace;
    [roles = None] is the filter [where: { userId }].  The unique key
    [(workspaceId, userId)] leaves at most one row. *)
Definition members_where (d : Db) (ws userId : string) (roles : option (list Role))
  : list Role :=
  match workspaceMembers d !! (ws, userId) with
  | Some r =>
      match roles with
      | None => [r]
      | Some rs => if decide (r ∈ rs) then [r] else []
      end
  | None => []
  end.

(** The workspace a board belongs to, through [board.project.workspace]. *)
Definition board_workspace (d : Db) (b : Board) : option string :=
  p ← projects d !! projectId b;
  _ ← workspaces d !! workspaceId p;
  Some (workspaceId p).

(** A board row with [include: { project: { include: { workspace: { include:
    { members: ... } } } } }]: the board, [board.project.workspaceId] and
    [board.project.workspace.members]. *)
Record BoardInclude := {
  inc_board : Board;
  inc_workspaceId : string;
  inc_members : list Role
}.

(** [prisma.board.findUnique] with that include.  A board whose project or
    workspace row is missing is excluded by the foreign keys; the query has no
    answer for it and throws. *)
Definition board_findUnique (id userId : string) (roles : option (list Role))
  : App (option BoardInclude) :=
  fun w =>
    match boards (db w) !! id with
    | None => (Ok None, w)
    | Some b =>
        match board_workspace (db w) b with
        | None => (Throw InternalError, w)
        | Some ws =>
            (Ok (Some {| inc_board := b; inc_workspaceId := ws;
                         inc_members := members_where (db w) ws userId roles |}), w)
        end
    end.

Definition task_findUnique (d : Db) (id : string) : option Task :=
  List.find (fun t => bool_decide (task_id t = id)) (tasks d).

(** A task row with [include: { board: ... members ... }]. *)
Definition task_findUnique_include (id userId : string) (roles : option (list Role))
  : App (option (Task * BoardInclude)) :=
  fun w =>
    match task_findUnique (db w) id with
    | None => (Ok None, w)
    | Some t =>
        match board_findUnique (boardId t) userId roles w with
        | (Ok (Some b), _) => (Ok (Some (t, b)), w)
        | (Ok None, _) => (Throw InternalError, w)
        | (Throw e, _) => (Throw e, w)
        end
    end.

Definition in_column (b c : string) (t : Task) : Prop :=
  boardId t = b ∧ columnId t = c.

#[global] Instance in_column_dec b c t : Decision (in_column b c t).
Proof. unfold in_column. apply _. Defined.

Definition position_le (a b : Task) : Prop := position a ≤ position b.
Definition position_ge (a b : Task) : Prop := position b ≤ position a.

#[global] Instance position_le_dec a b : Decision (position_le a b).
Proof. unfold position_le. apply _. Defined.
#[global] Instance position_ge_dec a b : Decision (position_ge a b).
Proof. unfold position_ge. apply _. Defined.

(** [orderBy: { position: 'asc' }] and [orderBy: { position: 'desc' }] *)
Definition orderBy_position_asc (l : list Task) : list Task := merge_sort position_le l.
Definition orderBy_position_desc (l : list Task) : list Task := merge_sort position_ge l.

(** The rows of one column. *)
Definition column_tasks (d : Db) (b c : string) : list Task :=
  filter (in_column b c) (tasks d).

(** [prisma.task.findFirst({ where: { boardId, columnId }, orderBy: { position: 'desc' } })] *)
Definition task_findFirst_desc (d : Db) (b c : string) : option Task :=
  head (orderBy_position_desc (column_tasks d b c)).

(** The [where] of the [findMany] of [moveTask],
    [{ boardId, columnId, position: { gte: position } }], with [columnId]
    and [position] as the request body holds them: the Prisma client drops a
    condition whose value is [undefined] ([None]). *)
Definition move_where (b : string) (c : option string) (p : option Z) (t : Task) : Prop :=
  boardId t = b
  ∧ match c with Some c => columnId t = c | None => True end
  ∧ match p with Some p => p ≤ position t | None => True end.

#[global] Instance move_where_dec b c p t : Decision (move_where b c p t).
Proof. unfold move_where. destruct c, p; apply _. Defined.

(** [prisma.task.findMany({ where: { boardId, columnId, position: { gte } },
    orderBy: { position: 'asc' } })] *)
Definition task_findMany_gte (d : Db) (b : string) (c : option string) (p : option Z)
  : list Task :=
  orderBy_position_asc (filter (move_where b c p) (tasks d)).

(** [prisma.task.findMany({ where: { boardId }, orderBy: { position: 'asc' } })] *)
Definition task_findMany_board (d : Db) (b : string) : list Task :=
  orderBy_position_asc (filter (fun t => boardId t = b) (tasks d)).

(** The [data] argument of [task.update]: a field is written when present. *)
Record TaskUpdateInput := {
  set_title : option string;
  set_description : option string;
  set_columnId : option string;
  set_assignedTo : option string;
  set_priority : option Priority;
  set_dueDate : option (option string);
  set_position : option Z
}.

Definition apply_update (u : TaskUpdateInput) (t : Task) : Task :=
  {| task_id := task_id t;
     title := default (title t) (set_title u);
     description := match set_description u with Some s => Some s | None => description t end;
     boardId := boardId t;
     columnId := default (columnId t) (set_columnId u);
     assignedTo := match set_assignedTo u with Some s => Some s | None => assignedTo t end;
     priority := default (priority t) (set_priority u);
     dueDate := default (dueDate t) (set_dueDate u);
     position := default (position t) (set_position u) |}.

Definition update_row (id : string) (u : TaskUpdateInput) (t : Task) : Task :=
  if decide (task_id t = id) then apply_update u t else t.

(** [task.update({ where: { id }, data })]: record-not-found (P2025) when
    no row has that id. *)
Definition task_update (id : string) (u : TaskUpdateInput) (d : Db) : Result Db :=
  match task_findUnique d id with
  | None => Throw (PrismaClientKnownRequestError "P2025")
  | Some _ => Ok (set_tasks d (update_row id u <$> tasks d))
  end.

(** [task.create({ data })]: unique-constraint failure (P2002) when the
    generated id is taken. *)
Definition task_create (t : Task) (d : Db) : Result Db :=
  match task_findUnique d (task_id t) with
  | Some _ => Throw (PrismaClientKnownRequestError "P2002")
  | None => Ok (set_tasks d (tasks d ++ [t]))
  end.

(** [task.delete({ where: { id } })]; the comments and the attachments of
    the task go with it ([onDelete: Cascade]). *)
Definition task_delete (id : string) (d : Db) : Db :=
  {| workspaces := workspaces d; workspaceMembers := workspaceMembers d;
     projects := projects d; boards := boards d;
     tasks := filter (fun t => task_id t ≠ id) (tasks d);
     comments := filter (fun c => comment_taskId c ≠ id) (comments d);
     attachments := filter (fun a => attachment_taskId a ≠ id) (attachments d) |}.

(** The cascade of a delete that takes the task rows [gone] with it: the
    comments and attachments that are left. *)
Definition comments_without (gone : list Task) (d : Db) : list Comment :=
  filter (fun c => comment_taskId c ∉ task_id <$> gone) (comments d).

Definition attachments_without (gone : list Task) (d : Db) : list Attachment :=
  filter (fun a => attachment_taskId a ∉ task_id <$> gone) (attachments d).

(** Lifting a fallible write into a monad whose state holds the store. *)
Definition lift_write {S} (get : S -> Db) (put : Db -> S -> S)
    (f : Db -> Result Db) : M S unit :=
  fun s => match f (get s) with
           | Ok d' => (Ok tt, put d' s)
           | Throw e => (Throw e, s)
           end.

Definition prisma_try (f : Db -> Result Db) : App unit :=
  lift_write db (fun d w => {| db := d; outbox := outbox w |}) f.

(** ** Interactive transactions: [prisma.$transaction(async (tx) => { ... })]

    The callback runs against a working copy of the store.  When it returns,
    the copy is committed; when it throws, the copy is dropped and the
    exception is rethrown.  A write inside the transaction can fail for
    reasons outside the program (lost connection, serialization failure):
    [faults n] tells whether the [n]-th write issued on [tx] fails. *)

Definition Faults := nat -> bool.
Definition no_faults : Faults := fun _ => false.

Record TxState := { tx_db : Db; tx_writes : nat }.

Definition Tx (A : Type) : Type := M TxState A.

Definition tx_task_update (faults : Faults) (id : string) (u : TaskUpdateInput) : Tx unit :=
  fun s =>
    if faults (tx_writes s) then (Throw InternalError, s)
    else lift_write tx_db (fun d s => {| tx_db := d; tx_writes := S (tx_writes s) |})
           (task_update id u) s.

Definition transaction {A} (callback : Tx A) : App A :=
  fun w =>
    match callback {| tx_db := db w; tx_writes := 0 |} with
    | (Ok a, s) => (Ok a, {| db := tx_db s; outbox := outbox w |})
    | (Throw e, _) => (Throw e, w)
    end.

(** ** Request schemas (utils/validation.ts) *)

(** The string formats of zod that the schemas use; the library is not part
    of the repository, so its two predicates are an interface. *)
Class ZodFormats := {
  cuid : string -> bool;
  datetime : string -> bool
}.

(** JavaScript truthiness of a string. *)
Definition truthy (s : string) : bool := bool_decide (s ≠ "").

Definition length_between (lo hi : nat) (s : string) : bool :=
  bool_decide (lo ≤ String.length s)%nat && bool_decide (String.length s ≤ hi)%nat.

Definition issue (ok : bool) (path : string) : list string :=
  if ok then [] else [path].

Definition optional {A} (check : A -> bool) (o : option A) : bool :=
  match o with Some a => check a | None => true end.

(** The body of [POST /api/tasks] (CreateTaskData). *)
Record TaskBody := {
  body_title : string;
  body_description : option string;
  body_boardId : string;
  body_columnId : string;
  body_assignedTo : option string;
  body_priority : option Priority;
  body_dueDate : option string;
  body_position : option Z
}.

(** The output of [taskSchema.parse]: defaults filled in. *)
Record TaskInput := {
  in_title : string;
  in_description : option string;
  in_boardId : string;
  in_columnId : string;
  in_assignedTo : option string;
  in_priority : Priority;
  in_dueDate : option string;
  in_position : Z
}.

Section Controllers.
Context `{ZodFormats}.

Definition taskSchema_issues (b : TaskBody) : list string :=
  issue (length_between 1 200 (body_title b)) "title"
  ++ issue (optional (length_between 0 2000) (body_description b)) "description"
  ++ issue (cuid (body_boardId b)) "boardId"
  ++ issue (bool_decide (1 ≤ String.length (body_columnId b))%nat) "columnId"
  ++ issue (optional cuid (body_assignedTo b)) "assignedTo"
  ++ issue (optional datetime (body_dueDate b)) "dueDate"
  ++ issue (optional (fun p => bool_decide (0 ≤ p)) (body_position b)) "position".

Definition taskSchema_parse (b : TaskBody) : Result TaskInput :=
  match taskSchema_issues b with
  | [] => Ok {| in_title := body_title b;
                in_description := body_description b;
                in_boardId := body_boardId b;
                in_columnId := body_columnId b;
                in_assignedTo := body_assignedTo b;
                in_priority := default MEDIUM (body_priority b);
                in_dueDate := body_dueDate b;
                in_position := default 0 (body_position b) |}
  | issues => Throw (ZodError issues)
  end.

(** The body of [PUT /api/tasks/:id] (UpdateTaskData); [updateTaskSchema]
    has no defaults, so its output has the same shape. *)
Record UpdateTaskBody := {
  patch_title : option string;
  patch_description : option string;
  patch_columnId : option string;
  patch_assignedTo : option string;
  patch_priority : option Priority;
  patch_dueDate : option string;
  patch_position : option Z
}.

Definition updateTaskSchema_issues (b : UpdateTaskBody) : list string :=
  issue (optional (length_between 1 200) (patch_title b)) "title"
  ++ issue (optional (length_between 0 2000) (patch_description b)) "description"
  ++ issue (optional (fun c => bool_decide (1 ≤ String.length c)%nat) (patch_columnId b)) "columnId"
  ++ issue (optional cuid (patch_assignedTo b)) "assignedTo"
  ++ issue (optional datetime (patch_dueDate b)) "dueDate"
  ++ issue (optional (fun p => bool_decide (0 ≤ p)) (patch_position b)) "position".

Definition updateTaskSchema_parse (b : UpdateTaskBody) : Result UpdateTaskBody :=
  match updateTaskSchema_issues b with
  | [] => Ok b
  | issues => Throw (ZodError issues)
  end.

Definition parse {S A} (r : Result A) : M S A := fun s => (r, s).

(** ** Responses *)

Inductive Json :=
| JTask (message : string) (task : Payload)
| JTasks (tasks : list Task)
| JMessage (message : string)
| JBoard (message : string) (board : Board).

Record Response := { status : Z; json : Json }.

Definition payload_of (o : option Task) : Payload :=
  match o with Some t => PTask t | None => PNull end.

(** ** Task controller (controllers/taskController.ts) *)

Definition writers : option (list Role) := Some [ADMIN; MEMBER].
Definition any_member : option (list Role) := None.

(** The block [if (assignedTo) { ... }] of [createTask] and [updateTask]:
    the assignee must have a membership row in the workspace of the board. *)
Definition assignee_check (workspaceId : string) (assignedTo : option string) : App unit :=
  match assignedTo with
  | Some assignedTo =>
      if truthy assignedTo then
        let* assignee := prisma (fun d => workspaceMembers d !! (workspaceId, assignedTo)) in
        match assignee with
        | None => throw (createError "Assigned user is not a member of this workspace" 400)
        | Some _ => ret tt
        end
      else ret tt
  | None => ret tt
  end.

(** The [data] of [prisma.task.create] in [createTask]; [newId] is the
    [cuid()] generated for the row, [maxPosition] the row found by the
    [findFirst] before it. *)
Definition createTask_data (validatedData : TaskInput) (maxPosition : option Task)
    (newId : string) : Task :=
  {| task_id := newId;
     title := in_title validatedData;
     description := in_description validatedData;
     boardId := in_boardId validatedData;
     columnId := in_columnId validatedData;
     assignedTo := in_assignedTo validatedData;
     priority := in_priority validatedData;
     dueDate := match in_dueDate validatedData with
                | Some s => if truthy s then Some s else None
                | None => None
                end;
     position := if decide (in_position validatedData ≠ 0)
                 then in_position validatedData
                 else match maxPosition with
                      | Some m => position m + 1
                      | None => 0
                      end |}.

(** [updateData] of [updateTask]: the fields of the patch that are defined. *)
Definition updateTask_data (validatedData : UpdateTaskBody) : TaskUpdateInput :=
  {| set_title := patch_title validatedData;
     set_description := patch_description validatedData;
     set_columnId := patch_columnId validatedData;
     set_assignedTo := patch_assignedTo validatedData;
     set_priority := patch_priority validatedData;
     set_dueDate := (fun s => if truthy s then Some s else None)
                      <$> patch_dueDate validatedData;
     set_position := patch_position validatedData |}.

(** [createTask]; [newId] is the [cuid()] the store generates for the row. *)
Definition createTask (userId : string) (body : TaskBody) (newId : string) : App Response :=
  let* validatedData := parse (taskSchema_parse body) in
  let* board := board_findUnique (in_boardId validatedData) userId writers in
  match board with
  | None => throw (createError "Board not found" 404)
  | Some board =>
      if decide (length (inc_members board) = 0%nat)
      then throw (createError "Access denied - insufficient permissions" 403)
      else
        assignee_check (inc_workspaceId board) (in_assignedTo validatedData) ;;;
        let* maxPosition := prisma (fun d => task_findFirst_desc d (in_boardId validatedData)
                                          (in_columnId validatedData)) in
        let task := createTask_data validatedData maxPosition newId in
        prisma_try (task_create task) ;;;
        io_to_emit (board_room (in_boardId validatedData)) "taskCreated" (PTask task) ;;;
        ret {| status := 201; json := JTask "Task created successfully" (PTask task) |}
  end.

Definition getTasks (userId : string) (boardId : string) : App Response :=
  let* board := board_findUnique boardId userId any_member in
  match board with
  | None => throw (createError "Board not found" 404)
  | Some board =>
      if decide (length (inc_members board) = 0%nat)
      then throw (createError "Access denied" 403)
      else
        let* tasks := prisma (fun d => task_findMany_board d boardId) in
        ret {| status := 200; json := JTasks tasks |}
  end.

Definition updateTask (userId : string) (id : string) (body : UpdateTaskBody) : App Response :=
  let* validatedData := parse (updateTaskSchema_parse body) in
  let* task := task_findUnique_include id userId writers in
  match task with
  | None => throw (createError "Task not found" 404)
  | Some (task, board) =>
      if decide (length (inc_members board) = 0%nat)
      then throw (createError "Access denied - insufficient permissions" 403)
      else
        assignee_check (inc_workspaceId board) (patch_assignedTo validatedData) ;;;
        let updateData := updateTask_data validatedData in
        prisma_try (task_update id updateData) ;;;
        let* updatedTask := prisma (fun d => task_findUnique d id) in
        io_to_emit (board_room (boardId task)) "taskUpdated" (payload_of updatedTask) ;;;
        ret {| status := 200; json := JTask "Task updated successfully" (payload_of updatedTask) |}
  end.

Definition deleteTask (userId : string) (id : string) : App Response :=
  let* task := task_findUnique_include id userId writers in
  match task with
  | None => throw (createError "Task not found" 404)
  | Some (task, board) =>
      if decide (length (inc_members board) = 0%nat)
      then throw (createError "Access denied - insufficient permissions" 403)
      else
        prisma_write (task_delete id) ;;;
        io_to_emit (board_room (boardId task)) "taskDeleted" (PTaskId id) ;;;
        ret {| status := 200; json := JMessage "Task deleted successfully" |}
  end.

(** The body of [PUT /api/tasks/:id/move]; it is not validated.  Each field
    is what [req.body] holds: [None] when the field is absent ([undefined]),
    which the Prisma client drops from a [where] and from a [data].  The
    front end (MoveTaskData) sends both.  The Prisma schema types the two
    columns as String and Int; a body whose columnId is not a string or
    whose position is not an integer is outside this type. *)
Record MoveTaskBody := { move_columnId : option string; move_position : option Z }.

(** [data: { position }] and [data: { columnId, position }] *)
Definition data_position (p : Z) : TaskUpdateInput :=
  {| set_title := None; set_description := None; set_columnId := None;
     set_assignedTo := None; set_priority := None; set_dueDate := None;
     set_position := Some p |}.

Definition data_columnId_position (c : option string) (p : option Z) : TaskUpdateInput :=
  {| set_title := None; set_description := None; set_columnId := c;
     set_assignedTo := None; set_priority := None; set_dueDate := None;
     set_position := p |}.

(** The callback of the transaction of [moveTask]. *)
Definition moveTask_callback (faults : Faults) (tasksToUpdate : list Task)
    (id : string) (columnId : option string) (position' : option Z) : Tx unit :=
  for_of tasksToUpdate (fun taskToUpdate =>
    tx_task_update faults (task_id taskToUpdate)
      (data_position (position taskToUpdate + 1))) ;;;
  tx_task_update faults id (data_columnId_position columnId position').

Definition moveTask (faults : Faults) (userId : string) (id : string) (body : MoveTaskBody)
  : App Response :=
  let columnId := move_columnId body in
  let position' := move_position body in
  let* task := task_findUnique_include id userId writers in
  match task with
  | None => throw (createError "Task not found" 404)
  | Some (task, board) =>
      if decide (length (inc_members board) = 0%nat)
      then throw (createError "Access denied - insufficient permissions" 403)
      else
        let* tasksToUpdate := prisma (fun d => task_findMany_gte d (boardId task) columnId position') in
        transaction (moveTask_callback faults tasksToUpdate id columnId position') ;;;
        let* updatedTask := prisma (fun d => task_findUnique d id) in
        io_to_emit (board_room (boardId task)) "taskMoved" (payload_of updatedTask) ;;;
        ret {| status := 200; json := JTask "Task moved successfully" (payload_of updatedTask) |}
  end.

End Controllers.

(** ** Project controller: boards (controllers/projectController.ts) *)

(** The body of [PUT /api/projects/boards/:id]; it is not validated. *)
Record UpdateBoardBody := {
  upd_name : option string;
  upd_columns : option (list BoardColumn)
}.

Definition board_update (id : string) (body : UpdateBoardBody) (d : Db) : Result Db :=
  match boards d !! id with
  | None => Throw (PrismaClientKnownRequestError "P2025")
  | Some b =>
      Ok (set_boards d
            (<[id := {| board_name := default (board_name b) (upd_name body);
                        projectId := projectId b;
                        columns := default (columns b) (upd_columns body) |}]> (boards d)))
  end.

(** [board.delete]; the tasks of the board go with it, and with them their
    comments and attachments ([onDelete: Cascade]). *)
Definition board_delete (id : string) (d : Db) : Db :=
  let gone_tasks := filter (fun t => boardId t = id) (tasks d) in
  {| workspaces := workspaces d; workspaceMembers := workspaceMembers d;
     projects := projects d;
     boards := delete id (boards d);
     tasks := filter (fun t => boardId t ≠ id) (tasks d);
     comments := comments_without gone_tasks d;
     attachments := attachments_without gone_tasks d |}.

Definition updateBoard (userId : string) (id : string) (body : UpdateBoardBody) : App Response :=
  let* board := board_findUnique id userId (Some [ADMIN; MEMBER]) in
  match board with
  | None => throw (createError "Board not found" 404)
  | Some board =>
      if decide (length (inc_members board) = 0%nat)
      then throw (createError "Access denied - insufficient permissions" 403)
      else
        prisma_try (board_update id body) ;;;
        let* updatedBoard := prisma (fun d => boards d !! id) in
        match updatedBoard with
        | Some updatedBoard =>
            ret {| status := 200; json := JBoard "Board updated successfully" updatedBoard |}
        | None => throw InternalError
        end
  end.

Definition deleteBoard (userId : string) (id : string) : App Response :=
  let* board := board_findUnique id userId (Some [ADMIN; MEMBER]) in
  match board with
  | None => throw (createError "Board not found" 404)
  | Some board =>
      if decide (length (inc_members board) = 0%nat)
      then throw (createError "Access denied - insufficient permissions" 403)
      else
        prisma_write (board_delete id) ;;;
        ret {| status := 200; json := JMessage "Board deleted successfully" |}
  end.

(** ** Workspace controller: [removeUser] (controllers/workspaceController.ts) *)

Definition removeUser (currentUserId : string) (id targetUserId : string) : App Response :=
  let* workspace := prisma (fun d => workspaces d !! id) in
  match workspace with
  | None => throw (createError "Workspace not found" 404)
  | Some workspace =>
      let* members := prisma (fun d => members_where d id currentUserId (Some [ADMIN])) in
      if decide (length members = 0%nat)
      then throw (createError "Only workspace admins can remove users" 403)
      else if decide (createdBy workspace = targetUserId)
      then throw (createError "Cannot remove workspace creator" 400)
      else
        let* member := prisma (fun d => workspaceMembers d !! (id, targetUserId)) in
        match member with
        | None => throw (createError "User is not a member of this workspace" 404)
        | Some _ =>
            prisma_write (fun d => set_workspaceMembers d
                                     (delete (id, targetUserId) (workspaceMembers d))) ;;;
            ret {| status := 200; json := JMessage "User removed successfully" |}
        end
  end.

(** ** Socket handlers (socket/handlers.ts) *)

(** The socket.io server: the connected sockets, each with the user the
    authentication middleware attached to it, and the adapter's room table
    (room name to socket ids).  The room every socket holds under its own id
    is left out. *)
Record Io := {
  sockets : gmap string User;
  rooms : gmap string (gset string)
}.

Definition room_sockets (io : Io) (room : string) : gset string :=
  default ∅ (rooms io !! room).

Definition socket_join (sid room : string) (io : Io) : Io :=
  {| sockets := sockets io;
     rooms := <[room := {[sid]} ∪ room_sockets io room]> (rooms io) |}.

Definition socket_leave (sid room : string) (io : Io) : Io :=
  {| sockets := sockets io;
     rooms := let rest := room_sockets io room ∖ {[sid]} in
              if decide (rest = ∅) then delete room (rooms io)
              else <[room := rest]> (rooms io) |}.

Inductive SocketData :=
| DMessage (message : string)
| DUserBoard (user : User) (boardId : string)
| DBoard (boardId : string)
| DUserWorkspace (user : User) (workspaceId : string)
| DWorkspace (workspaceId : string).

(** An emission with the sockets it is delivered to. *)
Record Delivery := {
  recipients : gset string;
  event : string;
  data : SocketData
}.

(** [socket.emit(event, data)] *)
Definition socket_emit (sid event : string) (data : SocketData) : Delivery :=
  {| recipients := {[sid]}; event := event; data := data |}.

(** [socket.to(room).emit(event, data)]: the room without the sender. *)
Definition socket_to_emit (io : Io) (sid room event : string) (data : SocketData) : Delivery :=
  {| recipients := room_sockets io room ∖ {[sid]}; event := event; data := data |}.

(** The sockets that receive [io.to(room).emit(...)] of an HTTP handler. *)
Definition deliver (io : Io) (e : Emit) : gset string := room_sockets io (emit_room e).

(** [io.on('connection', ...)] after the authentication middleware accepted
    the token of [user]; socket ids are fresh. *)
Definition connection (sid : string) (user : User) (io : Io) : Io :=
  match sockets io !! sid with
  | Some _ => io
  | None => {| sockets := <[sid := user]> (sockets io); rooms := rooms io |}
  end.

(** [socket.on('join-board', ...)] on socket [sid], against store [d]. *)
Definition join_board (d : Db) (sid boardId : string) (io : Io) : Io * list Delivery :=
  match sockets io !! sid with
  | None => (io, [])
  | Some user =>
      match board_findUnique boardId (user_id user) None {| db := d; outbox := [] |} with
      | (Ok None, _) =>
          (io, [socket_emit sid "error" (DMessage "Board not found")])
      | (Ok (Some board), _) =>
          if decide (length (inc_members board) = 0%nat)
          then (io, [socket_emit sid "error" (DMessage "Access denied")])
          else
            let io' := socket_join sid (board_room boardId) io in
            (io', [socket_to_emit io' sid (board_room boardId) "user-joined"
                     (DUserBoard user boardId);
                   socket_emit sid "joined-board" (DBoard boardId)])
      | (Throw _, _) =>
          (io, [socket_emit sid "error" (DMessage "Failed to join board")])
      end
  end.

Definition leave_board (sid boardId : string) (io : Io) : Io * list Delivery :=
  match sockets io !! sid with
  | None => (io, [])
  | Some user =>
      let io' := socket_leave sid (board_room boardId) io in
      (io', [socket_to_emit io' sid (board_room boardId) "user-left" (DUserBoard user boardId)])
  end.

Definition join_workspace (d : Db) (sid workspaceId : string) (io : Io) : Io * list Delivery :=
  match sockets io !! sid with
  | None => (io, [])
  | Some user =>
      match workspaces d !! workspaceId with
      | None => (io, [socket_emit sid "error" (DMessage "Workspace not found")])
      | Some _ =>
          if decide (length (members_where d workspaceId (user_id user) None) = 0%nat)
          then (io, [socket_emit sid "error" (DMessage "Access denied")])
          else
            let io' := socket_join sid (workspace_room workspaceId) io in
            (io', [socket_to_emit io' sid (workspace_room workspaceId) "user-joined-workspace"
                     (DUserWorkspace user workspaceId);
                   socket_emit sid "joined-workspace" (DWorkspace workspaceId)])
      end
  end.

Definition leave_workspace (sid workspaceId : string) (io : Io) : Io * list Delivery :=
  match sockets io !! sid with
  | None => (io, [])
  | Some user =>
      let io' := socket_leave sid (workspace_room workspaceId) io in
      (io', [socket_to_emit io' sid (workspace_room workspaceId) "user-left-workspace"
               (DUserWorkspace user workspaceId)])
  end.

(** A closed socket leaves every room and the table of sockets.  (The
    user-left notifications of the disconnect handler are not modelled.) *)
Definition disconnect (sid : string) (io : Io) : Io :=
  {| sockets := delete sid (sockets io);
     rooms := filter (fun kv => kv.2 ≠ ∅) ((fun s => s ∖ {[sid]}) <$> rooms io) |}.

(** The events a socket server processes, and a run of them against a store
    that does not change meanwhile. *)
Inductive SocketEvent :=
| Connection (sid : string) (user : User)
| JoinBoard (sid boardId : string)
| LeaveBoard (sid boardId : string)
| JoinWorkspace (sid workspaceId : string)
| LeaveWorkspace (sid workspaceId : string)
| Disconnect (sid : string).

Definition handle (d : Db) (e : SocketEvent) (io : Io) : Io :=
  match e with
  | Connection sid user => connection sid user io
  | JoinBoard sid b => (join_board d sid b io).1
  | LeaveBoard sid b => (leave_board sid b io).1
  | JoinWorkspace sid w => (join_workspace d sid w io).1
  | LeaveWorkspace sid w => (leave_workspace sid w io).1
  | Disconnect sid => disconnect sid io
  end.

Definition handle_all (d : Db) (es : list SocketEvent) (io : Io) : Io :=
  foldl (fun io e => handle d e io) io es.

Definition io_init : Io := {| sockets := ∅; rooms := ∅ |}.

(** ** Board settings form (frontend, CreateBoardModal) *)

(** [tasksByColumnId] is a plain JavaScript object, created as [{}] and used
    as a map from column ids to task lists; the maps below are the tables of
    its own properties.  Reading [obj[key]] gives the own property or, when
    there is none, the property the object inherits from [Object.prototype].
    [Object_prototype] lists the inherited properties with the [length] of
    their value: the number of parameters of the function, and none for the
    object that [__proto__] gives. *)
Definition Object_prototype : gmap string (option nat) :=
  list_to_map
    [ ("constructor", Some 1%nat); ("__proto__", None);
      ("hasOwnProperty", Some 1%nat); ("isPrototypeOf", Some 1%nat);
      ("propertyIsEnumerable", Some 1%nat); ("toLocaleString", Some 0%nat);
      ("toString", Some 0%nat); ("valueOf", Some 0%nat);
      ("__defineGetter__", Some 2%nat); ("__defineSetter__", Some 2%nat);
      ("__lookupGetter__", Some 1%nat); ("__lookupSetter__", Some 1%nat) ].

Inductive JsValue :=
| JsArray (ts : list Task)
| JsInherited (length : option nat)
| JsUndefined.

(** [obj[key]] *)
Definition js_get (own : gmap string (list Task)) (key : string) : JsValue :=
  match own !! key with
  | Some ts => JsArray ts
  | None =>
      match Object_prototype !! key with
      | Some length => JsInherited length
      | None => JsUndefined
      end
  end.

(** [tasksByColumnId] of ProjectPage, the loaded tasks grouped by column:
    [tasks.reduce((acc, task) => { if (!acc[task.columnId])
    acc[task.columnId] = []; acc[task.columnId].push(task); return acc; }, {})].
    An array is truthy, also when empty.  An inherited value is truthy too
    and has no [push]: for a task in a column of such an id the reduce throws
    a TypeError, which is the result [None]. *)
Definition tasksByColumnId_step (acc : option (gmap string (list Task))) (task : Task)
  : option (gmap string (list Task)) :=
  acc ← acc;
  match js_get acc (columnId task) with
  | JsArray ts => Some (<[columnId task := (ts ++ [task])%list]> acc)
  | JsUndefined => Some (<[columnId task := [task]]> acc)
  | JsInherited _ => None
  end.

Definition tasksByColumnId (tasks : list Task) : option (gmap string (list Task)) :=
  foldl tasksByColumnId_step (Some ∅) tasks.

(** The [columns] field array of the form and the error banner. *)
Record FormState := {
  fields : list BoardColumn;
  error : option string
}.

Definition dquote : string := String (Ascii.ascii_of_nat 34) "".

(** [removeColumn]; [tasksInColumn_length] is [tasksInColumn.length] for
    [tasksInColumn = tasksByColumnId[columnId] || []]: the length of the
    array, the [length] of an inherited value, which is truthy, or 0 for the
    empty array that stands in for [undefined].  It is [None] when
    [undefined], and [undefined > 0] is false. *)
Definition removeColumn (tasksByColumnId : gmap string (list Task)) (index : nat)
    (st : FormState) : FormState :=
  match fields st !! index with
  | None => st
  | Some column =>
      let tasksInColumn_length :=
        match js_get tasksByColumnId (col_id column) with
        | JsArray ts => Some (length ts)
        | JsInherited length => length
        | JsUndefined => Some 0%nat
        end in
      let removed :=
        if decide (1 < length (fields st))%nat
        then {| fields := delete index (fields st); error := error st |}
        else st in
      match tasksInColumn_length with
      | Some n =>
          if decide (0 < n)%nat
          then {| fields := fields st;
                  error := Some ("Cannot delete column " +:+ dquote +:+ col_title column
                                 +:+ dquote +:+ " because it has "
                                 +:+ pretty n +:+ " task(s).") |}
          else removed
      | None => removed
      end
  end.

(** ** The formats of zod 3.22 (the version of package.json), on strings of
    one-byte characters *)

Definition is_digit (a : Ascii.ascii) : bool :=
  let n := Ascii.nat_of_ascii a in bool_decide (48 ≤ n ≤ 57)%nat.

(** [\s] restricted to one-byte characters. *)
Definition is_space (a : Ascii.ascii) : bool :=
  let n := Ascii.nat_of_ascii a in bool_decide (9 ≤ n ≤ 13)%nat || bool_decide (n = 32%nat).

Fixpoint string_forallb (p : Ascii.ascii -> bool) (s : string) : bool :=
  match s with
  | EmptyString => true
  | String a s' => p a && string_forallb p s'
  end.

(** [/^c[^\s-]{8,}$/i] *)
Definition cuidRegex (s : string) : bool :=
  match s with
  | String a rest =>
      (bool_decide (a = "c"%char) || bool_decide (a = "C"%char))
      && bool_decide (8 ≤ String.length rest)%nat
      && string_forallb (fun x => negb (is_space x) && negb (bool_decide (x = "-"%char))) rest
  | EmptyString => false
  end.

(** [n] digits at the head of [s], then the rest. *)
Fixpoint digits (n : nat) (s : string) : option string :=
  match n with
  | O => Some s
  | S n' => match s with
            | String a s' => if is_digit a then digits n' s' else None
            | EmptyString => None
            end
  end.

Definition lit (c : Ascii.ascii) (s : string) : option string :=
  match s with
  | String a s' => if bool_decide (a = c) then Some s' else None
  | EmptyString => None
  end.

(** [/^\d{4}-\d{2}-\d{2}T\d{2}:\d{2}:\d{2}(\.\d+)?Z$/] *)
Definition datetimeRegex (s : string) : bool :=
  match (s1 ← digits 4 s; s2 ← lit "-"%char s1; s3 ← digits 2 s2; s4 ← lit "-"%char s3;
         s5 ← digits 2 s4; s6 ← lit "T"%char s5; s7 ← digits 2 s6; s8 ← lit ":"%char s7;
         s9 ← digits 2 s8; s10 ← lit ":"%char s9; digits 2 s10) with
  | Some "Z" => true
  | Some (String "."%char (String a frac)) =>
      is_digit a &&
      match String.length frac with
      | O => false
      | S n => string_forallb is_digit (String.substring 0 n frac)
               && bool_decide (String.substring n 1 frac = "Z")
      end
  | _ => false
  end.

Definition zod : ZodFormats := {| cuid := cuidRegex; datetime := datetimeRegex |}.

(** ** Vocabulary of the statements *)

(** The workspace of a board id, and the role a user holds there. *)
Definition board_workspaceId (d : Db) (boardId : string) : option string :=
  b ← boards d !! boardId; board_workspace d b.

Definition role_on_board (d : Db) (userId boardId : string) : option Role :=
  ws ← board_workspaceId d boardId; workspaceMembers d !! (ws, userId).

(** The task table has a primary key. *)
Definition primary_key (d : Db) : Prop := NoDup (task_id <$> tasks d).

(** The positions of a column, in table order. *)
Definition column_positions (d : Db) (b c : string) : list Z :=
  position <$> column_tasks d b c.

(** The ordering invariant of the specification: the positions of the column
    are [0, 1, ..., n-1], each once. *)
Definition dense (d : Db) (b c : string) : Prop :=
  column_positions d b c ≡ₚ seqZ 0 (Z.of_nat (length (column_tasks d b c))).

(** The weaker invariant: no position occurs twice in the column. *)
Definition distinct_positions (d : Db) (b c : string) : Prop :=
  NoDup (column_positions d b c).

(** A row after a committed [moveTask] of row [id] of board [b] with the
    body fields [c] and [p]: shifted if the [findMany] selected it, then
    written if it is the row moved. *)
Definition move_row (b : string) (c : option string) (p : option Z) (id : string) (t : Task)
  : Task :=
  update_row id (data_columnId_position c p)
    (if decide (move_where b c p t) then apply_update (data_position (position t + 1)) t
     else t).


(** The shift loop of [moveTask] on its own, and the table it leaves when
    every write succeeds. *)
Definition shift_loop (faults : Faults) (l : list Task) : Tx unit :=
  for_of l (fun t => tx_task_update faults (task_id t) (data_position (position t + 1))).

Definition shift_all (l : list Task) (rows : list Task) : list Task :=
  foldl (fun rows t => update_row (task_id t) (data_position (position t + 1)) <$> rows) rows l.

(** The row of [l] read for a given id. *)
Definition snapshot (l : list Task) (id : string) : option Task :=
  List.find (fun t => bool_decide (task_id t = id)) l.







(** ** A sample workspace: Alice (ADMIN, creator), Bob (MEMBER), Carol (VIEWER),
    one project, one board with the columns todo, doing, done *)

Definition alice : string := "cuseralice01".
Definition bob : string := "cuserbob0001".
Definition carol : string := "cusercarol01".
Definition board1 : string := "cboard000001".

Definition sample_columns : list BoardColumn :=
  [ {| col_id := "todo"; col_title := "To Do"; col_position := Some 0 |};
    {| col_id := "doing"; col_title := "Doing"; col_position := Some 1 |};
    {| col_id := "done"; col_title := "Done"; col_position := Some 2 |} ].

Definition sample_db : Db :=
  {| workspaces := {[ "cworkspace01" := {| workspace_name := "W"; createdBy := alice |} ]};
     workspaceMembers := {[ ("cworkspace01", alice) := ADMIN;
                            ("cworkspace01", bob) := MEMBER;
                            ("cworkspace01", carol) := VIEWER ]};
     projects := {[ "cproject0001" := {| project_name := "P"; workspaceId := "cworkspace01" |} ]};
     boards := {[ board1 := {| board_name := "Main Board"; projectId := "cproject0001";
                               columns := sample_columns |} ]};
     tasks := []; comments := []; attachments := [] |}.

Definition sample_world : World := {| db := sample_db; outbox := [] |}.

Definition sample_body (column : string) (p : option Z) : TaskBody :=
  {| body_title := "Prepare report"; body_description := None; body_boardId := board1;
     body_columnId := column; body_assignedTo := None; body_priority := None;
     body_dueDate := None; body_position := p |}.

Definition sample_task (id column : string) (p : Z) : Task :=
  {| task_id := id; title := "Prepare report"; description := None; boardId := board1;
     columnId := column; assignedTo := None; priority := MEDIUM; dueDate := None;
     position := p |}.

Definition with_tasks (ts : list Task) : World :=
  {| db := set_tasks sample_db ts; outbox := [] |}.

(** ** Further vocabulary and sample data *)




Definition two_in_todo : World :=
  with_tasks [sample_task "ctask0000001" "todo" 0; sample_task "ctask0000002" "todo" 1].

(** The body of an updateBoard request that only replaces the column set. *)
Definition keep_name (cs : list BoardColumn) : UpdateBoardBody :=
  {| upd_name := None; upd_columns := Some cs |}.


(** A form whose second column is called Constructor. *)
Definition constructor_form : FormState :=
  {| fields := [ {| col_id := "todo"; col_title := "To Do"; col_position := Some 0 |};
                 {| col_id := "constructor"; col_title := "Constructor";
                    col_position := Some 1 |} ];
     error := None |}.

Definition ghost_body : TaskBody := sample_body "no-such-column" None.

(** A storage layer whose third write inside a transaction fails. *)
Definition third_write_fails : Faults := fun n => bool_decide (n = 2%nat).

Definition three_in_todo : World :=
  with_tasks [sample_task "ctask0000001" "todo" 0; sample_task "ctask0000002" "todo" 1;
              sample_task "ctask0000003" "doing" 0].

(** The user has a membership row in the workspace of the board. *)
Definition member_of_board (d : Db) (u b : string) : Prop :=
  is_Some (role_on_board d u b).

(** Every socket in the room of a board belongs to a member. *)
Definition rooms_of_members (d : Db) (io : Io) : Prop :=
  ∀ b sid, sid ∈ room_sockets io (board_room b) →
    ∃ user, sockets io !! sid = Some user ∧ member_of_board d (user_id user) b.

Definition carol_user : User :=
  {| user_id := carol; user_email := "carol@example.org"; user_name := "Carol" |}.

Definition mallory_user : User :=
  {| user_id := "cusermallory"; user_email := "mallory@example.org"; user_name := "Mallory" |}.

Definition carol_joins : list SocketEvent :=
  [Connection "socket-carol" carol_user; Connection "socket-mallory" mallory_user;
   JoinBoard "socket-carol" board1; JoinBoard "socket-mallory" board1].

Definition taskMoved_board1 : Emit :=
  {| emit_room := board_room board1; emit_event := "taskMoved";
     emit_payload := PTask (sample_task "ctask0000001" "doing" 0) |}.

(** * Further handlers *)

(** ** Task controller: reading one task *)

(** [getTask]; the result is the [task] of the response body. *)
Definition getTask (userId : string) (id : string) : App Task :=
  let* task := task_findUnique_include id userId any_member in
  match task with
  | None => throw (createError "Task not found" 404)
  | Some (task, board) =>
      if decide (length (inc_members board) = 0%nat)
      then throw (createError "Access denied" 403)
      else ret task
  end.

(** The four mutations of the task controller as requests. *)
Inductive TaskRequest :=
| ReqCreate (body : TaskBody) (newId : string)
| ReqUpdate (id : string) (body : UpdateTaskBody)
| ReqDelete (id : string)
| ReqMove (faults : Faults) (id : string) (body : MoveTaskBody).

Definition run_request `{ZodFormats} (userId : string) (req : TaskRequest) : App Response :=
  match req with
  | ReqCreate body newId => createTask userId body newId
  | ReqUpdate id body => updateTask userId id body
  | ReqDelete id => deleteTask userId id
  | ReqMove faults id body => moveTask faults userId id body
  end.


(** No task has a negative position. *)
Definition nonnegative_positions (d : Db) : Prop :=
  ∀ t, t ∈ tasks d → 0 ≤ position t.

(** A request whose position, if it carries one, is not negative; only
    [moveTask] can carry a negative one, its body is not validated. *)
Definition nonnegative_request (req : TaskRequest) : Prop :=
  match req with
  | ReqMove _ _ body =>
      match move_position body with Some p => 0 ≤ p | None => True end
  | _ => True
  end.

(** ** The board view (frontend, components/board/KanbanBoard.tsx) *)

(** [Array.prototype.sort((a, b) => a.position - b.position)]: a stable sort
    in ascending order of position. *)
Fixpoint insert_by_position (x : Task) (l : list Task) : list Task :=
  match l with
  | [] => [x]
  | y :: l' =>
      if decide (position x ≤ position y) then x :: y :: l'
      else y :: insert_by_position x l'
  end.

Definition sort_by_position (l : list Task) : list Task :=
  foldr insert_by_position [] l.

Definition getTasksByColumn (tasks : list Task) (column : string) : list Task :=
  sort_by_position (filter (fun task => columnId task = column) tasks).

(** [handleDragStart]: the task that is being dragged afterwards. *)
Definition handleDragStart (userRole : Role) (task : Task) (draggedTask : option Task)
  : option Task :=
  if decide (userRole = VIEWER) then draggedTask else Some task.

(** [handleDrop] on a column: the call [onTaskMove(id, columnId, newPosition)]
    it makes, if any; [onTaskMove] is [handleTaskMoved] of ProjectPage, which
    sends [moveTask(id, { columnId, position })]. *)
Definition handleDrop (tasks : list Task) (draggedTask : option Task) (column : string)
  : option (string * MoveTaskBody) :=
  match draggedTask with
  | None => None
  | Some dragged =>
      if decide (columnId dragged = column) then None
      else
        let columnTasks := getTasksByColumn tasks column in
        let newPosition := Z.of_nat (length columnTasks) in
        Some (task_id dragged, {| move_columnId := Some column; move_position := Some newPosition |})
  end.

(** The drag events of the board view, on the state [draggedTask]: each
    handler gives the next state and the call of [onTaskMove] it makes, if
    any ([handleDragEnd] and a completed drop reset the state). *)
Inductive DragEvent :=
| DragStart (task : Task)
| DragEnd
| Drop (column : string).

Definition drag_step (userRole : Role) (tasks : list Task) (draggedTask : option Task)
    (e : DragEvent) : option Task * option (string * MoveTaskBody) :=
  match e with
  | DragStart task => (handleDragStart userRole task draggedTask, None)
  | DragEnd => (None, None)
  | Drop column =>
      match handleDrop tasks draggedTask column with
      | Some call => (None, Some call)
      | None => (draggedTask, None)
      end
  end.

(** The calls of [onTaskMove] made along a sequence of drag events. *)
Fixpoint drag_calls (userRole : Role) (tasks : list Task) (draggedTask : option Task)
    (es : list DragEvent) : list (string * MoveTaskBody) :=
  match es with
  | [] => []
  | e :: es =>
      let '(draggedTask', call) := drag_step userRole tasks draggedTask e in
      (match call with Some c => [c] | None => [] end
       ++ drag_calls userRole tasks draggedTask' es)%list
  end.

(** ** Socket handlers: presence signals and the list of online users *)

Inductive SignalData :=
| SUserTyping (user : User) (taskId : string) (typing : bool)
| STaskFocused (user : User) (taskId : string)
| STaskUnfocused (user : User) (taskId : string)
| SOnlineUsers (boardId : string) (users : list User).

Record Signal := {
  signal_recipients : gset string;
  signal_event : string;
  signal_data : SignalData
}.

(** [socket.to(`board-${boardId}`).emit(event, data)] of a signal handler:
    no query, no check, the room of the board without the sender. *)
Definition relay (io : Io) (sid boardId event : string) (data : User -> SignalData)
  : list Signal :=
  match sockets io !! sid with
  | None => []
  | Some user =>
      [{| signal_recipients := room_sockets io (board_room boardId) ∖ {[sid]};
          signal_event := event;
          signal_data := data user |}]
  end.

Definition typing_start (sid taskId boardId : string) (io : Io) : list Signal :=
  relay io sid boardId "user-typing" (fun user => SUserTyping user taskId true).

Definition typing_stop (sid taskId boardId : string) (io : Io) : list Signal :=
  relay io sid boardId "user-typing" (fun user => SUserTyping user taskId false).

Definition task_focus (sid taskId boardId : string) (io : Io) : list Signal :=
  relay io sid boardId "task-focused" (fun user => STaskFocused user taskId).

Definition task_unfocus (sid taskId boardId : string) (io : Io) : list Signal :=
  relay io sid boardId "task-unfocused" (fun user => STaskUnfocused user taskId).

(** The users pushed by the [room.forEach] of get-online-users: one for
    every socket of the room that is connected.  (The order of the sockets
    in the room is not modelled.) *)
Definition onlineUsers (io : Io) (boardId : string) : list User :=
  omap (fun socketId => sockets io !! socketId)
       (elements (room_sockets io (board_room boardId))).

(** [socket.on('get-online-users', ...)] *)
Definition get_online_users (sid boardId : string) (io : Io) : list Signal :=
  match sockets io !! sid with
  | None => []
  | Some _ =>
      [{| signal_recipients := {[sid]};
          signal_event := "online-users";
          signal_data := SOnlineUsers boardId (onlineUsers io boardId) |}]
  end.

(** Every socket in a room is connected. *)
Definition rooms_of_connected (io : Io) : Prop :=
  ∀ room sid, sid ∈ room_sockets io room → is_Some (sockets io !! sid).

(** Every socket in the room of a workspace belongs to a member. *)
Definition workspace_rooms_of_members (d : Db) (io : Io) : Prop :=
  ∀ ws sid, sid ∈ room_sockets io (workspace_room ws) →
    ∃ user, sockets io !! sid = Some user
            ∧ is_Some (workspaces d !! ws)
            ∧ is_Some (workspaceMembers d !! (ws, user_id user)).

(** ** Workspace controller: the other handlers (controllers/workspaceController.ts) *)

Definition set_workspaces (d : Db) (wss : gmap string Workspace) : Db :=
  {| workspaces := wss; workspaceMembers := workspaceMembers d;
     projects := projects d; boards := boards d; tasks := tasks d;
     comments := comments d; attachments := attachments d |}.

(** The body of createWorkspace and updateWorkspace. *)
Record WorkspaceBody := {
  wbody_name : string;
  wbody_description : option string
}.

Definition workspaceSchema_issues (b : WorkspaceBody) : list string :=
  (issue (length_between 1 100 (wbody_name b)) "name"
   ++ issue (optional (length_between 0 500) (wbody_description b)) "description")%list.

Definition workspaceSchema_parse (b : WorkspaceBody) : Result WorkspaceBody :=
  match workspaceSchema_issues b with
  | [] => Ok b
  | issues => Throw (ZodError issues)
  end.

(** The responses of the workspace handlers: the workspace or the member
    row they carry. *)
Inductive WorkspaceJson :=
| JWorkspace (message : string) (id : string) (workspace : Workspace)
| JWorkspaceRole (id : string) (workspace : Workspace) (userRole : Role)
| JMember (message : string) (workspaceId userId : string) (role : Role)
| JDone (message : string).

Record WorkspaceResponse := { ws_status : Z; ws_json : WorkspaceJson }.

(** [createWorkspace]; [newId] is the generated id of the workspace row.
    The nested create writes the creator's membership row, with role ADMIN. *)
Definition createWorkspace (userId : string) (body : WorkspaceBody) (newId : string)
  : App WorkspaceResponse :=
  let* validatedData := parse (workspaceSchema_parse body) in
  let workspace := {| workspace_name := wbody_name validatedData; createdBy := userId |} in
  prisma_try (fun d =>
    match workspaces d !! newId, workspaceMembers d !! (newId, userId) with
    | None, None =>
        Ok (set_workspaceMembers
              (set_workspaces d (<[newId := workspace]> (workspaces d)))
              (<[(newId, userId) := ADMIN]> (workspaceMembers d)))
    | _, _ => Throw (PrismaClientKnownRequestError "P2002")
    end) ;;;
  ret {| ws_status := 201;
         ws_json := JWorkspace "Workspace created successfully" newId workspace |}.

(** [getWorkspace]: [workspace.members.find(member => member.userId === userId)]. *)
Definition getWorkspace (userId : string) (id : string) : App WorkspaceResponse :=
  let* workspace := prisma (fun d => workspaces d !! id) in
  match workspace with
  | None => throw (createError "Workspace not found" 404)
  | Some workspace =>
      let* userMembership := prisma (fun d => workspaceMembers d !! (id, userId)) in
      match userMembership with
      | None => throw (createError "Access denied" 403)
      | Some role =>
          ret {| ws_status := 200; ws_json := JWorkspaceRole id workspace role |}
      end
  end.

Definition updateWorkspace (userId : string) (id : string) (body : WorkspaceBody)
  : App WorkspaceResponse :=
  let* validatedData := parse (workspaceSchema_parse body) in
  let* workspace := prisma (fun d => workspaces d !! id) in
  match workspace with
  | None => throw (createError "Workspace not found" 404)
  | Some workspace =>
      let* members := prisma (fun d => members_where d id userId (Some [ADMIN])) in
      if decide (length members = 0%nat)
      then throw (createError "Only workspace admins can update workspace" 403)
      else
        let updatedWorkspace :=
          {| workspace_name := wbody_name validatedData; createdBy := createdBy workspace |} in
        prisma_write (fun d => set_workspaces d (<[id := updatedWorkspace]> (workspaces d))) ;;;
        ret {| ws_status := 200;
               ws_json := JWorkspace "Workspace updated successfully" id updatedWorkspace |}
  end.

(** [workspace.delete]: the membership rows, the projects, their boards, the
    tasks of these boards and the comments and attachments of these tasks go
    with the workspace ([onDelete: Cascade]). *)
Definition workspace_delete (id : string) (d : Db) : Db :=
  let gone_projects := filter (fun kv => workspaceId kv.2 = id) (projects d) in
  let gone_boards := filter (fun kv => is_Some (gone_projects !! projectId kv.2)) (boards d) in
  let gone_tasks := filter (fun t => is_Some (gone_boards !! boardId t)) (tasks d) in
  {| workspaces := delete id (workspaces d);
     workspaceMembers := filter (fun kv => kv.1.1 ≠ id) (workspaceMembers d);
     projects := filter (fun kv => workspaceId kv.2 ≠ id) (projects d);
     boards := filter (fun kv => gone_projects !! projectId kv.2 = None) (boards d);
     tasks := filter (fun t => gone_boards !! boardId t = None) (tasks d);
     comments := comments_without gone_tasks d;
     attachments := attachments_without gone_tasks d |}.

Definition deleteWorkspace (userId : string) (id : string) : App WorkspaceResponse :=
  let* workspace := prisma (fun d => workspaces d !! id) in
  match workspace with
  | None => throw (createError "Workspace not found" 404)
  | Some workspace =>
      if decide (createdBy workspace ≠ userId)
      then throw (createError "Only workspace creator can delete workspace" 403)
      else
        prisma_write (workspace_delete id) ;;;
        ret {| ws_status := 200; ws_json := JDone "Workspace deleted successfully" |}
  end.

(** The body of inviteUser; [inviteUserSchema] fills in the role MEMBER. *)
Record InviteUserBody := {
  invite_email : string;
  invite_role : option Role
}.

(** [email_format] is zod's email format, [users] the unique index of the
    user table on the email address (address to user id); no handler of the
    model writes the user table. *)
Definition inviteUser (email_format : string -> bool) (users : gmap string string)
    (userId : string) (id : string) (body : InviteUserBody) : App WorkspaceResponse :=
  let* validatedData :=
    parse (if email_format (invite_email body)
           then Ok (invite_email body, default MEMBER (invite_role body))
           else Throw (ZodError ["email"])) in
  let '(email, role) := validatedData in
  let* workspace := prisma (fun d => workspaces d !! id) in
  match workspace with
  | None => throw (createError "Workspace not found" 404)
  | Some workspace =>
      let* members := prisma (fun d => members_where d id userId (Some [ADMIN])) in
      if decide (length members = 0%nat)
      then throw (createError "Only workspace admins can invite users" 403)
      else
        match users !! email with
        | None => throw (createError "User not found" 404)
        | Some invitedUser =>
            let* existingMember := prisma (fun d => workspaceMembers d !! (id, invitedUser)) in
            match existingMember with
            | Some _ => throw (createError "User is already a member of this workspace" 409)
            | None =>
                prisma_write (fun d => set_workspaceMembers d
                                         (<[(id, invitedUser) := role]> (workspaceMembers d))) ;;;
                ret {| ws_status := 201;
                       ws_json := JMember "User invited successfully" id invitedUser role |}
            end
        end
  end.

(** The body of updateUserRole. *)
Record UpdateUserRoleBody := {
  role_userId : string;
  role_role : Role
}.

Definition updateUserRole `{ZodFormats} (currentUserId : string) (id : string)
    (body : UpdateUserRoleBody) : App WorkspaceResponse :=
  let* validatedData :=
    parse (if cuid (role_userId body) then Ok body else Throw (ZodError ["userId"])) in
  let targetUserId := role_userId validatedData in
  let role := role_role validatedData in
  let* workspace := prisma (fun d => workspaces d !! id) in
  match workspace with
  | None => throw (createError "Workspace not found" 404)
  | Some workspace =>
      let* members := prisma (fun d => members_where d id currentUserId (Some [ADMIN])) in
      if decide (length members = 0%nat)
      then throw (createError "Only workspace admins can update user roles" 403)
      else if decide (createdBy workspace = targetUserId ∧ role ≠ ADMIN)
      then throw (createError "Cannot change workspace creator role" 400)
      else
        prisma_try (fun d =>
          match workspaceMembers d !! (id, targetUserId) with
          | None => Throw (PrismaClientKnownRequestError "P2025")
          | Some _ =>
              Ok (set_workspaceMembers d
                    (<[(id, targetUserId) := role]> (workspaceMembers d)))
          end) ;;;
        ret {| ws_status := 200;
               ws_json := JMember "User role updated successfully" id targetUserId role |}
  end.

(** The mutations of the workspace controller as requests of one user. *)
Inductive WorkspaceRequest :=
| WsCreate (body : WorkspaceBody) (newId : string)
| WsUpdate (id : string) (body : WorkspaceBody)
| WsDelete (id : string)
| WsInvite (email_format : string -> bool) (users : gmap string string) (id : string)
    (body : InviteUserBody)
| WsRemove (id targetUserId : string)
| WsRole (id : string) (body : UpdateUserRoleBody).

(** The store after a request (the response aside). *)
Definition after_workspace_request `{ZodFormats} (userId : string) (req : WorkspaceRequest)
    (w : World) : World :=
  match req with
  | WsCreate body newId => (createWorkspace userId body newId w).2
  | WsUpdate id body => (updateWorkspace userId id body w).2
  | WsDelete id => (deleteWorkspace userId id w).2
  | WsInvite email_format users id body => (inviteUser email_format users userId id body w).2
  | WsRemove id target => (removeUser userId id target w).2
  | WsRole id body => (updateUserRole userId id body w).2
  end.

(** The creator of every workspace holds the role ADMIN in it. *)
Definition creator_is_admin (d : Db) : Prop :=
  ∀ id workspace, workspaces d !! id = Some workspace →
    workspaceMembers d !! (id, createdBy workspace) = Some ADMIN.

(** ** Project controller: createBoard (controllers/projectController.ts) *)

(** The default of the column [columns] of the board table (schema.prisma). *)
Definition default_columns : list BoardColumn :=
  [ {| col_id := "todo"; col_title := "To Do"; col_position := None |};
    {| col_id := "in-progress"; col_title := "In Progress"; col_position := None |};
    {| col_id := "done"; col_title := "Done"; col_position := None |};
    {| col_id := "shelved"; col_title := "Shelved"; col_position := None |} ].

Record BoardBody := {
  bbody_name : string;
  bbody_projectId : string
}.

(** [prisma.project.findUnique] with [include: { workspace: { include:
    { members: ... } } }]: the project and [project.workspace.members]. *)
Definition project_findUnique (id userId : string) (roles : option (list Role))
  : App (option (Project * list Role)) :=
  fun w =>
    match projects (db w) !! id with
    | None => (Ok None, w)
    | Some p =>
        match workspaces (db w) !! workspaceId p with
        | None => (Throw InternalError, w)
        | Some _ => (Ok (Some (p, members_where (db w) (workspaceId p) userId roles)), w)
        end
    end.

Definition board_create (id : string) (b : Board) (d : Db) : Result Db :=
  match boards d !! id with
  | Some _ => Throw (PrismaClientKnownRequestError "P2002")
  | None => Ok (set_boards d (<[id := b]> (boards d)))
  end.

(** ** Comments (controllers/taskController.ts) *)

Definition comment_findUnique (d : Db) (id : string) : option Comment :=
  List.find (fun c => bool_decide (comment_id c = id)) (comments d).

(** [prisma.comment.findMany({ where: { taskId }, orderBy: { createdAt: 'asc' } })] *)
Definition comment_findMany (d : Db) (taskId : string) : list Comment :=
  filter (fun c => comment_taskId c = taskId) (comments d).

(** [prisma.comment.findUnique] with [include: { task: { include: { board: true } } }];
    the foreign key excludes a comment without its task. *)
Definition comment_findUnique_include (id : string) : App (option (Comment * Task)) :=
  fun w =>
    match comment_findUnique (db w) id with
    | None => (Ok None, w)
    | Some c =>
        match task_findUnique (db w) (comment_taskId c) with
        | None => (Throw InternalError, w)
        | Some t => (Ok (Some (c, t)), w)
        end
    end.

Definition comment_create (c : Comment) (d : Db) : Result Db :=
  match comment_findUnique d (comment_id c) with
  | Some _ => Throw (PrismaClientKnownRequestError "P2002")
  | None => Ok (set_comments d (comments d ++ [c]))
  end.

(** [prisma.comment.update({ where: { id }, data: { content } })]; an
    undefined [content] leaves the row as it is. *)
Definition comment_update (id : string) (content : option string) (d : Db) : Db :=
  set_comments d
    ((fun c => if decide (comment_id c = id)
               then {| comment_id := comment_id c;
                       comment_content := default (comment_content c) content;
                       comment_taskId := comment_taskId c;
                       comment_userId := comment_userId c |}
               else c) <$> comments d).

Definition comment_delete (id : string) (d : Db) : Db :=
  set_comments d (filter (fun c => comment_id c ≠ id) (comments d)).

Record CommentBody := {
  cbody_content : string;
  cbody_taskId : string
}.

Inductive CommentJson :=
| JComment (message : string) (comment : Comment)
| JComments (comments : list Comment)
| JCommentDone (message : string).

Record CommentResponse := { c_status : Z; c_json : CommentJson }.

Section Created.
Context `{ZodFormats}.

Definition boardSchema_issues (b : BoardBody) : list string :=
  (issue (length_between 1 100 (bbody_name b)) "name"
   ++ issue (cuid (bbody_projectId b)) "projectId")%list.

Definition boardSchema_parse (b : BoardBody) : Result BoardBody :=
  match boardSchema_issues b with
  | [] => Ok b
  | issues => Throw (ZodError issues)
  end.

(** [createBoard]; [newId] is the generated id of the board row, whose
    columns are the default of the table. *)
Definition createBoard (userId : string) (body : BoardBody) (newId : string) : App Response :=
  let* validatedData := parse (boardSchema_parse body) in
  let* project := project_findUnique (bbody_projectId validatedData) userId
                    (Some [ADMIN; MEMBER]) in
  match project with
  | None => throw (createError "Project not found" 404)
  | Some (project, members) =>
      if decide (length members = 0%nat)
      then throw (createError "Access denied - insufficient permissions" 403)
      else
        let board := {| board_name := bbody_name validatedData;
                        projectId := bbody_projectId validatedData;
                        columns := default_columns |} in
        prisma_try (board_create newId board) ;;;
        ret {| status := 201; json := JBoard "Board created successfully" board |}
  end.

Definition commentSchema_issues (b : CommentBody) : list string :=
  (issue (length_between 1 1000 (cbody_content b)) "content"
   ++ issue (cuid (cbody_taskId b)) "taskId")%list.

Definition commentSchema_parse (b : CommentBody) : Result CommentBody :=
  match commentSchema_issues b with
  | [] => Ok b
  | issues => Throw (ZodError issues)
  end.

(** [addComment]; [newId] is the generated id of the comment row. *)
Definition addComment (userId : string) (body : CommentBody) (newId : string)
  : App CommentResponse :=
  let* validatedData := parse (commentSchema_parse body) in
  let content := cbody_content validatedData in
  let taskId := cbody_taskId validatedData in
  let* task := task_findUnique_include taskId userId any_member in
  match task with
  | None => throw (createError "Task not found" 404)
  | Some (task, board) =>
      if decide (length (inc_members board) = 0%nat)
      then throw (createError "Access denied" 403)
      else
        let comment := {| comment_id := newId; comment_content := content;
                          comment_taskId := taskId; comment_userId := userId |} in
        prisma_try (comment_create comment) ;;;
        io_to_emit (board_room (boardId task)) "commentAdded" (PComment comment) ;;;
        ret {| c_status := 201; c_json := JComment "Comment added successfully" comment |}
  end.

End Created.

Definition getComments (userId : string) (taskId : string) : App CommentResponse :=
  let* task := task_findUnique_include taskId userId any_member in
  match task with
  | None => throw (createError "Task not found" 404)
  | Some (task, board) =>
      if decide (length (inc_members board) = 0%nat)
      then throw (createError "Access denied" 403)
      else
        let* comments := prisma (fun d => comment_findMany d taskId) in
        ret {| c_status := 200; c_json := JComments comments |}
  end.

(** [updateComment]; [content] is [req.body.content], a string or undefined:
    the handler parses no schema. *)
Definition updateComment (userId : string) (id : string) (content : option string)
  : App CommentResponse :=
  let* comment := comment_findUnique_include id in
  match comment with
  | None => throw (createError "Comment not found" 404)
  | Some (comment, task) =>
      if decide (comment_userId comment ≠ userId)
      then throw (createError "Access denied - can only edit your own comments" 403)
      else
        prisma_write (comment_update id content) ;;;
        let* updatedComment := prisma (fun d => comment_findUnique d id) in
        match updatedComment with
        | None => throw InternalError
        | Some updatedComment =>
            io_to_emit (board_room (boardId task)) "commentUpdated"
              (PComment updatedComment) ;;;
            ret {| c_status := 200;
                   c_json := JComment "Comment updated successfully" updatedComment |}
        end
  end.

Definition deleteComment (userId : string) (id : string) : App CommentResponse :=
  let* comment := comment_findUnique_include id in
  match comment with
  | None => throw (createError "Comment not found" 404)
  | Some (comment, task) =>
      if decide (comment_userId comment ≠ userId)
      then throw (createError "Access denied - can only delete your own comments" 403)
      else
        prisma_write (comment_delete id) ;;;
        io_to_emit (board_room (boardId task)) "commentDeleted" (PCommentId id) ;;;
        ret {| c_status := 200; c_json := JCommentDone "Comment deleted successfully" |}
  end.

(** The foreign keys of the comment and the attachment table: every row
    belongs to a task of the store. *)
Definition foreign_keys (d : Db) : Prop :=
  (∀ c, c ∈ comments d → comment_taskId c ∈ task_id <$> tasks d)
  ∧ (∀ a, a ∈ attachments d → attachment_taskId a ∈ task_id <$> tasks d).

(** ** Further sample data *)

(** A task for Carol. *)
Definition assigned_body : TaskBody :=
  {| body_title := "Prepare report"; body_description := None; body_boardId := board1;
     body_columnId := "todo"; body_assignedTo := Some carol; body_priority := None;
     body_dueDate := None; body_position := None |}.

Definition move_to_doing : MoveTaskBody := {| move_columnId := Some "doing"; move_position := Some 0 |}.

(** Carol and Mallory connect and ask for the room of the workspace. *)
Definition workspace_joins : list SocketEvent :=
  [Connection "socket-carol" carol_user; Connection "socket-mallory" mallory_user;
   JoinWorkspace "socket-carol" "cworkspace01"; JoinWorkspace "socket-mallory" "cworkspace01"].

(** Dave is registered and not a member of the sample workspace. *)
Definition dave : string := "cuserdave001".
Definition sample_users : gmap string string := {[ "dave@example.org" := dave ]}.

(** The board of the sample with two tasks, and one comment of Carol on the
    first one. *)
Definition carol_comment : Comment :=
  {| comment_id := "ccomment0001"; comment_content := "Looks good";
     comment_taskId := "ctask0000001"; comment_userId := carol |}.

Definition sample_comments : World :=
  {| db := set_comments (db two_in_todo) [carol_comment]; outbox := [] |}.

(** * Properties *)

(** ** Rows and keys *)

Lemma task_findUnique_Some d id t :
  task_findUnique d id = Some t → t ∈ tasks d ∧ task_id t = id.
Proof.
  unfold task_findUnique. intros Hf. apply find_some in Hf as [Hin Heq].
  split; [by apply list_elem_of_In | by apply bool_decide_eq_true in Heq].
Qed.

Lemma task_findUnique_None d id :
  task_findUnique d id = None ↔ id ∉ task_id <$> tasks d.
Proof.
  unfold task_findUnique. split.
  - intros Hf Hin. apply list_elem_of_fmap in Hin as (t & -> & Hin).
    apply list_elem_of_In in Hin.
    pose proof (find_none _ _ Hf t Hin) as Hn. simpl in Hn.
    by apply bool_decide_eq_false in Hn.
  - intros Hn. destruct (List.find _ _) as [t|] eqn:Hf; [|done].
    apply find_some in Hf as [Hin Heq]. apply bool_decide_eq_true in Heq.
    exfalso. apply Hn. apply list_elem_of_fmap. exists t. split; [done|].
    by apply list_elem_of_In.
Qed.

Lemma task_findUnique_elem d t :
  primary_key d → t ∈ tasks d → task_findUnique d (task_id t) = Some t.
Proof.
  unfold primary_key, task_findUnique. induction (tasks d) as [|r rows IH]; simpl.
  - intros _ Hin. by apply elem_of_nil in Hin.
  - intros Hnd Hin. apply NoDup_cons in Hnd as [Hr Hnd].
    destruct (decide (task_id r = task_id t)) as [Heq|Hne].
    + rewrite bool_decide_eq_true_2 by done.
      apply elem_of_cons in Hin as [->|Hin]; [done|].
      exfalso. apply Hr. rewrite Heq. apply list_elem_of_fmap. by exists t.
    + rewrite bool_decide_eq_false_2 by done.
      apply elem_of_cons in Hin as [->|Hin]; [done|]. by apply IH.
Qed.

Lemma primary_key_inj d t1 t2 :
  primary_key d → t1 ∈ tasks d → t2 ∈ tasks d → task_id t1 = task_id t2 → t1 = t2.
Proof.
  intros Hk H1 H2 Heq.
  pose proof (task_findUnique_elem d t1 Hk H1) as E1.
  pose proof (task_findUnique_elem d t2 Hk H2) as E2.
  rewrite Heq in E1. congruence.
Qed.

Lemma task_id_apply_update u t : task_id (apply_update u t) = task_id t.
Proof. done. Qed.

Lemma boardId_apply_update u t : boardId (apply_update u t) = boardId t.
Proof. done. Qed.

Lemma task_id_update_row id u t : task_id (update_row id u t) = task_id t.
Proof. unfold update_row. by case_decide. Qed.

Lemma task_ids_update_row id u (rows : list Task) :
  task_id <$> (update_row id u <$> rows) = task_id <$> rows.
Proof.
  rewrite <- list_fmap_compose. apply list_fmap_ext. intros _ t _. simpl.
  apply task_id_update_row.
Qed.

Lemma task_findUnique_update_row d id u id' :
  task_findUnique (set_tasks d (update_row id u <$> tasks d)) id'
  = update_row id u <$> task_findUnique d id'.
Proof.
  unfold task_findUnique. simpl. induction (tasks d) as [|r rows IH]; simpl; [done|].
  rewrite task_id_update_row. case_bool_decide; [done|]. apply IH.
Qed.

Lemma set_tasks_tasks d : set_tasks d (tasks d) = d.
Proof. by destruct d. Qed.

Lemma tx_task_update_run faults id u s :
  match tx_task_update faults id u s with
  | (Ok _, s') =>
      tx_db s' = set_tasks (tx_db s) (update_row id u <$> tasks (tx_db s))
      ∧ tx_writes s' = S (tx_writes s)
  | (Throw _, _) => True
  end.
Proof.
  unfold tx_task_update, lift_write, task_update.
  destruct (faults _); [done|]. by destruct (task_findUnique _ _).
Qed.

Lemma shift_loop_run faults l : ∀ s,
  match shift_loop faults l s with
  | (Ok _, s') =>
      tx_db s' = set_tasks (tx_db s) (shift_all l (tasks (tx_db s)))
      ∧ tx_writes s' = (tx_writes s + length l)%nat
  | (Throw _, _) => True
  end.
Proof.
  unfold shift_loop. induction l as [|t l IH]; intros s; simpl.
  - unfold ret. rewrite set_tasks_tasks. split; [done | lia].
  - unfold bind.
    pose proof (tx_task_update_run faults (task_id t)
                  (data_position (position t + 1)) s) as Hw.
    destruct (tx_task_update _ _ _ s) as [[[]|e] s1]; [|done].
    destruct Hw as [Hdb Hn]. specialize (IH s1).
    destruct (for_of l _ s1) as [[[]|e] s2]; [|done].
    destruct IH as [Hdb' Hn']. rewrite Hdb', Hdb, Hn', Hn. simpl. split; [done | lia].
Qed.

Lemma tx_task_update_ok id u s :
  id ∈ task_id <$> tasks (tx_db s) →
  tx_task_update no_faults id u s
  = (Ok tt, {| tx_db := set_tasks (tx_db s) (update_row id u <$> tasks (tx_db s));
               tx_writes := S (tx_writes s) |}).
Proof.
  intros Hin. unfold tx_task_update, lift_write, task_update, no_faults.
  destruct (task_findUnique (tx_db s) id) eqn:Hf; [done|].
  by apply task_findUnique_None in Hf.
Qed.

Lemma shift_loop_ok l : ∀ s,
  (∀ t, t ∈ l → task_id t ∈ task_id <$> tasks (tx_db s)) →
  shift_loop no_faults l s
  = (Ok tt, {| tx_db := set_tasks (tx_db s) (shift_all l (tasks (tx_db s)));
               tx_writes := (tx_writes s + length l)%nat |}).
Proof.
  unfold shift_loop. induction l as [|t l IH]; intros s Hids; simpl.
  - unfold ret. rewrite set_tasks_tasks, Nat.add_0_r. by destruct s.
  - unfold bind. rewrite tx_task_update_ok by (apply Hids; left).
    rewrite IH.
    + simpl. do 3 f_equal. lia.
    + intros t' Ht'. simpl. rewrite task_ids_update_row. apply Hids. by right.
Qed.

(** The loop bumps exactly the rows whose snapshot is in the list. *)
Lemma shift_all_snapshot l : ∀ rows,
  NoDup (task_id <$> l) →
  shift_all l rows
  = (fun r => match snapshot l (task_id r) with
              | Some t => apply_update (data_position (position t + 1)) r
              | None => r
              end) <$> rows.
Proof.
  unfold shift_all.
  induction l as [|t l IH]; intros rows Hnd; simpl.
  - by rewrite list_fmap_id.
  - apply NoDup_cons in Hnd as [Ht Hnd]. rewrite IH by done.
    rewrite <- list_fmap_compose. apply list_fmap_ext. intros _ r _. simpl.
    rewrite task_id_update_row. unfold update_row.
    destruct (decide (task_id r = task_id t)) as [Heq|Hne].
    + rewrite bool_decide_eq_true_2 by done.
      destruct (snapshot l (task_id r)) as [t'|] eqn:Hs; [|done].
      exfalso. apply find_some in Hs as [Hin Hid]. apply bool_decide_eq_true in Hid.
      apply Ht. rewrite <- Heq, <- Hid. apply list_elem_of_fmap. exists t'.
      split; [done | by apply list_elem_of_In].
    + rewrite bool_decide_eq_false_2 by done. done.
Qed.

Lemma shift_all_filter d (P : Task → Prop) `{∀ t, Decision (P t)} l :
  primary_key d →
  l ≡ₚ filter P (tasks d) →
  shift_all l (tasks d)
  = (fun r => if decide (P r) then apply_update (data_position (position r + 1)) r else r)
      <$> tasks d.
Proof.
  intros Hk Hl. rewrite shift_all_snapshot.
  - apply list_fmap_ext. intros i r Hr. apply list_elem_of_lookup_2 in Hr.
    destruct (snapshot l (task_id r)) as [t|] eqn:Hs.
    + apply find_some in Hs as [Hin Hid]. apply bool_decide_eq_true in Hid.
      apply list_elem_of_In in Hin. rewrite Hl in Hin.
      apply list_elem_of_filter in Hin as [HP Hin].
      assert (t = r) as -> by (by eapply primary_key_inj).
      by rewrite decide_True.
    + case_decide as HP; [|done]. exfalso.
      assert (r ∈ l) as Hin by (rewrite Hl; by apply list_elem_of_filter).
      apply list_elem_of_In in Hin.
      pose proof (find_none _ _ Hs r Hin) as Hn. simpl in Hn.
      by apply bool_decide_eq_false in Hn.
  - rewrite Hl. unfold primary_key in Hk.
    apply NoDup_fmap_2_strong.
    + intros x y Hx Hy Heq. apply list_elem_of_filter in Hx as [_ Hx].
      apply list_elem_of_filter in Hy as [_ Hy]. by eapply primary_key_inj.
    + apply NoDup_filter. by eapply NoDup_fmap_1.
Qed.

Lemma task_findMany_gte_perm d b c p :
  task_findMany_gte d b c p ≡ₚ filter (move_where b c p) (tasks d).
Proof. unfold task_findMany_gte, orderBy_position_asc. apply merge_sort_Permutation. Qed.

Lemma move_row_shift d b c p id :
  primary_key d →
  update_row id (data_columnId_position c p)
    <$> shift_all (task_findMany_gte d b c p) (tasks d)
  = move_row b c p id <$> tasks d.
Proof.
  intros Hk.
  rewrite (shift_all_filter d (move_where b c p)) by (done || apply task_findMany_gte_perm).
  by rewrite <- list_fmap_compose.
Qed.

(** With both fields in the body the selected rows are the rows of the
    destination column at or after the position, and the row moved is
    written whether or not it was shifted. *)
Lemma move_where_complete b c p t :
  move_where b (Some c) (Some p) t ↔ in_column b c t ∧ p ≤ position t.
Proof. unfold move_where, in_column. tauto. Qed.

Lemma move_row_complete b c p id t :
  move_row b (Some c) (Some p) id t
  = if decide (task_id t = id)
    then apply_update (data_columnId_position (Some c) (Some p)) t
    else if decide (in_column b c t ∧ p ≤ position t)
         then apply_update (data_position (position t + 1)) t
         else t.
Proof.
  unfold move_row, update_row.
  destruct (decide (move_where b (Some c) (Some p) t)) as [Hw|Hw].
  - rewrite task_id_apply_update. apply move_where_complete in Hw.
    destruct (decide (task_id t = id)); [done|]. by rewrite decide_True.
  - destruct (decide (task_id t = id)); [done|]. rewrite decide_False; [done|].
    by rewrite <- move_where_complete.
Qed.

Lemma task_id_move_row b c p id t : task_id (move_row b c p id t) = task_id t.
Proof. unfold move_row. rewrite task_id_update_row. by case_decide. Qed.

(** ** The authorization gate *)

Lemma role_on_board_inv d u b r :
  role_on_board d u b = Some r →
  ∃ bd ws, boards d !! b = Some bd ∧ board_workspace d bd = Some ws
           ∧ workspaceMembers d !! (ws, u) = Some r.
Proof.
  unfold role_on_board, board_workspaceId. intros Hr.
  destruct (boards d !! b) as [bd|]; [|done]. simpl in Hr.
  destruct (board_workspace d bd) as [ws|] eqn:Hws; [|done]. simpl in Hr. by exists bd, ws.
Qed.

Lemma writer_role r : r ∈ [ADMIN; MEMBER] → r ≠ VIEWER.
Proof.
  intros Hin ->. apply elem_of_cons in Hin as [?|Hin]; [done|].
  apply elem_of_cons in Hin as [?|Hin]; [done|]. by apply elem_of_nil in Hin.
Qed.

Lemma members_where_writers d ws u r :
  workspaceMembers d !! (ws, u) = Some r →
  members_where d ws u writers = if decide (r = VIEWER) then [] else [r].
Proof.
  unfold members_where, writers. intros ->. by destruct r.
Qed.

Lemma members_where_nonempty d ws u roles :
  length (members_where d ws u roles) ≠ 0%nat →
  ∃ r, workspaceMembers d !! (ws, u) = Some r
       ∧ match roles with Some rs => r ∈ rs | None => True end.
Proof.
  unfold members_where. destruct (workspaceMembers d !! (ws, u)) as [r|]; [|done].
  destruct roles as [rs|]; [|by eauto]. case_decide; [by eauto | done].
Qed.

Lemma board_findUnique_member d ob id u roles bd ws :
  boards d !! id = Some bd → board_workspace d bd = Some ws →
  board_findUnique id u roles {| db := d; outbox := ob |}
  = (Ok (Some {| inc_board := bd; inc_workspaceId := ws;
                 inc_members := members_where d ws u roles |}),
     {| db := d; outbox := ob |}).
Proof. unfold board_findUnique. simpl. by intros -> ->. Qed.

(** The include query reads, it does not write. *)
Lemma board_findUnique_pure id u roles w :
  (board_findUnique id u roles w).2 = w.
Proof.
  unfold board_findUnique. destruct (boards _ !! _); [|done].
  by destruct (board_workspace _ _).
Qed.

Lemma task_findUnique_include_inv id u roles w :
  match task_findUnique_include id u roles w with
  | (Ok None, w') => w' = w ∧ task_findUnique (db w) id = None
  | (Ok (Some (t, b)), w') =>
      w' = w ∧ task_findUnique (db w) id = Some t
      ∧ boards (db w) !! boardId t = Some (inc_board b)
      ∧ board_workspace (db w) (inc_board b) = Some (inc_workspaceId b)
      ∧ inc_members b = members_where (db w) (inc_workspaceId b) u roles
  | (Throw _, w') => w' = w
  end.
Proof.
  unfold task_findUnique_include, board_findUnique.
  destruct (task_findUnique (db w) id) as [t|]; [|done].
  destruct (boards (db w) !! boardId t) as [bd|] eqn:Hb; [|done].
  destruct (board_workspace (db w) bd) as [ws|] eqn:Hws; done.
Qed.

(** ** [moveTask] *)

Lemma transaction_moveTask_run faults l id c p w :
  match transaction (moveTask_callback faults l id c p) w with
  | (Ok _, w') =>
      w' = {| db := set_tasks (db w)
                      (update_row id (data_columnId_position c p)
                         <$> shift_all l (tasks (db w)));
              outbox := outbox w |}
  | (Throw _, w') => w' = w
  end.
Proof.
  unfold transaction, moveTask_callback, bind.
  pose proof (shift_loop_run faults l {| tx_db := db w; tx_writes := 0 |}) as Hl.
  unfold shift_loop in Hl.
  destruct (for_of l _ _) as [[[]|e] s1]; [|done].
  destruct Hl as [Hdb _]. simpl in Hdb.
  pose proof (tx_task_update_run faults id (data_columnId_position c p) s1) as Hw.
  destruct (tx_task_update _ _ _ s1) as [[[]|e] s2]; [|done].
  destruct Hw as [Hdb' _]. by rewrite Hdb', Hdb.
Qed.

Lemma moveTask_inv faults u id body w :
  match moveTask faults u id body w with
  | (Ok resp, w') =>
      ∃ task r,
        task_findUnique (db w) id = Some task
        ∧ role_on_board (db w) u (boardId task) = Some r ∧ r ≠ VIEWER
        ∧ db w' = set_tasks (db w)
                    (update_row id (data_columnId_position (move_columnId body)
                                      (move_position body))
                       <$> shift_all (task_findMany_gte (db w) (boardId task)
                                        (move_columnId body) (move_position body))
                             (tasks (db w)))
        ∧ outbox w' = (outbox w ++ [{| emit_room := board_room (boardId task);
                                      emit_event := "taskMoved";
                                      emit_payload := payload_of (task_findUnique (db w') id) |}])%list
        ∧ resp = {| status := 200;
                    json := JTask "Task moved successfully"
                              (payload_of (task_findUnique (db w') id)) |}
  | (Throw _, w') => w' = w
  end.
Proof.
  unfold moveTask. unfold bind at 1.
  pose proof (task_findUnique_include_inv id u writers w) as Hq.
  destruct (task_findUnique_include id u writers w) as [[[[task b]|]|e] w1].
  - destruct Hq as (-> & Hf & Hb & Hws & Hm).
    case_decide as Hlen; [done|].
    rewrite Hm in Hlen. apply members_where_nonempty in Hlen as (r & Hr & Hin).
    unfold bind at 1. unfold prisma at 1, gets. unfold bind at 1.
    pose proof (transaction_moveTask_run faults
      (task_findMany_gte (db w) (boardId task) (move_columnId body) (move_position body))
      id (move_columnId body) (move_position body) w) as Ht.
    destruct (transaction _ w) as [[[]|e] w2]; [|done].
    subst w2. unfold bind, prisma, gets, io_to_emit, modify, ret. simpl.
    exists task, r. split_and!; try done.
    + unfold role_on_board, board_workspaceId. rewrite Hb. simpl. rewrite Hws. done.
    + by apply writer_role.
  - by destruct Hq as [-> _].
  - done.
Qed.

Section Handlers.
Context `{ZodFormats}.

Lemma assignee_check_inv ws a w :
  match assignee_check ws a w with
  | (Ok _, w') =>
      w' = w ∧ ∀ s, a = Some s → s ≠ "" → is_Some (workspaceMembers (db w) !! (ws, s))
  | (Throw e, w') => w' = w ∧ e = createError "Assigned user is not a member of this workspace" 400
  end.
Proof.
  unfold assignee_check. destruct a as [s|]; [|done].
  unfold truthy. case_bool_decide as Hs.
  - unfold bind, prisma, gets. simpl.
    destruct (workspaceMembers (db w) !! (ws, s)) eqn:Hm; [|done].
    split; [done|]. intros ? [= <-] _. by rewrite Hm.
  - split; [done|]. intros ? [= <-] Hne. by destruct Hs.
Qed.

(** ** [createTask] *)

Lemma createTask_inv u body newId w :
  match createTask u body newId w with
  | (Ok resp, w') =>
      ∃ v r,
        taskSchema_parse body = Ok v
        ∧ role_on_board (db w) u (in_boardId v) = Some r ∧ r ≠ VIEWER
        ∧ task_findUnique (db w) newId = None
        ∧ let task := createTask_data v (task_findFirst_desc (db w) (in_boardId v)
                                           (in_columnId v)) newId in
          db w' = set_tasks (db w) (tasks (db w) ++ [task])
          ∧ outbox w' = (outbox w ++ [{| emit_room := board_room (in_boardId v);
                                        emit_event := "taskCreated";
                                        emit_payload := PTask task |}])%list
          ∧ resp = {| status := 201; json := JTask "Task created successfully" (PTask task) |}
  | (Throw _, w') => w' = w
  end.
Proof.
  unfold createTask. unfold bind at 1, parse.
  destruct (taskSchema_parse body) as [v|e] eqn:Hv; [|done].
  unfold bind at 1, board_findUnique.
  destruct (boards (db w) !! in_boardId v) as [bd|] eqn:Hb; [|done].
  destruct (board_workspace (db w) bd) as [ws|] eqn:Hws; [|done].
  simpl. case_decide as Hlen; [done|].
  apply members_where_nonempty in Hlen as (r & Hr & Hin).
  unfold bind at 1.
  pose proof (assignee_check_inv ws (in_assignedTo v) w) as Ha.
  destruct (assignee_check ws (in_assignedTo v) w) as [[[]|e] w1]; [|by destruct Ha].
  destruct Ha as [-> _].
  unfold bind at 1, prisma at 1, gets. unfold bind at 1, prisma_try, lift_write, task_create.
  simpl.
  destruct (task_findUnique (db w) newId) eqn:Hnew; [done|].
  unfold bind, io_to_emit, modify, ret. simpl.
  exists v, r. split_and!; try done.
  - unfold role_on_board, board_workspaceId. rewrite Hb. simpl. by rewrite Hws.
  - by apply writer_role.
Qed.

(** ** [updateTask] *)


(** ** [deleteTask] *)

Lemma deleteTask_inv u id w :
  match deleteTask u id w with
  | (Ok resp, w') =>
      ∃ task r,
        task_findUnique (db w) id = Some task
        ∧ role_on_board (db w) u (boardId task) = Some r ∧ r ≠ VIEWER
        ∧ db w' = task_delete id (db w)
  | (Throw _, w') => w' = w
  end.
Proof.
  unfold deleteTask. unfold bind at 1.
  pose proof (task_findUnique_include_inv id u writers w) as Hq.
  destruct (task_findUnique_include id u writers w) as [[[[task b]|]|e] w1].
  - destruct Hq as (-> & Hf & Hb & Hws & Hm).
    case_decide as Hlen; [done|].
    rewrite Hm in Hlen. apply members_where_nonempty in Hlen as (r & Hr & Hin).
    unfold bind, prisma_write, io_to_emit, modify, ret. simpl.
    exists task, r. split_and!; try done.
    + unfold role_on_board, board_workspaceId. rewrite Hb. simpl. by rewrite Hws.
    + by apply writer_role.
  - by destruct Hq as [-> _].
  - done.
Qed.

End Handlers.

(** ** [findFirst] with [orderBy: { position: 'desc' }] finds a maximum *)

#[local] Instance position_ge_trans : Transitive position_ge.
Proof. unfold position_ge. intros x y z. lia. Qed.
#[local] Instance position_ge_total : Total position_ge.
Proof. unfold position_ge. intros x y. lia. Qed.


Lemma task_findFirst_desc_Some d b c m :
  task_findFirst_desc d b c = Some m →
  m ∈ column_tasks d b c ∧ ∀ t, t ∈ column_tasks d b c → position t ≤ position m.
Proof.
  unfold task_findFirst_desc, orderBy_position_desc. intros Hh.
  pose proof (merge_sort_Permutation position_ge (column_tasks d b c)) as Hp.
  pose proof (StronglySorted_merge_sort position_ge (column_tasks d b c)) as Hs.
  destruct (merge_sort position_ge (column_tasks d b c)) as [|x l]; [done|].
  simpl in Hh. injection Hh as ->. split.
  - rewrite <- Hp. by left.
  - intros t Ht. rewrite <- Hp in Ht. apply StronglySorted_inv in Hs as [_ Hall].
    apply elem_of_cons in Ht as [->|Ht]; [done|].
    rewrite Forall_forall in Hall. by apply Hall.
Qed.

(** ** Pairwise distinct positions, row by row *)









Section Runs.
Context `{ZodFormats}.

Lemma taskSchema_parse_Ok body v :
  taskSchema_parse body = Ok v →
  taskSchema_issues body = []
  ∧ in_boardId v = body_boardId body ∧ in_columnId v = body_columnId body
  ∧ in_position v = default 0 (body_position body).
Proof.
  unfold taskSchema_parse. destruct (taskSchema_issues body); [|done].
  by intros [= <-].
Qed.






End Runs.



(** The body of moveTask is not validated, and a body without position
    commits: the Prisma client drops the undefined value from the [where] and
    from the [data].  With tasks 1 and 2 in todo (positions 0 and 1) and task
    3 in doing (position 0), moving task 2 to doing without a position shifts
    task 3 to position 1 and writes only the column of task 2: doing then
    holds two tasks at position 1. *)
Lemma moveTask_without_position_example :
  ∃ resp w',
    moveTask no_faults bob "ctask0000002"
      {| move_columnId := Some "doing"; move_position := None |} three_in_todo
    = (Ok resp, w')
    ∧ column_tasks (db w') board1 "doing"
      = [sample_task "ctask0000002" "doing" 1; sample_task "ctask0000003" "doing" 1]
    ∧ ¬ distinct_positions (db w') board1 "doing".
Proof.
  eexists _, _. split; [vm_compute; reflexivity|]. split; [reflexivity|].
  unfold distinct_positions. intros Hnd. vm_compute in Hnd.
  apply NoDup_cons in Hnd as [Hin _]. apply Hin. by left.
Qed.

Lemma task_findUnique_fmap d (f : Task → Task) id :
  (∀ t, task_id (f t) = task_id t) →
  task_findUnique (set_tasks d (f <$> tasks d)) id = f <$> task_findUnique d id.
Proof.
  intros Hf. unfold task_findUnique. simpl.
  induction (tasks d) as [|r rows IH]; simpl; [done|].
  rewrite Hf. case_bool_decide; [done|]. apply IH.
Qed.

Lemma task_ids_shift_all l : ∀ rows, task_id <$> shift_all l rows = task_id <$> rows.
Proof.
  unfold shift_all. induction l as [|t l IH]; intros rows; simpl; [done|].
  by rewrite IH, task_ids_update_row.
Qed.

Lemma task_findUnique_include_member id u roles w task bd ws :
  task_findUnique (db w) id = Some task →
  boards (db w) !! boardId task = Some bd →
  board_workspace (db w) bd = Some ws →
  task_findUnique_include id u roles w
  = (Ok (Some (task, {| inc_board := bd; inc_workspaceId := ws;
                        inc_members := members_where (db w) ws u roles |})), w).
Proof.
  intros Hf Hb Hws. unfold task_findUnique_include, board_findUnique.
  by rewrite Hf, Hb, Hws.
Qed.

Lemma transaction_moveTask_ok l id c p w :
  (∀ t, t ∈ l → task_id t ∈ task_id <$> tasks (db w)) →
  id ∈ task_id <$> tasks (db w) →
  transaction (moveTask_callback no_faults l id c p) w
  = (Ok tt, {| db := set_tasks (db w)
                       (update_row id (data_columnId_position c p)
                          <$> shift_all l (tasks (db w)));
               outbox := outbox w |}).
Proof.
  intros Hl Hid. unfold transaction, moveTask_callback, bind.
  fold (shift_loop no_faults l). rewrite shift_loop_ok by done.
  rewrite tx_task_update_ok by (simpl; by rewrite task_ids_shift_all).
  done.
Qed.

(** With a storage layer that does not fail, an authorized [moveTask] of an
    existing task commits. *)
Lemma moveTask_ok u id body w task r :
  primary_key (db w) →
  task_findUnique (db w) id = Some task →
  role_on_board (db w) u (boardId task) = Some r → r ≠ VIEWER →
  let b := boardId task in
  let c := move_columnId body in
  let p := move_position body in
  let moved := move_row b c p id task in
  moveTask no_faults u id body w
  = (Ok {| status := 200; json := JTask "Task moved successfully" (PTask moved) |},
     {| db := set_tasks (db w) (move_row b c p id <$> tasks (db w));
        outbox := (outbox w ++ [{| emit_room := board_room b; emit_event := "taskMoved";
                                  emit_payload := PTask moved |}])%list |}).
Proof.
  intros Hk Hf Hr Hne. simpl.
  apply role_on_board_inv in Hr as (bd & ws & Hb & Hws & Hm).
  pose proof (task_findUnique_Some _ _ _ Hf) as [Hin Hid].
  unfold moveTask. unfold bind at 1.
  rewrite (task_findUnique_include_member id u writers w task bd ws Hf Hb Hws).
  simpl. rewrite (members_where_writers _ _ _ _ Hm).
  destruct (decide (r = VIEWER)); [done|].
  simpl. unfold bind at 1, prisma at 1, gets. unfold bind at 1.
  rewrite transaction_moveTask_ok.
  - rewrite move_row_shift by done.
    unfold bind, prisma, gets, io_to_emit, modify, ret. simpl.
    rewrite task_findUnique_fmap by apply task_id_move_row. by rewrite Hf.
  - intros t Ht. rewrite task_findMany_gte_perm in Ht.
    apply list_elem_of_filter in Ht as [_ Ht]. apply list_elem_of_fmap. by exists t.
  - apply list_elem_of_fmap. by exists task.
Qed.

(** C2 (amended).  moveTask has no early exit for a destination that equals
    the task's current column and position: for an authorized caller it runs
    the transaction all the same.  The task itself ends where it was and is
    returned unchanged, but every other task of the column at or after that
    position is shifted up by one, and one taskMoved event is emitted. *)
Theorem moveTask_to_current_place (u id : string) (w : World) (task : Task) (r : Role) :
  primary_key (db w) →
  task_findUnique (db w) id = Some task →
  role_on_board (db w) u (boardId task) = Some r → r ≠ VIEWER →
  moveTask no_faults u id
    {| move_columnId := Some (columnId task); move_position := Some (position task) |} w
  = (Ok {| status := 200; json := JTask "Task moved successfully" (PTask task) |},
     {| db := set_tasks (db w)
                ((fun t => if decide (task_id t ≠ id
                                      ∧ in_column (boardId task) (columnId task) t
                                      ∧ position task ≤ position t)
                           then apply_update (data_position (position t + 1)) t
                           else t) <$> tasks (db w));
        outbox := (outbox w ++ [{| emit_room := board_room (boardId task);
                                  emit_event := "taskMoved";
                                  emit_payload := PTask task |}])%list |}).
Proof.
  intros Hk Hf Hr Hne.
  rewrite (moveTask_ok u id _ w task r Hk Hf Hr Hne). simpl.
  pose proof (task_findUnique_Some _ _ _ Hf) as [Hin Hid].
  assert (move_row (boardId task) (Some (columnId task)) (Some (position task)) id task
          = task) as ->.
  { rewrite move_row_complete, decide_True by done. by destruct task. }
  do 3 f_equal. apply list_fmap_ext. intros i t Ht. apply list_elem_of_lookup_2 in Ht.
  rewrite move_row_complete. destruct (decide (task_id t = id)) as [Heq|Hneq].
  - rewrite decide_False by tauto.
    assert (t = task) as -> by (apply (primary_key_inj (db w)); congruence).
    by destruct task.
  - destruct (decide (in_column (boardId task) (columnId task) t ∧ position task ≤ position t))
      as [[??]|Hn].
    + by rewrite decide_True.
    + rewrite decide_False; [done|]. tauto.
Qed.

Lemma moveTask_to_current_place_witness :
  moveTask no_faults bob "ctask0000001" {| move_columnId := Some "todo"; move_position := Some 0 |}
    two_in_todo
  = (Ok {| status := 200;
           json := JTask "Task moved successfully"
                     (PTask (sample_task "ctask0000001" "todo" 0)) |},
     {| db := set_tasks sample_db
                [sample_task "ctask0000001" "todo" 0; sample_task "ctask0000002" "todo" 2];
        outbox := [{| emit_room := "board-cboard000001"; emit_event := "taskMoved";
                      emit_payload := PTask (sample_task "ctask0000001" "todo" 0) |}] |}).
Proof.
  refine (eq_trans (moveTask_to_current_place bob "ctask0000001" two_in_todo
                      (sample_task "ctask0000001" "todo" 0) MEMBER _ _ _ _) _).
  - unfold primary_key. apply (bool_decide_unpack _). by vm_compute.
  - reflexivity.
  - by vm_compute.
  - discriminate.
  - by vm_compute.
Defined.

(** C2 as stated fails: moving the task at position 0 of todo to todo,
    position 0, rewrites the position of the task behind it and emits a
    taskMoved event. *)
Lemma moveTask_noop_counterexample :
  task_findUnique (db two_in_todo) "ctask0000001" = Some (sample_task "ctask0000001" "todo" 0)
  ∧ ∃ resp w',
      moveTask no_faults bob "ctask0000001"
        {| move_columnId := Some "todo"; move_position := Some 0 |} two_in_todo = (Ok resp, w')
      ∧ w' ≠ two_in_todo
      ∧ task_findUnique (db w') "ctask0000002" = Some (sample_task "ctask0000002" "todo" 2)
      ∧ length (outbox w') = S (length (outbox two_in_todo)).
Proof.
  split; [reflexivity|]. eexists _, _. split; [vm_compute; reflexivity|].
  split_and!; [|reflexivity|reflexivity]. intros Heq. apply (f_equal outbox) in Heq.
  discriminate Heq.
Qed.

Section Frame.
Context `{ZodFormats}.


End Frame.


Section Roles.
Context `{ZodFormats}.

Lemma taskSchema_parse_issues body :
  taskSchema_issues body ≠ [] →
  taskSchema_parse body = Throw (ZodError (taskSchema_issues body)).
Proof. unfold taskSchema_parse. by destruct (taskSchema_issues body). Qed.

Lemma taskSchema_parse_valid body :
  taskSchema_issues body = [] →
  ∃ v, taskSchema_parse body = Ok v
       ∧ in_boardId v = body_boardId body ∧ in_columnId v = body_columnId body
       ∧ in_assignedTo v = body_assignedTo body
       ∧ in_position v = default 0 (body_position body).
Proof. unfold taskSchema_parse. intros ->. by eexists. Qed.

Lemma forbidden_403 m : Forbidden (createError m 403).
Proof. done. Qed.

(** C4 (amended).  For a user whose membership role in the workspace of a
    board is VIEWER: moveTask and deleteTask of a task of that board fail
    with Forbidden; createTask on that board fails with Forbidden when its
    body passes the request schema and with ValidationFailed otherwise (the
    schema is checked before the gate); none of them changes the store or
    emits an event; getTasks of the board succeeds. *)
Theorem viewer_is_read_only (u b : string) (w : World) :
  role_on_board (db w) u b = Some VIEWER →
  (∀ body newId, body_boardId body = b →
     ∃ e, createTask u body newId w = (Throw e, w)
          ∧ if decide (taskSchema_issues body = []) then Forbidden e
            else ValidationFailed e)
  ∧ (∀ faults id body task,
       task_findUnique (db w) id = Some task → boardId task = b →
       ∃ e, moveTask faults u id body w = (Throw e, w) ∧ Forbidden e)
  ∧ (∀ id task,
       task_findUnique (db w) id = Some task → boardId task = b →
       ∃ e, deleteTask u id w = (Throw e, w) ∧ Forbidden e)
  ∧ getTasks u b w
    = (Ok {| status := 200; json := JTasks (task_findMany_board (db w) b) |}, w).
Proof.
  intros Hrole. apply role_on_board_inv in Hrole as (bd & ws & Hb & Hws & Hm).
  split_and!.
  - intros body newId Hbody. case_decide as Hi.
    + destruct (taskSchema_parse_valid body Hi) as (v & Hv & Hvb & _).
      eexists. split; [|apply forbidden_403].
      unfold createTask. unfold bind at 1, parse. rewrite Hv.
      unfold bind at 1, board_findUnique. rewrite Hvb, Hbody, Hb, Hws. simpl.
      by rewrite (members_where_writers _ _ _ _ Hm).
    + exists (ZodError (taskSchema_issues body)). split; [|done].
      unfold createTask. unfold bind at 1, parse.
      by rewrite (taskSchema_parse_issues body Hi).
  - intros faults id body task Hf <-. eexists. split; [|apply forbidden_403].
    unfold moveTask. unfold bind at 1.
    rewrite (task_findUnique_include_member id u writers w task bd ws Hf Hb Hws).
    simpl. by rewrite (members_where_writers _ _ _ _ Hm).
  - intros id task Hf <-. eexists. split; [|apply forbidden_403].
    unfold deleteTask. unfold bind at 1.
    rewrite (task_findUnique_include_member id u writers w task bd ws Hf Hb Hws).
    simpl. by rewrite (members_where_writers _ _ _ _ Hm).
  - unfold getTasks. unfold bind at 1, board_findUnique. rewrite Hb, Hws. simpl.
    unfold members_where, any_member. by rewrite Hm.
Qed.

End Roles.

Lemma viewer_is_read_only_witness :
  role_on_board (db two_in_todo) carol board1 = Some VIEWER
  ∧ (∃ e, createTask (H := zod) carol (sample_body "todo" None) "ctask0000003" two_in_todo
          = (Throw e, two_in_todo) ∧ Forbidden e)
  ∧ (∃ e, moveTask no_faults carol "ctask0000001"
            {| move_columnId := Some "doing"; move_position := Some 0 |} two_in_todo
          = (Throw e, two_in_todo) ∧ Forbidden e)
  ∧ (∃ e, deleteTask carol "ctask0000001" two_in_todo = (Throw e, two_in_todo) ∧ Forbidden e)
  ∧ getTasks carol board1 two_in_todo
    = (Ok {| status := 200; json := JTasks (tasks (db two_in_todo)) |}, two_in_todo).
Proof.
  assert (role_on_board (db two_in_todo) carol board1 = Some VIEWER) as Hrole
    by (by vm_compute).
  destruct (viewer_is_read_only (H := zod) carol board1 two_in_todo Hrole)
    as (Hcreate & Hmove & Hdelete & Hget).
  split_and!.
  - exact Hrole.
  - exact (Hcreate (sample_body "todo" None) "ctask0000003" eq_refl).
  - exact (Hmove no_faults "ctask0000001" _ (sample_task "ctask0000001" "todo" 0)
             eq_refl eq_refl).
  - exact (Hdelete "ctask0000001" (sample_task "ctask0000001" "todo" 0) eq_refl eq_refl).
  - exact Hget.
Defined.

(** C4 as stated fails: a VIEWER's createTask with an empty title is turned
    down by the schema, with ValidationFailed (400), not Forbidden. *)
Lemma viewer_createTask_counterexample :
  role_on_board (db sample_world) carol board1 = Some VIEWER
  ∧ ∃ e, createTask (H := zod) carol
           {| body_title := ""; body_description := None; body_boardId := board1;
              body_columnId := "todo"; body_assignedTo := None; body_priority := None;
              body_dueDate := None; body_position := None |} "ctask0000003" sample_world
         = (Throw e, sample_world)
         ∧ ValidationFailed e ∧ ¬ Forbidden e.
Proof.
  split; [by vm_compute|]. exists (ZodError ["title"]).
  split; [by vm_compute|]. split; [done|]. unfold Forbidden. simpl. lia.
Qed.

(** ** Boards *)

Lemma board_workspaceId_inv d b ws :
  board_workspaceId d b = Some ws →
  ∃ bd, boards d !! b = Some bd ∧ board_workspace d bd = Some ws.
Proof.
  unfold board_workspaceId. destruct (boards d !! b) as [bd|]; [|done].
  simpl. intros Hws. by exists bd.
Qed.

Lemma updateBoard_ok u b body w bd ws r :
  boards (db w) !! b = Some bd → board_workspace (db w) bd = Some ws →
  workspaceMembers (db w) !! (ws, u) = Some r → r ≠ VIEWER →
  let bd' := {| board_name := default (board_name bd) (upd_name body);
                projectId := projectId bd;
                columns := default (columns bd) (upd_columns body) |} in
  updateBoard u b body w
  = (Ok {| status := 200; json := JBoard "Board updated successfully" bd' |},
     {| db := set_boards (db w) (<[b := bd']> (boards (db w))); outbox := outbox w |}).
Proof.
  intros Hb Hws Hm Hne. simpl. unfold updateBoard.
  unfold bind at 1, board_findUnique. rewrite Hb, Hws. simpl.
  fold writers. rewrite (members_where_writers _ _ _ _ Hm).
  destruct (decide (r = VIEWER)); [done|]. simpl.
  unfold bind at 1, prisma_try, lift_write, board_update. rewrite Hb.
  unfold bind, prisma, gets. simpl. by rewrite lookup_insert_eq.
Qed.

Lemma deleteBoard_ok u b w bd ws r :
  boards (db w) !! b = Some bd → board_workspace (db w) bd = Some ws →
  workspaceMembers (db w) !! (ws, u) = Some r → r ≠ VIEWER →
  deleteBoard u b w
  = (Ok {| status := 200; json := JMessage "Board deleted successfully" |},
     {| db := board_delete b (db w); outbox := outbox w |}).
Proof.
  intros Hb Hws Hm Hne. unfold deleteBoard.
  unfold bind at 1, board_findUnique. rewrite Hb, Hws. simpl.
  fold writers. rewrite (members_where_writers _ _ _ _ Hm).
  by destruct (decide (r = VIEWER)).
Qed.

Lemma board_gate_forbidden u b w bd ws :
  boards (db w) !! b = Some bd → board_workspace (db w) bd = Some ws →
  workspaceMembers (db w) !! (ws, u) = Some VIEWER ∨ workspaceMembers (db w) !! (ws, u) = None →
  (∀ body, updateBoard u b body w
           = (Throw (createError "Access denied - insufficient permissions" 403), w))
  ∧ deleteBoard u b w
    = (Throw (createError "Access denied - insufficient permissions" 403), w).
Proof.
  intros Hb Hws Hm.
  assert (members_where (db w) ws u (Some [ADMIN; MEMBER]) = []) as Hnone.
  { unfold members_where. by destruct Hm as [-> | ->]. }
  split; [intros body; unfold updateBoard | unfold deleteBoard];
    unfold bind at 1, board_findUnique; rewrite Hb, Hws; simpl; by rewrite Hnone.
Qed.

(** C5 (amended).  The gate of updateBoard and deleteBoard admits ADMIN and
    MEMBER alike: with either role both requests succeed; with the role
    VIEWER, or without a membership row, both fail with Forbidden and leave
    the store unchanged. *)
Theorem board_structure_gate (u b ws : string) (body : UpdateBoardBody) (w : World) :
  board_workspaceId (db w) b = Some ws →
  match workspaceMembers (db w) !! (ws, u) with
  | Some ADMIN | Some MEMBER =>
      (∃ resp w', updateBoard u b body w = (Ok resp, w') ∧ status resp = 200)
      ∧ deleteBoard u b w
        = (Ok {| status := 200; json := JMessage "Board deleted successfully" |},
           {| db := board_delete b (db w); outbox := outbox w |})
  | Some VIEWER | None =>
      (∃ e, updateBoard u b body w = (Throw e, w) ∧ Forbidden e)
      ∧ (∃ e, deleteBoard u b w = (Throw e, w) ∧ Forbidden e)
  end.
Proof.
  intros Hws. apply board_workspaceId_inv in Hws as (bd & Hb & Hws).
  destruct (workspaceMembers (db w) !! (ws, u)) as [[]|] eqn:Hm.
  - split; [eexists _, _; split; [by eapply updateBoard_ok|done]
           | by eapply deleteBoard_ok].
  - split; [eexists _, _; split; [by eapply updateBoard_ok|done]
           | by eapply deleteBoard_ok].
  - destruct (board_gate_forbidden u b w bd ws Hb Hws (or_introl Hm)) as [Hu Hd].
    split; eexists; (split; [done | apply forbidden_403]).
  - destruct (board_gate_forbidden u b w bd ws Hb Hws (or_intror Hm)) as [Hu Hd].
    split; eexists; (split; [done | apply forbidden_403]).
Qed.

Lemma board_structure_gate_witness :
  ((∃ resp w', updateBoard bob board1 (keep_name (drop 1 sample_columns)) sample_world
               = (Ok resp, w') ∧ status resp = 200)
   ∧ deleteBoard bob board1 sample_world
     = (Ok {| status := 200; json := JMessage "Board deleted successfully" |},
        {| db := board_delete board1 (db sample_world); outbox := outbox sample_world |}))
  ∧ ((∃ e, updateBoard carol board1 (keep_name (drop 1 sample_columns)) sample_world
           = (Throw e, sample_world) ∧ Forbidden e)
     ∧ (∃ e, deleteBoard carol board1 sample_world = (Throw e, sample_world) ∧ Forbidden e)).
Proof.
  split.
  - exact (board_structure_gate bob board1 "cworkspace01" (keep_name (drop 1 sample_columns))
             sample_world eq_refl).
  - exact (board_structure_gate carol board1 "cworkspace01"
             (keep_name (drop 1 sample_columns)) sample_world eq_refl).
Defined.

(** C5 as stated fails: Bob, a MEMBER, replaces the column set of the board
    and deletes the board. *)
Lemma member_edits_board_counterexample :
  role_on_board (db sample_world) bob board1 = Some MEMBER
  ∧ (∃ resp w', updateBoard bob board1 (keep_name (drop 1 sample_columns)) sample_world
                = (Ok resp, w')
                ∧ columns <$> boards (db w') !! board1 = Some (drop 1 sample_columns))
  ∧ (∃ resp w', deleteBoard bob board1 sample_world = (Ok resp, w')
                ∧ boards (db w') !! board1 = None).
Proof.
  split; [by vm_compute|].
  split; eexists _, _; (split; [vm_compute; reflexivity | by vm_compute]).
Qed.

(** ** The column editor of the board settings form *)









(** An empty column that the form refuses to remove: no task is loaded, and
    for the column with the id constructor the form reads the function
    [Object], with its one parameter, where it expects the list of the tasks
    of the column. *)
Lemma removeColumn_constructor_example :
  tasksByColumnId [] = Some ∅
  ∧ removeColumn ∅ 1 constructor_form
    = {| fields := fields constructor_form;
         error := Some ("Cannot delete column " +:+ dquote +:+ "Constructor" +:+ dquote
                        +:+ " because it has 1 task(s).") |}
  ∧ fields (removeColumn ∅ 0 constructor_form) = delete 0%nat (fields constructor_form).
Proof. split; [done|]. split; by vm_compute. Qed.

Section Create.
Context `{ZodFormats}.

Lemma assignee_check_ok ws a w :
  (∀ s, a = Some s → s ≠ "" → is_Some (workspaceMembers (db w) !! (ws, s))) →
  assignee_check ws a w = (Ok tt, w).
Proof.
  intros Ha. unfold assignee_check. destruct a as [s|]; [|done].
  unfold truthy. case_bool_decide as Hs; [|done].
  destruct (Ha s eq_refl Hs) as [m Hm].
  unfold bind, prisma, gets. simpl. by rewrite Hm.
Qed.

(** An authorized [createTask] with a well-formed body, an assignee of the
    workspace (if any) and a fresh row id commits. *)
Lemma createTask_ok u body newId w ws r :
  taskSchema_issues body = [] →
  board_workspaceId (db w) (body_boardId body) = Some ws →
  workspaceMembers (db w) !! (ws, u) = Some r → r ≠ VIEWER →
  (∀ s, body_assignedTo body = Some s → s ≠ "" →
        is_Some (workspaceMembers (db w) !! (ws, s))) →
  task_findUnique (db w) newId = None →
  ∃ v, taskSchema_parse body = Ok v ∧
  let task := createTask_data v (task_findFirst_desc (db w) (body_boardId body)
                                   (body_columnId body)) newId in
  createTask u body newId w
  = (Ok {| status := 201; json := JTask "Task created successfully" (PTask task) |},
     {| db := set_tasks (db w) (tasks (db w) ++ [task]);
        outbox := (outbox w ++ [{| emit_room := board_room (body_boardId body);
                                  emit_event := "taskCreated";
                                  emit_payload := PTask task |}])%list |}).
Proof.
  intros Hi Hws Hm Hne Ha Hnew.
  destruct (taskSchema_parse_valid body Hi) as (v & Hv & Hvb & Hvc & Hva & _).
  apply board_workspaceId_inv in Hws as (bd & Hb & Hws).
  exists v. split; [done|]. simpl.
  unfold createTask. unfold bind at 1, parse. rewrite Hv.
  unfold bind at 1, board_findUnique. rewrite Hvb, Hvc, Hb, Hws. simpl.
  rewrite (members_where_writers _ _ _ _ Hm).
  destruct (decide (r = VIEWER)); [done|]. simpl.
  unfold bind at 1. rewrite assignee_check_ok by (by rewrite Hva).
  unfold bind at 1, prisma at 1, gets. unfold bind at 1, prisma_try, lift_write, task_create.
  simpl. by rewrite Hnew.
Qed.

(** C7 (amended).  createTask never looks at the column set of the board.
    The only check on columnId is the schema's: an empty columnId fails with
    ValidationFailed and creates nothing; with any non-empty columnId, a
    request that is otherwise acceptable (well-formed body, ADMIN or MEMBER
    caller, assignee of the workspace, fresh id) creates a task in a column
    of that name, whether or not the board has such a column. *)
Theorem createTask_columnId (u : string) (body : TaskBody) (newId : string) (w : World) :
  (body_columnId body = "" →
     ∃ e, createTask u body newId w = (Throw e, w) ∧ ValidationFailed e)
  ∧ (∀ ws r,
       taskSchema_issues body = [] →
       board_workspaceId (db w) (body_boardId body) = Some ws →
       workspaceMembers (db w) !! (ws, u) = Some r → r ≠ VIEWER →
       (∀ s, body_assignedTo body = Some s → s ≠ "" →
             is_Some (workspaceMembers (db w) !! (ws, s))) →
       task_findUnique (db w) newId = None →
       ∃ resp task,
         createTask u body newId w
         = (Ok resp, {| db := set_tasks (db w) (tasks (db w) ++ [task]);
                        outbox := (outbox w ++ [{| emit_room := board_room (body_boardId body);
                                                  emit_event := "taskCreated";
                                                  emit_payload := PTask task |}])%list |})
         ∧ boardId task = body_boardId body
         ∧ columnId task = body_columnId body).
Proof.
  split.
  - intros Hc. exists (ZodError (taskSchema_issues body)). split; [|done].
    unfold createTask. unfold bind at 1, parse.
    rewrite taskSchema_parse_issues; [done|].
    unfold taskSchema_issues. rewrite Hc. simpl.
    intros Hnil. apply (f_equal (fun l => "columnId" ∈ l)) in Hnil.
    assert ("columnId" ∈ @nil string) as Hin; [|by apply elem_of_nil in Hin].
    rewrite <- Hnil. rewrite !elem_of_app. do 3 right. left.
  - intros ws r Hi Hws Hm Hne Ha Hnew.
    destruct (createTask_ok u body newId w ws r Hi Hws Hm Hne Ha Hnew)
      as (v & Hv & Hrun).
    apply taskSchema_parse_Ok in Hv as (_ & Hvb & Hvc & _).
    eexists _, _. split; [exact Hrun|]. by split.
Qed.

End Create.

Lemma createTask_columnId_witness :
  (∃ e, createTask (H := zod) bob (sample_body "" None) "ctask0000001" sample_world
        = (Throw e, sample_world) ∧ ValidationFailed e)
  ∧ ∃ resp task,
      createTask (H := zod) bob ghost_body "ctask0000001" sample_world
      = (Ok resp, {| db := set_tasks sample_db [task];
                     outbox := [{| emit_room := board_room board1;
                                   emit_event := "taskCreated";
                                   emit_payload := PTask task |}] |})
      ∧ boardId task = board1
      ∧ columnId task = "no-such-column".
Proof.
  split.
  - apply (proj1 (createTask_columnId (H := zod) bob (sample_body "" None) "ctask0000001"
                    sample_world)). reflexivity.
  - apply (proj2 (createTask_columnId (H := zod) bob ghost_body "ctask0000001" sample_world)
             "cworkspace01" MEMBER).
    + by vm_compute.
    + by vm_compute.
    + by vm_compute.
    + discriminate.
    + intros s Hs. discriminate Hs.
    + reflexivity.
Defined.

(** C7 as stated fails: the board has the columns todo, doing and done; a
    createTask for the column no-such-column succeeds and stores the task. *)
Lemma createTask_unknown_column_counterexample :
  ("no-such-column" ∉ col_id <$> default [] (columns <$> boards (db sample_world) !! board1))
  ∧ ∃ resp w',
      createTask (H := zod) bob ghost_body "ctask0000001" sample_world = (Ok resp, w')
      ∧ status resp = 201
      ∧ tasks (db w') = [sample_task "ctask0000001" "no-such-column" 0].
Proof.
  split.
  - apply (bool_decide_unpack _). by vm_compute.
  - eexists _, _. split; [vm_compute; reflexivity|]. by split.
Qed.

(** C8.  The writes of moveTask are all or nothing.  Whatever write of the
    transaction fails (and whatever else makes the request fail), a failed
    moveTask leaves the store and the outbox as they were; a moveTask that
    returns has applied every shift and the move of the task itself.  The
    same holds for the transaction step on its own, for any list of rows to
    shift. *)
Theorem moveTask_all_or_nothing (faults : Faults) (u id : string) (body : MoveTaskBody)
    (w : World) :
  match moveTask faults u id body w with
  | (Throw _, w') => w' = w
  | (Ok _, w') =>
      ∃ task,
        task_findUnique (db w) id = Some task
        ∧ db w' = set_tasks (db w)
                    (update_row id (data_columnId_position (move_columnId body)
                                      (move_position body))
                       <$> shift_all (task_findMany_gte (db w) (boardId task)
                                        (move_columnId body) (move_position body))
                             (tasks (db w)))
  end
  ∧ ∀ tasksToUpdate,
      match transaction (moveTask_callback faults tasksToUpdate id (move_columnId body)
                           (move_position body)) w with
      | (Throw _, w') => w' = w
      | (Ok _, w') =>
          w' = {| db := set_tasks (db w)
                          (update_row id (data_columnId_position (move_columnId body)
                                            (move_position body))
                             <$> shift_all tasksToUpdate (tasks (db w)));
                  outbox := outbox w |}
      end.
Proof.
  split.
  - pose proof (moveTask_inv faults u id body w) as Hm.
    destruct (moveTask faults u id body w) as [[resp|e] w']; [|done].
    destruct Hm as (task & r & Hf & _ & _ & Hdb & _). by exists task.
  - intros l.
    pose proof (transaction_moveTask_run faults l id (move_columnId body)
                  (move_position body) w) as Ht.
    by destruct (transaction _ w) as [[[]|e] w'].
Qed.

(** A run of [moveTask] in which the third write fails: the two shifts go
    through on the working copy, the move of the task fails, and the request
    leaves nothing behind. *)
Lemma moveTask_rollback_example :
  let body := {| move_columnId := Some "todo"; move_position := Some 0 |} in
  (∃ s, shift_loop third_write_fails
          (task_findMany_gte (db three_in_todo) board1 (Some "todo") (Some 0))
          {| tx_db := db three_in_todo; tx_writes := 0 |} = (Ok tt, s)
        ∧ position <$> tasks (tx_db s) = [1; 2; 0])
  ∧ moveTask third_write_fails bob "ctask0000003" body three_in_todo
    = (Throw InternalError, three_in_todo).
Proof. split; [eexists; split|]; by vm_compute. Qed.

(** ** The position [createTask] allocates *)

Section Allocation.
Context `{ZodFormats}.

(** What [createTask] stores as position: the position of the body when it
    is not 0; otherwise one more than the largest position of the column, or
    0 in an empty column. *)
Lemma createTask_position u body newId w resp w' :
  createTask u body newId w = (Ok resp, w') →
  ∃ task, tasks (db w') = (tasks (db w) ++ [task])%list
    ∧ position task
      = match body_position body with
        | Some p => if decide (p ≠ 0) then p
                    else match task_findFirst_desc (db w) (body_boardId body)
                                 (body_columnId body) with
                         | Some m => position m + 1
                         | None => 0
                         end
        | None => match task_findFirst_desc (db w) (body_boardId body)
                          (body_columnId body) with
                  | Some m => position m + 1
                  | None => 0
                  end
        end.
Proof.
  intros Hrun. pose proof (createTask_inv u body newId w) as Hc. rewrite Hrun in Hc.
  destruct Hc as (v & r & Hv & _ & _ & _ & Hdb & _).
  apply taskSchema_parse_Ok in Hv as (_ & Hvb & Hvc & Hvp).
  eexists. split; [by rewrite Hdb|]. simpl. rewrite Hvb, Hvc, Hvp.
  by destruct (body_position body) as [p|].
Qed.

End Allocation.

(** C9, the failing input.  todo holds tasks at positions 0 and 1; a
    createTask that names position 0 is stored at position 2: the 0 of the
    body is taken for "no position". *)
Lemma createTask_explicit_position_zero :
  ∃ resp w',
    createTask (H := zod) bob (sample_body "todo" (Some 0)) "ctask0000003" two_in_todo
    = (Ok resp, w')
    ∧ column_positions (db w') board1 "todo" = [0; 1; 2]
    ∧ task_findUnique (db w') "ctask0000003" = Some (sample_task "ctask0000003" "todo" 2).
Proof. eexists _, _. split; [vm_compute; reflexivity|]. by split. Qed.

(** ** Rooms *)

Lemma board_room_inj b1 b2 : board_room b1 = board_room b2 → b1 = b2.
Proof. unfold board_room. cbv [String.append]. by intros [= ->]. Qed.

Lemma workspace_room_board_room ws b : workspace_room ws ≠ board_room b.
Proof. unfold workspace_room, board_room. cbv [String.append]. discriminate. Qed.

Lemma room_sockets_join sid room io room' :
  room_sockets (socket_join sid room io) room'
  = if decide (room = room') then {[sid]} ∪ room_sockets io room else room_sockets io room'.
Proof.
  unfold room_sockets at 1, socket_join. simpl. case_decide as Hr.
  - subst. by rewrite lookup_insert_eq.
  - by rewrite lookup_insert_ne.
Qed.

Lemma room_sockets_leave sid room io room' :
  room_sockets (socket_leave sid room io) room' ⊆ room_sockets io room'.
Proof.
  unfold room_sockets at 1, socket_leave. simpl.
  destruct (decide (room = room')) as [->|Hne].
  - case_decide as He.
    + rewrite lookup_delete_eq. apply empty_subseteq.
    + rewrite lookup_insert_eq. simpl. intros x Hx.
      by apply elem_of_difference in Hx as [Hx _].
  - case_decide; [rewrite lookup_delete_ne by done | rewrite lookup_insert_ne by done];
      done.
Qed.

Lemma room_sockets_disconnect sid io room sid' :
  sid' ∈ room_sockets (disconnect sid io) room → sid' ∈ room_sockets io room ∧ sid' ≠ sid.
Proof.
  unfold room_sockets, disconnect. simpl.
  destruct (filter _ _ !! room) as [s|] eqn:Hl; simpl;
    [|intros Hin; by apply elem_of_empty in Hin].
  apply map_lookup_filter_Some in Hl as [Hl _].
  rewrite lookup_fmap in Hl. destruct (rooms io !! room) as [s0|]; [|done].
  simpl in *. injection Hl as <-. intros Hin.
  apply elem_of_difference in Hin as [Hin Hne]. split; [done|].
  intros ->. apply Hne. by apply elem_of_singleton.
Qed.

Lemma join_board_unfold d sid b io :
  join_board d sid b io
  = match sockets io !! sid with
    | None => (io, [])
    | Some user =>
        match boards d !! b with
        | None => (io, [socket_emit sid "error" (DMessage "Board not found")])
        | Some bd =>
            match board_workspace d bd with
            | None => (io, [socket_emit sid "error" (DMessage "Failed to join board")])
            | Some ws =>
                match workspaceMembers d !! (ws, user_id user) with
                | None => (io, [socket_emit sid "error" (DMessage "Access denied")])
                | Some _ =>
                    let io' := socket_join sid (board_room b) io in
                    (io', [socket_to_emit io' sid (board_room b) "user-joined"
                             (DUserBoard user b);
                           socket_emit sid "joined-board" (DBoard b)])
                end
            end
        end
    end.
Proof.
  unfold join_board, board_findUnique, members_where. simpl.
  destruct (sockets io !! sid) as [user|]; [|done].
  destruct (boards d !! b) as [bd|]; [|done].
  destruct (board_workspace d bd) as [ws|]; [|done].
  by destruct (workspaceMembers d !! (ws, user_id user)).
Qed.

Lemma role_on_board_unfold d u b :
  role_on_board d u b
  = match boards d !! b with
    | None => None
    | Some bd => match board_workspace d bd with
                 | None => None
                 | Some ws => workspaceMembers d !! (ws, u)
                 end
    end.
Proof.
  unfold role_on_board, board_workspaceId. destruct (boards d !! b) as [bd|]; [|done].
  simpl. by destruct (board_workspace d bd).
Qed.

(** What the join-board handler does, case by case. *)
Lemma join_board_spec d sid b io :
  match sockets io !! sid with
  | None => join_board d sid b io = (io, [])
  | Some user =>
      if decide (member_of_board d (user_id user) b)
      then join_board d sid b io
           = (socket_join sid (board_room b) io,
              [socket_to_emit (socket_join sid (board_room b) io) sid (board_room b)
                 "user-joined" (DUserBoard user b);
               socket_emit sid "joined-board" (DBoard b)])
      else ∃ message, join_board d sid b io
                      = (io, [socket_emit sid "error" (DMessage message)])
  end.
Proof.
  rewrite join_board_unfold. unfold member_of_board.
  destruct (sockets io !! sid) as [user|]; [|done].
  rewrite role_on_board_unfold.
  destruct (boards d !! b) as [bd|].
  - destruct (board_workspace d bd) as [ws|].
    + destruct (workspaceMembers d !! (ws, user_id user)) as [r|].
      * by rewrite decide_True by eauto.
      * rewrite decide_False by (by intros [? ?]). by eexists.
    + rewrite decide_False by (by intros [? ?]). by eexists.
  - rewrite decide_False by (by intros [? ?]). by eexists.
Qed.

Lemma rooms_of_members_handle d e io :
  rooms_of_members d io → rooms_of_members d (handle d e io).
Proof.
  intros Hinv. destruct e as [sid user|sid b|sid b|sid ws|sid ws|sid]; simpl.
  - unfold connection. destruct (sockets io !! sid) as [u0|] eqn:Hs; [done|].
    intros b sid' Hin. destruct (Hinv b sid' Hin) as (u' & Hu' & Hmem).
    exists u'. split; [|done]. simpl. rewrite lookup_insert_ne; [done|]. congruence.
  - pose proof (join_board_spec d sid b io) as Hj.
    destruct (sockets io !! sid) as [user|] eqn:Hs; [|by rewrite Hj].
    case_decide as Hmem; [|by destruct Hj as [m ->]].
    rewrite Hj. simpl. intros b' sid' Hin. rewrite room_sockets_join in Hin.
    case_decide as Hr.
    + apply board_room_inj in Hr as <-. apply elem_of_union in Hin as [Hin|Hin].
      * apply elem_of_singleton in Hin as ->. by exists user.
      * by apply Hinv.
    + by apply Hinv.
  - unfold leave_board. destruct (sockets io !! sid) as [user|]; [|done]. simpl.
    intros b' sid' Hin. apply room_sockets_leave in Hin. by apply Hinv.
  - unfold join_workspace. destruct (sockets io !! sid) as [user|]; [|done].
    destruct (workspaces d !! ws); [|done]. case_decide; [done|]. simpl.
    intros b' sid' Hin. rewrite room_sockets_join in Hin.
    rewrite decide_False in Hin by apply workspace_room_board_room. by apply Hinv.
  - unfold leave_workspace. destruct (sockets io !! sid) as [user|]; [|done]. simpl.
    intros b' sid' Hin. apply room_sockets_leave in Hin. by apply Hinv.
  - intros b' sid' Hin. apply room_sockets_disconnect in Hin as [Hin Hne].
    destruct (Hinv b' sid' Hin) as (u' & Hu' & Hmem).
    exists u'. split; [|done]. simpl. by rewrite lookup_delete_ne.
Qed.

Lemma rooms_of_members_handle_all d es : ∀ io,
  rooms_of_members d io → rooms_of_members d (handle_all d es io).
Proof.
  unfold handle_all. induction es as [|e es IH]; intros io Hinv; simpl; [done|].
  apply IH. by apply rooms_of_members_handle.
Qed.

(** C10 (amended).  A join-board request adds the socket to the room of the
    board exactly when the board exists and the user of the socket has a
    membership row in the workspace of the board; otherwise the socket gets
    one error event and the rooms stay as they are.  Hence, as long as the
    membership rows are not changed, every socket in the room of a board, and
    so every recipient of a broadcast to that room, belongs to a member of
    the workspace of the board.  (A socket is not taken out of the room when
    its user's membership is removed later.) *)
Theorem join_board_members_only (d : Db) :
  (∀ sid b io,
     match sockets io !! sid with
     | None => join_board d sid b io = (io, [])
     | Some user =>
         if decide (member_of_board d (user_id user) b)
         then join_board d sid b io
              = (socket_join sid (board_room b) io,
                 [socket_to_emit (socket_join sid (board_room b) io) sid (board_room b)
                    "user-joined" (DUserBoard user b);
                  socket_emit sid "joined-board" (DBoard b)])
         else ∃ message, join_board d sid b io
                         = (io, [socket_emit sid "error" (DMessage message)])
     end)
  ∧ (∀ es e b sid,
       emit_room e = board_room b →
       sid ∈ deliver (handle_all d es io_init) e →
       ∃ user, sockets (handle_all d es io_init) !! sid = Some user
               ∧ member_of_board d (user_id user) b).
Proof.
  split; [intros; apply join_board_spec|].
  intros es e b sid Hroom Hin. unfold deliver in Hin. rewrite Hroom in Hin.
  apply (rooms_of_members_handle_all d es io_init); [|done].
  intros b' sid' Hin'. unfold room_sockets, io_init in Hin'. simpl in Hin'.
  rewrite lookup_empty in Hin'. simpl in Hin'. by apply elem_of_empty in Hin'.
Qed.

Lemma join_board_members_only_witness :
  (∃ message,
     join_board sample_db "socket-mallory" board1
       (handle_all sample_db (take 2 carol_joins) io_init)
     = (handle_all sample_db (take 2 carol_joins) io_init,
        [socket_emit "socket-mallory" "error" (DMessage message)]))
  ∧ "socket-carol" ∈ deliver (handle_all sample_db carol_joins io_init) taskMoved_board1
  ∧ ∃ user, sockets (handle_all sample_db carol_joins io_init) !! "socket-carol" = Some user
            ∧ member_of_board sample_db (user_id user) board1.
Proof.
  destruct (join_board_members_only sample_db) as [Hjoin Hinv].
  assert ("socket-carol" ∈ deliver (handle_all sample_db carol_joins io_init)
            taskMoved_board1) as Hin
    by (apply (bool_decide_unpack _); by vm_compute).
  split; [|split].
  - exact (Hjoin "socket-mallory" board1 (handle_all sample_db (take 2 carol_joins) io_init)).
  - exact Hin.
  - exact (Hinv carol_joins taskMoved_board1 board1 "socket-carol" eq_refl Hin).
Defined.

(** C10 as stated fails in its last part: Carol's socket joins the room of
    the board while she is a member; Alice then removes her from the
    workspace; the next taskMoved broadcast of the board still goes to
    Carol's socket. *)
Lemma removed_member_still_receives_counterexample :
  let io := handle_all (db two_in_todo) carol_joins io_init in
  ∃ resp1 w1 resp2 w2 e,
    removeUser alice "cworkspace01" carol two_in_todo = (Ok resp1, w1)
    ∧ moveTask no_faults bob "ctask0000001"
        {| move_columnId := Some "doing"; move_position := Some 0 |} w1 = (Ok resp2, w2)
    ∧ last (outbox w2) = Some e
    ∧ emit_room e = board_room board1 ∧ emit_event e = "taskMoved"
    ∧ "socket-carol" ∈ deliver io e
    ∧ sockets io !! "socket-carol" = Some carol_user
    ∧ role_on_board (db w2) carol board1 = None.
Proof.
  simpl. eexists _, _, _, _, _.
  split; [vm_compute; reflexivity|]. split; [vm_compute; reflexivity|].
  split; [vm_compute; reflexivity|]. split; [reflexivity|]. split; [reflexivity|].
  split; [apply (bool_decide_unpack _); by vm_compute|].
  split; by vm_compute.
Qed.

(** * Further properties *)

(** ** Reading tasks *)

#[local] Instance position_le_trans : Transitive position_le.
Proof. unfold position_le. intros x y z. lia. Qed.
#[local] Instance position_le_total : Total position_le.
Proof. unfold position_le. intros x y. lia. Qed.

(** X1.  getTasks never writes.  When it answers, the tasks of the answer are
    exactly the rows of the board, in ascending order of position; it fails
    with NotFound for a board that does not exist and with Forbidden for a
    caller without a membership row in the workspace of the board. *)
Theorem getTasks_sorted_board (u b : string) (w : World) :
  match getTasks u b w with
  | (Ok resp, w') =>
      w' = w ∧ is_Some (role_on_board (db w) u b) ∧ status resp = 200
      ∧ ∃ ts, json resp = JTasks ts
              ∧ StronglySorted position_le ts
              ∧ ts ≡ₚ filter (fun t => boardId t = b) (tasks (db w))
  | (Throw e, w') =>
      w' = w
      ∧ (boards (db w) !! b = None → NotFound e)
      ∧ (board_workspaceId (db w) b ≠ None → role_on_board (db w) u b = None → Forbidden e)
  end.
Proof.
  unfold getTasks. unfold bind at 1, board_findUnique.
  unfold role_on_board, board_workspaceId.
  destruct (boards (db w) !! b) as [bd|] eqn:Hb; simpl; [|by split_and!].
  destruct (board_workspace (db w) bd) as [ws|] eqn:Hws; simpl; [|by split_and!].
  unfold members_where, any_member.
  destruct (workspaceMembers (db w) !! (ws, u)) as [r|] eqn:Hm; simpl.
  - split; [done|]. split; [by eauto|]. split; [done|].
    eexists. split; [done|]. unfold task_findMany_board, orderBy_position_asc. split.
    + apply StronglySorted_merge_sort; apply _.
    + apply merge_sort_Permutation.
  - by split_and!.
Qed.

(** ** Deleting tasks *)

Lemma deleteTask_run u id w :
  match deleteTask u id w with
  | (Ok resp, w') =>
      ∃ task r,
        task_findUnique (db w) id = Some task
        ∧ role_on_board (db w) u (boardId task) = Some r ∧ r ≠ VIEWER
        ∧ w' = {| db := task_delete id (db w);
                  outbox := (outbox w ++ [{| emit_room := board_room (boardId task);
                                            emit_event := "taskDeleted";
                                            emit_payload := PTaskId id |}])%list |}
        ∧ resp = {| status := 200; json := JMessage "Task deleted successfully" |}
  | (Throw _, w') => w' = w
  end.
Proof.
  unfold deleteTask. unfold bind at 1.
  pose proof (task_findUnique_include_inv id u writers w) as Hq.
  destruct (task_findUnique_include id u writers w) as [[[[task b]|]|e] w1].
  - destruct Hq as (-> & Hf & Hb & Hws & Hm).
    case_decide as Hlen; [done|].
    rewrite Hm in Hlen. apply members_where_nonempty in Hlen as (r & Hr & Hin).
    unfold bind, prisma_write, io_to_emit, modify, ret. simpl.
    exists task, r. split_and!; try done.
    + unfold role_on_board, board_workspaceId. rewrite Hb. simpl. by rewrite Hws.
    + by apply writer_role.
  - by destruct Hq as [-> _].
  - done.
Qed.

Lemma task_findUnique_delete d id id' :
  task_findUnique (task_delete id d) id'
  = if decide (id' = id) then None else task_findUnique d id'.
Proof.
  unfold task_findUnique, task_delete. simpl.
  induction (tasks d) as [|t rows IH]; simpl; [by case_decide|].
  rewrite filter_cons. destruct (decide (task_id t ≠ id)) as [Hne|Heq]; simpl.
  - case_bool_decide as Ht; [|done]. subst id'. by rewrite decide_False.
  - assert (task_id t = id) as -> by (by destruct (decide (task_id t = id))).
    rewrite IH. case_decide as Hid; [done|]. by rewrite bool_decide_eq_false_2.
Qed.

(** X2.  A committed deleteTask removes the row of the task and, with it,
    the comments and the attachments of the task, and nothing else: every
    other task is as before, with its position (the column is not
    renumbered), the other comments and attachments and the other tables are
    untouched, and one taskDeleted event carrying the id goes to the room of
    the board.  A failed deleteTask changes nothing. *)
Theorem deleteTask_removes_one_row (u id : string) (w : World) :
  match deleteTask u id w with
  | (Ok _, w') =>
      ∃ task,
        task_findUnique (db w) id = Some task
        ∧ tasks (db w') = filter (fun t => task_id t ≠ id) (tasks (db w))
        ∧ comments (db w') = filter (fun c => comment_taskId c ≠ id) (comments (db w))
        ∧ attachments (db w')
          = filter (fun a => attachment_taskId a ≠ id) (attachments (db w))
        ∧ workspaces (db w') = workspaces (db w)
        ∧ workspaceMembers (db w') = workspaceMembers (db w)
        ∧ projects (db w') = projects (db w)
        ∧ boards (db w') = boards (db w)
        ∧ task_findUnique (db w') id = None
        ∧ (∀ id', id' ≠ id → task_findUnique (db w') id' = task_findUnique (db w) id')
        ∧ outbox w' = (outbox w ++ [{| emit_room := board_room (boardId task);
                                      emit_event := "taskDeleted";
                                      emit_payload := PTaskId id |}])%list
  | (Throw _, w') => w' = w
  end.
Proof.
  pose proof (deleteTask_run u id w) as Hd.
  destruct (deleteTask u id w) as [[resp|e] w']; [|done].
  destruct Hd as (task & r & Hf & _ & _ & -> & _). exists task. simpl.
  split_and!; try done.
  - rewrite task_findUnique_delete. by rewrite decide_True.
  - intros id' Hne. rewrite task_findUnique_delete. by rewrite decide_False.
Qed.

Section RoundTrip.
Context `{ZodFormats}.

Lemma task_findUnique_snoc d t id :
  task_findUnique (set_tasks d (tasks d ++ [t])) id
  = match task_findUnique d id with
    | Some x => Some x
    | None => if decide (task_id t = id) then Some t else None
    end.
Proof.
  unfold task_findUnique. simpl. induction (tasks d) as [|r rows IH]; simpl.
  - case_bool_decide; by case_decide.
  - by case_bool_decide.
Qed.

Lemma filter_all {A} (P : A → Prop) `{∀ x, Decision (P x)} (l : list A) :
  (∀ x, x ∈ l → P x) → filter P l = l.
Proof.
  intros HP. induction l as [|x l IH]; [done|].
  rewrite filter_cons, decide_True by (apply HP; by left).
  f_equal. apply IH. intros y Hy. apply HP. by right.
Qed.

Lemma task_delete_snoc d t :
  foreign_keys d →
  task_findUnique d (task_id t) = None →
  task_delete (task_id t) (set_tasks d (tasks d ++ [t])) = d.
Proof.
  intros [Hcs Has] Hnew. apply task_findUnique_None in Hnew.
  unfold task_delete. simpl. rewrite filter_app, filter_cons, decide_False by naive_solver.
  rewrite filter_nil, app_nil_r.
  rewrite !filter_all.
  - by destruct d.
  - intros a Ha Heq. apply Hnew. rewrite <- Heq. by apply Has.
  - intros c Hc Heq. apply Hnew. rewrite <- Heq. by apply Hcs.
  - intros r Hr Heq. apply Hnew. rewrite <- Heq. by apply list_elem_of_fmap_2.
Qed.

(** X3.  createTask followed by deleteTask of the created task, by the same
    caller, gives back the store as it was, all its tables: the create
    appends one row and shifts nothing, the delete removes that row and
    renumbers nothing; no comment or attachment goes with the task, as none
    belongs to a task that did not exist (the foreign keys of the two
    tables). *)
Theorem createTask_deleteTask_round_trip (u : string) (body : TaskBody) (newId : string)
    (w w1 : World) (resp : Response) :
  foreign_keys (db w) →
  createTask u body newId w = (Ok resp, w1) →
  ∃ resp2 w2, deleteTask u newId w1 = (Ok resp2, w2) ∧ db w2 = db w.
Proof.
  intros Hfk Hc. pose proof (createTask_inv u body newId w) as Hi. rewrite Hc in Hi.
  destruct Hi as (v & r & Hv & Hr & Hne & Hnew & Hdb & _).
  set (t := createTask_data v _ newId) in *.
  apply role_on_board_inv in Hr as (bd & ws & Hb & Hws & Hm).
  assert (task_findUnique (db w1) newId = Some t) as Hf.
  { rewrite Hdb, task_findUnique_snoc, Hnew. by rewrite decide_True. }
  assert (boards (db w1) !! boardId t = Some bd) as Hb1 by (by rewrite Hdb).
  assert (board_workspace (db w1) bd = Some ws) as Hws1 by (by rewrite Hdb).
  assert (workspaceMembers (db w1) !! (ws, u) = Some r) as Hm1 by (by rewrite Hdb).
  unfold deleteTask. unfold bind at 1.
  rewrite (task_findUnique_include_member newId u writers w1 t bd ws Hf Hb1 Hws1).
  simpl. rewrite (members_where_writers _ _ _ _ Hm1).
  destruct (decide (r = VIEWER)); [done|]. simpl.
  eexists _, _. split; [reflexivity|]. simpl.
  rewrite Hdb. by apply (task_delete_snoc (db w) t).
Qed.

End RoundTrip.

Lemma createTask_deleteTask_round_trip_witness :
  foreign_keys (db two_in_todo)
  ∧ ∃ resp w1 resp2 w2,
    createTask (H := zod) bob (sample_body "todo" None) "ctask0000003" two_in_todo
    = (Ok resp, w1)
    ∧ deleteTask bob "ctask0000003" w1 = (Ok resp2, w2)
    ∧ db w2 = db two_in_todo.
Proof.
  assert (foreign_keys (db two_in_todo)) as Hfk.
  { split; intros x Hx; by apply elem_of_nil in Hx. }
  split; [exact Hfk|].
  destruct (createTask (H := zod) bob (sample_body "todo" None) "ctask0000003" two_in_todo)
    as [[resp|e] w1] eqn:Hrun; [|by vm_compute in Hrun].
  destruct (createTask_deleteTask_round_trip (H := zod) bob (sample_body "todo" None)
              "ctask0000003" two_in_todo w1 resp Hfk Hrun) as (resp2 & w2 & Hdel & Hdb).
  by exists resp, w1, resp2, w2.
Defined.

Section Requests.
Context `{ZodFormats}.

Lemma role_on_board_intro d u b bd ws :
  boards d !! b = Some bd → board_workspace d bd = Some ws →
  role_on_board d u b = workspaceMembers d !! (ws, u).
Proof.
  intros Hb Hws. unfold role_on_board, board_workspaceId. rewrite Hb. simpl.
  by rewrite Hws.
Qed.

Lemma updateTask_run u id body w :
  match updateTask u id body w with
  | (Ok resp, w') =>
      ∃ task r,
        updateTaskSchema_issues body = []
        ∧ task_findUnique (db w) id = Some task
        ∧ role_on_board (db w) u (boardId task) = Some r ∧ r ≠ VIEWER
        ∧ (∀ s, patch_assignedTo body = Some s → s ≠ "" →
                member_of_board (db w) s (boardId task))
        ∧ w' = {| db := set_tasks (db w)
                          (update_row id (updateTask_data body) <$> tasks (db w));
                  outbox := (outbox w
                             ++ [{| emit_room := board_room (boardId task);
                                    emit_event := "taskUpdated";
                                    emit_payload :=
                                      PTask (apply_update (updateTask_data body) task) |}])%list |}
  | (Throw _, w') => w' = w
  end.
Proof.
  unfold updateTask. unfold bind at 1, parse, updateTaskSchema_parse.
  destruct (updateTaskSchema_issues body) eqn:Hv; [|done].
  unfold bind at 1.
  pose proof (task_findUnique_include_inv id u writers w) as Hq.
  destruct (task_findUnique_include id u writers w) as [[[[task b]|]|e] w1].
  - destruct Hq as (-> & Hf & Hb & Hws & Hm).
    case_decide as Hlen; [done|].
    rewrite Hm in Hlen. apply members_where_nonempty in Hlen as (r & Hr & Hin).
    unfold bind at 1.
    pose proof (assignee_check_inv (inc_workspaceId b) (patch_assignedTo body) w) as Ha.
    destruct (assignee_check _ _ w) as [[[]|e] w1]; [|by destruct Ha].
    destruct Ha as [-> Ha].
    unfold bind at 1, prisma_try, lift_write, task_update. rewrite Hf.
    unfold bind, prisma, gets, io_to_emit, modify, ret. simpl.
    exists task, r. split_and!; try done.
    + by rewrite (role_on_board_intro _ _ _ _ _ Hb Hws).
    + by apply writer_role.
    + intros s Hs Hne. unfold member_of_board.
      rewrite (role_on_board_intro _ _ _ _ _ Hb Hws). by apply Ha.
    + rewrite task_findUnique_update_row, Hf. simpl.
      apply task_findUnique_Some in Hf as [_ Hid].
      unfold update_row. by rewrite decide_True.
  - by destruct Hq as [-> _].
  - done.
Qed.

Lemma createTask_run u body newId w :
  match createTask u body newId w with
  | (Ok resp, w') =>
      ∃ v r,
        taskSchema_parse body = Ok v
        ∧ role_on_board (db w) u (body_boardId body) = Some r ∧ r ≠ VIEWER
        ∧ (∀ s, body_assignedTo body = Some s → s ≠ "" →
                member_of_board (db w) s (body_boardId body))
        ∧ task_findUnique (db w) newId = None
        ∧ let task := createTask_data v (task_findFirst_desc (db w) (body_boardId body)
                                           (body_columnId body)) newId in
          w' = {| db := set_tasks (db w) (tasks (db w) ++ [task]);
                  outbox := (outbox w ++ [{| emit_room := board_room (body_boardId body);
                                            emit_event := "taskCreated";
                                            emit_payload := PTask task |}])%list |}
          ∧ resp = {| status := 201; json := JTask "Task created successfully" (PTask task) |}
  | (Throw _, w') => w' = w
  end.
Proof.
  unfold createTask. unfold bind at 1, parse.
  destruct (taskSchema_parse body) as [v|e] eqn:Hv; [|done].
  pose proof (taskSchema_parse_Ok body v Hv) as (Hi & Hvb & Hvc & Hvp).
  assert (in_assignedTo v = body_assignedTo body) as Hva.
  { destruct (taskSchema_parse_valid body Hi) as (v' & Hv' & _ & _ & Hva & _).
    congruence. }
  unfold bind at 1, board_findUnique. rewrite Hvb, Hvc, Hva.
  destruct (boards (db w) !! body_boardId body) as [bd|] eqn:Hb; [|done].
  destruct (board_workspace (db w) bd) as [ws|] eqn:Hws; [|done].
  simpl. case_decide as Hlen; [done|].
  apply members_where_nonempty in Hlen as (r & Hr & Hin).
  unfold bind at 1.
  pose proof (assignee_check_inv ws (body_assignedTo body) w) as Ha.
  destruct (assignee_check ws (body_assignedTo body) w) as [[[]|e] w1]; [|by destruct Ha].
  destruct Ha as [-> Ha].
  unfold bind at 1, prisma at 1, gets. unfold bind at 1, prisma_try, lift_write, task_create.
  simpl.
  destruct (task_findUnique (db w) newId) eqn:Hnew; [done|].
  unfold bind, io_to_emit, modify, ret. simpl.
  exists v, r. split_and!; try done.
  - by rewrite (role_on_board_intro _ _ _ _ _ Hb Hws).
  - by apply writer_role.
  - intros s Hs Hne. unfold member_of_board.
    rewrite (role_on_board_intro _ _ _ _ _ Hb Hws). by apply Ha.
Qed.


(** X5.  The assignee of a committed createTask or updateTask (when the
    request names a non-empty one) has a membership row in the workspace of
    the board of the task. *)
Theorem committed_assignee_is_member (u : string) (w : World) :
  (∀ body newId resp w' s,
     createTask u body newId w = (Ok resp, w') →
     body_assignedTo body = Some s → s ≠ "" →
     member_of_board (db w) s (body_boardId body))
  ∧ (∀ id body resp w' s task,
       updateTask u id body w = (Ok resp, w') →
       task_findUnique (db w) id = Some task →
       patch_assignedTo body = Some s → s ≠ "" →
       member_of_board (db w) s (boardId task)).
Proof.
  split.
  - intros body newId resp w' s Hrun Hs Hne.
    pose proof (createTask_run u body newId w) as Hr. rewrite Hrun in Hr.
    destruct Hr as (v & r & _ & _ & _ & Ha & _). by apply Ha.
  - intros id body resp w' s task Hrun Hf Hs Hne.
    pose proof (updateTask_run u id body w) as Hr. rewrite Hrun in Hr.
    destruct Hr as (task' & r & _ & Hf' & _ & _ & Ha & _).
    assert (task' = task) as -> by congruence. by apply Ha.
Qed.

End Requests.

Lemma committed_assignee_is_member_witness :
  ∃ resp w',
    createTask (H := zod) bob assigned_body "ctask0000001" sample_world = (Ok resp, w')
    ∧ member_of_board (db sample_world) carol board1.
Proof.
  destruct (createTask (H := zod) bob assigned_body "ctask0000001" sample_world)
    as [[resp|e] w'] eqn:Hrun; [|by vm_compute in Hrun].
  exists resp, w'. split; [done|].
  apply (proj1 (committed_assignee_is_member (H := zod) bob sample_world)
           assigned_body "ctask0000001" resp w' carol Hrun eq_refl). discriminate.
Defined.

(** ** What a committed [moveTask] does to the rows *)

Lemma moveTask_rows faults u id body w resp w' :
  primary_key (db w) →
  moveTask faults u id body w = (Ok resp, w') →
  ∃ task, task_findUnique (db w) id = Some task
          ∧ tasks (db w') = move_row (boardId task) (move_columnId body)
                              (move_position body) id <$> tasks (db w).
Proof.
  intros Hk Hrun. pose proof (moveTask_inv faults u id body w) as Hm. rewrite Hrun in Hm.
  destruct Hm as (task & r & Hf & _ & _ & Hdb & _). exists task. split; [done|].
  rewrite Hdb. simpl. by apply move_row_shift.
Qed.

Lemma task_findUnique_rows d d' (f : Task → Task) id :
  (∀ t, task_id (f t) = task_id t) →
  tasks d' = f <$> tasks d →
  task_findUnique d' id = f <$> task_findUnique d id.
Proof.
  intros Hf Hrows. unfold task_findUnique. rewrite Hrows. clear Hrows.
  generalize (tasks d). intros rows.
  induction rows as [|r rows IH]; simpl; [done|].
  rewrite Hf. case_bool_decide; [done|]. apply IH.
Qed.

Lemma move_row_other b c p id t :
  task_id t ≠ id →
  move_row b c p id t
  = if decide (move_where b c p t) then apply_update (data_position (position t + 1)) t
    else t.
Proof.
  intros Hne. unfold move_row, update_row.
  destruct (decide (move_where b c p t)); by rewrite decide_False by (simpl; done).
Qed.

(** X6.  Where a committed moveTask puts the task.  The body is not
    validated and a field it lacks is left alone: the task ends in the column
    the body names, or stays in its column when the body names none; it ends
    at the position the body names, and without one it keeps its position,
    or that position plus one when it was itself among the rows the request
    shifted.  Its other fields are as before.  When the body names a
    position, the task is the only task of its column at that position. *)
Theorem moveTask_lands (faults : Faults) (u id : string) (body : MoveTaskBody)
    (w w' : World) (resp : Response) :
  primary_key (db w) →
  moveTask faults u id body w = (Ok resp, w') →
  ∃ task,
    task_findUnique (db w) id = Some task
    ∧ task_findUnique (db w') id
      = Some {| task_id := task_id task; title := title task;
                description := description task; boardId := boardId task;
                columnId := default (columnId task) (move_columnId body);
                assignedTo := assignedTo task;
                priority := priority task; dueDate := dueDate task;
                position :=
                  match move_position body with
                  | Some p => p
                  | None =>
                      if decide (move_where (boardId task) (move_columnId body) None task)
                      then position task + 1 else position task
                  end |}
    ∧ ∀ p, move_position body = Some p →
        ∀ t, t ∈ tasks (db w') →
             in_column (boardId task) (default (columnId task) (move_columnId body)) t →
             position t = p → task_id t = id.
Proof.
  intros Hk Hrun. destruct (moveTask_rows faults u id body w resp w' Hk Hrun)
    as (task & Hf & Hrows).
  exists task. split; [done|]. split.
  - rewrite (task_findUnique_rows (db w) (db w') _ id (task_id_move_row _ _ _ _) Hrows).
    rewrite Hf. simpl. f_equal.
    apply task_findUnique_Some in Hf as [_ Hid].
    unfold move_row, update_row.
    destruct (move_position body) as [p|];
      destruct (decide (move_where (boardId task) (move_columnId body) _ task));
      by rewrite decide_True.
  - intros p Hp t Ht [Hb Hc] Hpos. rewrite Hrows in Ht.
    apply list_elem_of_fmap in Ht as (r & -> & Hr).
    destruct (decide (task_id r = id)) as [Heq|Hne]; [by rewrite task_id_move_row|].
    exfalso. revert Hb Hc Hpos. rewrite move_row_other by done. rewrite Hp.
    destruct (decide (move_where (boardId task) (move_columnId body) (Some p) r))
      as [(Hwb & Hwc & Hwp)|Hn]; simpl.
    + lia.
    + intros Hb Hc Hpos. apply Hn. split; [done|]. split; [|lia].
      destruct (move_columnId body); [done|done].
Qed.

(** X7.  A committed moveTask, whatever its body, keeps every other task in
    its column and keeps the order of the other tasks of each column: two
    tasks other than the moved one that share a column compare by position
    after the move as they did before. *)
Theorem moveTask_keeps_order (faults : Faults) (u id : string) (body : MoveTaskBody)
    (w w' : World) (resp : Response) :
  primary_key (db w) →
  moveTask faults u id body w = (Ok resp, w') →
  ∀ i1 i2 r1 r2,
    i1 ≠ id → i2 ≠ id →
    task_findUnique (db w) i1 = Some r1 → task_findUnique (db w) i2 = Some r2 →
    ∃ r1' r2',
      task_findUnique (db w') i1 = Some r1' ∧ task_findUnique (db w') i2 = Some r2'
      ∧ boardId r1' = boardId r1 ∧ columnId r1' = columnId r1
      ∧ boardId r2' = boardId r2 ∧ columnId r2' = columnId r2
      ∧ (boardId r1 = boardId r2 → columnId r1 = columnId r2 →
         (position r1 < position r2 ↔ position r1' < position r2')
         ∧ (position r1 = position r2 ↔ position r1' = position r2')).
Proof.
  intros Hk Hrun i1 i2 r1 r2 Hi1 Hi2 H1 H2.
  destruct (moveTask_rows faults u id body w resp w' Hk Hrun) as (task & Hf & Hrows).
  rewrite !(task_findUnique_rows (db w) (db w') _ _ (task_id_move_row _ _ _ _) Hrows).
  rewrite H1, H2. simpl. eexists _, _. split; [done|]. split; [done|].
  apply task_findUnique_Some in H1 as [_ E1]. apply task_findUnique_Some in H2 as [_ E2].
  rewrite !move_row_other by congruence.
  set (b := boardId task). set (c := move_columnId body). set (p := move_position body).
  destruct (decide (move_where b c p r1)) as [W1|W1],
           (decide (move_where b c p r2)) as [W2|W2]; simpl;
    (split; [done|]); (split; [done|]); (split; [done|]); (split; [done|]);
    intros Hb Hc; try lia.
  - destruct W1 as (Wb & Wc & Wp).
    assert (∃ p0, p = Some p0 ∧ p0 ≤ position r1 ∧ position r2 < p0) as (p0 & _ & ? & ?).
    { destruct p as [p0|].
      - exists p0. split; [done|]. split; [done|]. apply Z.nle_gt. intros Hle.
        apply W2. split; [congruence|]. split; [|done]. destruct c; [congruence|done].
      - exfalso. apply W2. split; [congruence|]. split; [|done].
        destruct c; [congruence|done]. }
    lia.
  - destruct W2 as (Wb & Wc & Wp).
    assert (∃ p0, p = Some p0 ∧ p0 ≤ position r2 ∧ position r1 < p0) as (p0 & _ & ? & ?).
    { destruct p as [p0|].
      - exists p0. split; [done|]. split; [done|]. apply Z.nle_gt. intros Hle.
        apply W1. split; [congruence|]. split; [|done]. destruct c; [congruence|done].
      - exfalso. apply W1. split; [congruence|]. split; [|done].
        destruct c; [congruence|done]. }
    lia.
Qed.

Lemma primary_key_three_in_todo : primary_key (db three_in_todo).
Proof. apply (bool_decide_unpack _). by vm_compute. Qed.

Lemma moveTask_lands_witness :
  primary_key (db three_in_todo)
  ∧ ∃ resp w',
      moveTask no_faults bob "ctask0000001" move_to_doing three_in_todo = (Ok resp, w')
      ∧ task_findUnique (db w') "ctask0000001" = Some (sample_task "ctask0000001" "doing" 0)
      ∧ ∀ t, t ∈ tasks (db w') → in_column board1 "doing" t →
             position t = 0 → task_id t = "ctask0000001".
Proof.
  split; [exact primary_key_three_in_todo|].
  destruct (moveTask no_faults bob "ctask0000001" move_to_doing three_in_todo)
    as [[resp|e] w'] eqn:Hrun; [|by vm_compute in Hrun].
  exists resp, w'. split; [done|].
  destruct (moveTask_lands no_faults bob "ctask0000001" move_to_doing three_in_todo w' resp
              primary_key_three_in_todo Hrun) as (task & Hf & Hf' & Honly).
  assert (task = sample_task "ctask0000001" "todo" 0) as ->.
  { change (Some (sample_task "ctask0000001" "todo" 0) = Some task) in Hf. congruence. }
  split; [exact Hf'|]. exact (Honly 0 eq_refl).
Defined.

Lemma moveTask_keeps_order_witness :
  ∃ resp w',
    moveTask no_faults bob "ctask0000003"
      {| move_columnId := Some "todo"; move_position := Some 0 |} three_in_todo
    = (Ok resp, w')
    ∧ ∃ r1' r2',
        task_findUnique (db w') "ctask0000001" = Some r1'
        ∧ task_findUnique (db w') "ctask0000002" = Some r2'
        ∧ columnId r1' = "todo" ∧ columnId r2' = "todo"
        ∧ position r1' < position r2'.
Proof.
  destruct (moveTask no_faults bob "ctask0000003"
              {| move_columnId := Some "todo"; move_position := Some 0 |} three_in_todo)
    as [[resp|e] w'] eqn:Hrun; [|by vm_compute in Hrun].
  exists resp, w'. split; [done|].
  destruct (moveTask_keeps_order no_faults bob "ctask0000003"
              {| move_columnId := Some "todo"; move_position := Some 0 |} three_in_todo
              w' resp primary_key_three_in_todo Hrun
              "ctask0000001" "ctask0000002"
              (sample_task "ctask0000001" "todo" 0) (sample_task "ctask0000002" "todo" 1))
    as (r1' & r2' & H1 & H2 & _ & Hc1 & _ & Hc2 & Horder); [done..|].
  exists r1', r2'. split; [exact H1|]. split; [exact H2|].
  split; [exact Hc1|]. split; [exact Hc2|].
  destruct (Horder eq_refl eq_refl) as [Hlt _]. apply Hlt. reflexivity.
Defined.

(** ** Positions are not negative, unless [moveTask] is told so *)

Lemma issue_nil ok path : issue ok path = [] → ok = true.
Proof. by destruct ok. Qed.

Section Validated.
Context `{ZodFormats}.

Lemma taskSchema_issues_nil body :
  taskSchema_issues body = [] →
  (1 ≤ String.length (body_title body) ≤ 200)%nat
  ∧ body_columnId body ≠ ""
  ∧ 0 ≤ default 0 (body_position body).
Proof.
  unfold taskSchema_issues. intros Hi.
  repeat (apply app_eq_nil in Hi as [?%issue_nil Hi]). apply issue_nil in Hi.
  split; [|split].
  - unfold length_between in *.
    repeat match goal with
           | Hx : _ && _ = true |- _ => apply andb_true_iff in Hx as [??]
           | Hx : bool_decide _ = true |- _ => apply bool_decide_eq_true in Hx
           end. lia.
  - intros Hc. rewrite Hc in *. simpl in *. done.
  - destruct (body_position body) as [p|]; simpl in *; [|done].
    by apply bool_decide_eq_true in Hi.
Qed.

Lemma updateTaskSchema_issues_nil body p :
  updateTaskSchema_issues body = [] → patch_position body = Some p → 0 ≤ p.
Proof.
  unfold updateTaskSchema_issues. intros Hi Hp.
  repeat (apply app_eq_nil in Hi as [?%issue_nil Hi]). apply issue_nil in Hi.
  rewrite Hp in Hi. simpl in Hi. by apply bool_decide_eq_true in Hi.
Qed.

Lemma shift_all_nonnegative l : ∀ rows,
  (∀ t, t ∈ l → 0 ≤ position t) →
  (∀ r, r ∈ rows → 0 ≤ position r) →
  ∀ r, r ∈ shift_all l rows → 0 ≤ position r.
Proof.
  unfold shift_all. induction l as [|t l IH]; intros rows Hl Hrows; simpl; [done|].
  apply IH.
  - intros t' Ht'. apply Hl. by right.
  - intros r Hr. apply list_elem_of_fmap in Hr as (r0 & -> & Hr0).
    unfold update_row. case_decide; simpl; [|by apply Hrows].
    assert (0 ≤ position t) by (apply Hl; left). lia.
Qed.

(** X8.  createTask, updateTask and deleteTask never store a negative
    position: both schemas require position >= 0 and the allocated position
    is one more than an existing one.  moveTask, whose body is not validated,
    keeps the property when the position of its body is not negative. *)
Theorem nonnegative_positions_kept (u : string) (req : TaskRequest) (w : World) :
  nonnegative_positions (db w) →
  nonnegative_request req →
  nonnegative_positions (db (run_request u req w).2).
Proof.
  intros Hnn Hreq. destruct req as [body newId|id body|id|faults id body]; simpl.
  - pose proof (createTask_run u body newId w) as Hr.
    destruct (createTask u body newId w) as [[resp|e] w']; simpl; [|by subst].
    destruct Hr as (v & r & Hv & _ & _ & _ & _ & -> & _). simpl.
    apply taskSchema_parse_Ok in Hv as (Hi & _ & _ & Hp).
    apply taskSchema_issues_nil in Hi as (_ & _ & Hpos).
    intros t Ht. apply elem_of_app in Ht as [Ht|Ht]; [by apply Hnn|].
    apply list_elem_of_singleton in Ht as ->. simpl. rewrite Hp.
    case_decide; [done|].
    destruct (task_findFirst_desc _ _ _) as [m|] eqn:Hm; [|done].
    apply task_findFirst_desc_Some in Hm as [Hin _].
    apply list_elem_of_filter in Hin as [_ Hin]. specialize (Hnn m Hin). lia.
  - pose proof (updateTask_run u id body w) as Hr.
    destruct (updateTask u id body w) as [[resp|e] w']; simpl; [|by subst].
    destruct Hr as (task & r & Hi & _ & _ & _ & _ & ->). simpl.
    intros t Ht. apply list_elem_of_fmap in Ht as (t0 & -> & Ht0).
    unfold update_row. case_decide; [|by apply Hnn]. simpl.
    destruct (patch_position body) as [p|] eqn:Hp; simpl; [|by apply Hnn].
    by eapply updateTaskSchema_issues_nil.
  - pose proof (deleteTask_run u id w) as Hr.
    destruct (deleteTask u id w) as [[resp|e] w']; simpl; [|by subst].
    destruct Hr as (task & r & _ & _ & _ & -> & _). simpl.
    intros t Ht. apply list_elem_of_filter in Ht as [_ Ht]. by apply Hnn.
  - pose proof (moveTask_inv faults u id body w) as Hr.
    destruct (moveTask faults u id body w) as [[resp|e] w']; simpl; [|by subst].
    destruct Hr as (task & r & _ & _ & _ & -> & _). simpl.
    assert (∀ r, r ∈ shift_all (task_findMany_gte (db w) (boardId task)
                                  (move_columnId body) (move_position body))
                       (tasks (db w)) → 0 ≤ position r) as Hshift.
    { apply shift_all_nonnegative; [|done].
      intros t' Ht'. rewrite task_findMany_gte_perm in Ht'.
      apply list_elem_of_filter in Ht' as [_ Ht']. by apply Hnn. }
    intros t Ht. apply list_elem_of_fmap in Ht as (t0 & -> & Ht0).
    unfold update_row. case_decide as Hid; simpl; [|by apply Hshift].
    simpl in Hreq. destruct (move_position body) as [p|]; simpl; [done | by apply Hshift].
Qed.

End Validated.

(** ** Dropping a card on another column *)

Lemma length_insert_by_position x l :
  length (insert_by_position x l) = S (length l).
Proof.
  induction l as [|y l IH]; simpl; [done|]. case_decide; simpl; [done|]. by rewrite IH.
Qed.

Lemma length_sort_by_position l : length (sort_by_position l) = length l.
Proof.
  unfold sort_by_position. induction l as [|x l IH]; simpl; [done|].
  by rewrite length_insert_by_position, IH.
Qed.

Lemma getTasksByColumn_board_length d b c :
  length (getTasksByColumn (task_findMany_board d b) c) = length (column_tasks d b c).
Proof.
  unfold getTasksByColumn. rewrite length_sort_by_position.
  apply Permutation_length.
  unfold task_findMany_board, orderBy_position_asc, column_tasks.
  rewrite merge_sort_Permutation. rewrite list_filter_filter.
  apply reflexive_eq. apply list_filter_iff. intros t. unfold in_column. tauto.
Qed.

Lemma nonnegative_positions_kept_witness :
  nonnegative_positions (db three_in_todo)
  ∧ nonnegative_positions
      (db (run_request (H := zod) bob (ReqMove no_faults "ctask0000001" move_to_doing)
             three_in_todo).2).
Proof.
  assert (nonnegative_positions (db three_in_todo)) as Hnn.
  { intros t Hin. unfold three_in_todo, with_tasks in Hin. simpl in Hin.
    repeat (apply elem_of_cons in Hin as [->|Hin]); [by vm_compute..|].
    by apply elem_of_nil in Hin. }
  split; [exact Hnn|].
  apply (nonnegative_positions_kept (H := zod) bob
           (ReqMove no_faults "ctask0000001" move_to_doing) three_in_todo Hnn).
  by vm_compute.
Defined.

Lemma handleDrop_Some ts dragged c id body :
  handleDrop ts (Some dragged) c = Some (id, body) →
  columnId dragged ≠ c ∧ id = task_id dragged ∧ move_columnId body = Some c
  ∧ move_position body = Some (Z.of_nat (length (getTasksByColumn ts c))).
Proof.
  unfold handleDrop. case_decide; [done|]. by intros [= <- <-].
Qed.

Lemma primary_key_split d t :
  primary_key d → t ∈ tasks d →
  ∃ l1 l2, tasks d = (l1 ++ t :: l2)%list
           ∧ (∀ r, r ∈ l1 → task_id r ≠ task_id t)
           ∧ (∀ r, r ∈ l2 → task_id r ≠ task_id t).
Proof.
  unfold primary_key. intros Hk Hin.
  apply list_elem_of_split in Hin as (l1 & l2 & Hrows). exists l1, l2.
  split; [done|]. rewrite Hrows, fmap_app, fmap_cons in Hk.
  apply NoDup_app in Hk as (_ & Hdisj & Hk2). apply NoDup_cons in Hk2 as [Hnot _].
  split.
  - intros r Hr Heq. apply (Hdisj (task_id r)); [by apply list_elem_of_fmap_2|].
    rewrite Heq. by left.
  - intros r Hr Heq. apply Hnot. rewrite <- Heq. by apply list_elem_of_fmap_2.
Qed.

(** X9.  Dropping a card on another column, as the board view does it: the
    view asks for the position "number of cards of that column", read from
    the task list getTasks returned.  If the positions of the destination
    column are 0, ..., n-1 in the store, the move granted to an ADMIN or
    MEMBER puts the task last, at position n, and the destination positions
    are 0, ..., n again; the column the task left keeps its other positions
    as they were, so the position of the task is now missing there. *)
Theorem drop_on_other_column (u : string) (w : World) (dragged : Task) (c id : string)
    (body : MoveTaskBody) (r : Role) :
  primary_key (db w) →
  dragged ∈ tasks (db w) →
  role_on_board (db w) u (boardId dragged) = Some r → r ≠ VIEWER →
  dense (db w) (boardId dragged) c →
  handleDrop (task_findMany_board (db w) (boardId dragged)) (Some dragged) c
  = Some (id, body) →
  ∃ resp w',
    moveTask no_faults u id body w = (Ok resp, w')
    ∧ dense (db w') (boardId dragged) c
    ∧ (∃ moved, task_findUnique (db w') id = Some moved
                ∧ columnId moved = c
                ∧ position moved = Z.of_nat (length (column_tasks (db w) (boardId dragged) c)))
    ∧ column_positions (db w) (boardId dragged) (columnId dragged)
      ≡ₚ position dragged :: column_positions (db w') (boardId dragged) (columnId dragged).
Proof.
  intros Hk Hin Hr Hne Hdense Hdrop.
  apply handleDrop_Some in Hdrop as (Hcol & -> & Hc & Hp).
  rewrite getTasksByColumn_board_length in Hp.
  set (b := boardId dragged) in *. set (n := length (column_tasks (db w) b c)) in *.
  pose proof (task_findUnique_elem (db w) dragged Hk Hin) as Hf.
  pose proof (moveTask_ok u (task_id dragged) body w dragged r Hk Hf Hr Hne) as Hrun.
  simpl in Hrun. rewrite Hc, Hp in Hrun. fold b in Hrun.
  eexists _, _. split; [exact Hrun|]. simpl.
  destruct (primary_key_split (db w) dragged Hk Hin) as (l1 & l2 & Hrows & Hl1 & Hl2).
  (* rows other than the dragged one stay as they are *)
  assert (∀ t, t ∈ tasks (db w) → task_id t ≠ task_id dragged →
               move_row b (Some c) (Some (Z.of_nat n)) (task_id dragged) t = t) as Hsame.
  { intros t Ht Hid. rewrite move_row_complete. rewrite decide_False by done.
    rewrite decide_False; [done|]. intros [Hcol' Hpos].
    assert (position t ∈ seqZ 0 (Z.of_nat n)) as Hseq.
    { unfold dense, column_positions in Hdense. fold n in Hdense. rewrite <- Hdense.
      apply list_elem_of_fmap_2. by apply list_elem_of_filter. }
    apply elem_of_seqZ in Hseq. lia. }
  assert (move_row b (Some c) (Some (Z.of_nat n)) (task_id dragged) <$> tasks (db w)
          = (l1 ++ apply_update (data_columnId_position (Some c) (Some (Z.of_nat n)))
                     dragged :: l2)%list)
    as Hrows'.
  { rewrite Hrows, fmap_app, fmap_cons.
    assert (∀ l : list Task,
              (∀ t, t ∈ l → t ∈ tasks (db w) ∧ task_id t ≠ task_id dragged) →
                 move_row b (Some c) (Some (Z.of_nat n)) (task_id dragged) <$> l = l)
      as Hmap.
    { intros l Hl. rewrite <- (list_fmap_id l) at 2. apply list_fmap_ext.
      intros i t Ht. apply list_elem_of_lookup_2 in Ht. simpl.
      destruct (Hl t Ht). by apply Hsame. }
    rewrite !Hmap.
    - rewrite move_row_complete. by rewrite decide_True.
    - intros t Ht. split; [|by apply Hl2]. rewrite Hrows. apply elem_of_app. right. by right.
    - intros t Ht. split; [|by apply Hl1]. rewrite Hrows. apply elem_of_app. by left. }
  split_and!.
  - unfold dense, column_positions, column_tasks in *. simpl. rewrite Hrows'.
    fold n in Hdense. rewrite Hrows in Hdense. revert Hdense.
    rewrite !filter_app, !filter_cons.
    rewrite (decide_False (P := in_column b c dragged)) by (unfold in_column; tauto).
    rewrite decide_True by done.
    rewrite !fmap_app, fmap_cons, !length_app. simpl.
    intros Hdense.
    assert (length (filter (in_column b c) l1) + S (length (filter (in_column b c) l2))
            = S n)%nat as ->.
    { unfold n, column_tasks. rewrite Hrows, filter_app, filter_cons.
      rewrite (decide_False (P := in_column b c dragged)) by (unfold in_column; tauto).
      rewrite length_app. lia. }
    rewrite seqZ_S. rewrite <- Permutation_middle, Permutation_cons_append.
    apply Permutation_app; [exact Hdense|]. by rewrite Z.add_0_l.
  - eexists. split.
    + rewrite task_findUnique_fmap by apply task_id_move_row.
      rewrite Hf. simpl. rewrite move_row_complete. by rewrite decide_True.
    + done.
  - unfold column_positions, column_tasks. simpl. rewrite Hrows', Hrows.
    rewrite !filter_app, !filter_cons.
    rewrite (decide_True (P := in_column b (columnId dragged) dragged)) by done.
    rewrite decide_False by (intros [_ Heq]; simpl in Heq; congruence).
    rewrite !fmap_app, fmap_cons. by rewrite <- Permutation_middle.
Qed.

Lemma drop_on_other_column_witness :
  handleDrop (task_findMany_board (db three_in_todo) board1)
    (Some (sample_task "ctask0000001" "todo" 0)) "doing"
  = Some ("ctask0000001", {| move_columnId := Some "doing"; move_position := Some 1 |})
  ∧ ∃ resp w',
      moveTask no_faults bob "ctask0000001"
        {| move_columnId := Some "doing"; move_position := Some 1 |} three_in_todo = (Ok resp, w')
      ∧ dense (db w') board1 "doing"
      ∧ (∃ moved, task_findUnique (db w') "ctask0000001" = Some moved
                  ∧ columnId moved = "doing"
                  ∧ position moved
                    = Z.of_nat (length (column_tasks (db three_in_todo) board1 "doing")))
      ∧ column_positions (db three_in_todo) board1 "todo"
        ≡ₚ 0 :: column_positions (db w') board1 "todo".
Proof.
  split; [reflexivity|].
  apply (drop_on_other_column bob three_in_todo (sample_task "ctask0000001" "todo" 0)
           "doing" "ctask0000001" {| move_columnId := Some "doing"; move_position := Some 1 |} MEMBER).
  - exact primary_key_three_in_todo.
  - by left.
  - reflexivity.
  - discriminate.
  - unfold dense. vm_compute. reflexivity.
  - reflexivity.
Defined.

(** ** Rooms and presence *)

Lemma workspace_room_inj w1 w2 : workspace_room w1 = workspace_room w2 → w1 = w2.
Proof. unfold workspace_room. cbv [String.append]. by intros [= ->]. Qed.

Lemma room_sockets_leave_eq sid room io room' :
  room_sockets (socket_leave sid room io) room'
  = if decide (room = room') then room_sockets io room ∖ {[sid]}
    else room_sockets io room'.
Proof.
  unfold room_sockets at 1, socket_leave. simpl.
  destruct (decide (room = room')) as [->|Hne].
  - case_decide as He.
    + rewrite lookup_delete_eq. by rewrite He.
    + by rewrite lookup_insert_eq.
  - case_decide; [by rewrite lookup_delete_ne | by rewrite lookup_insert_ne].
Qed.

Lemma join_workspace_unfold d sid ws io :
  join_workspace d sid ws io
  = match sockets io !! sid with
    | None => (io, [])
    | Some user =>
        match workspaces d !! ws with
        | None => (io, [socket_emit sid "error" (DMessage "Workspace not found")])
        | Some _ =>
            match workspaceMembers d !! (ws, user_id user) with
            | None => (io, [socket_emit sid "error" (DMessage "Access denied")])
            | Some _ =>
                let io' := socket_join sid (workspace_room ws) io in
                (io', [socket_to_emit io' sid (workspace_room ws) "user-joined-workspace"
                         (DUserWorkspace user ws);
                       socket_emit sid "joined-workspace" (DWorkspace ws)])
            end
        end
    end.
Proof.
  unfold join_workspace, members_where.
  destruct (sockets io !! sid) as [user|]; [|done].
  destruct (workspaces d !! ws); [|done].
  by destruct (workspaceMembers d !! (ws, user_id user)).
Qed.

Lemma handle_rooms d e io room sid :
  sid ∈ room_sockets (handle d e io) room →
  sid ∈ room_sockets io room
  ∨ (∃ b, e = JoinBoard sid b ∧ room = board_room b
          ∧ ∃ user, sockets io !! sid = Some user ∧ member_of_board d (user_id user) b)
  ∨ (∃ ws, e = JoinWorkspace sid ws ∧ room = workspace_room ws
           ∧ ∃ user, sockets io !! sid = Some user
                     ∧ is_Some (workspaces d !! ws)
                     ∧ is_Some (workspaceMembers d !! (ws, user_id user))).
Proof.
  destruct e as [s user|s b|s b|s ws|s ws|s]; simpl.
  - unfold connection. destruct (sockets io !! s); by left.
  - pose proof (join_board_spec d s b io) as Hj.
    destruct (sockets io !! s) as [user|] eqn:Hs; [|rewrite Hj; by left].
    case_decide as Hmem; [|destruct Hj as [m ->]; by left].
    rewrite Hj. simpl. rewrite room_sockets_join. case_decide as Hr; [|by left].
    intros Hin. apply elem_of_union in Hin as [Hin|Hin].
    + apply elem_of_singleton in Hin as ->. right. left. exists b. subst room. eauto.
    + left. by subst.
  - unfold leave_board. destruct (sockets io !! s); [|by left]. simpl.
    intros Hin. left. by apply room_sockets_leave in Hin.
  - rewrite join_workspace_unfold.
    destruct (sockets io !! s) as [user|] eqn:Hs; [|by left].
    destruct (workspaces d !! ws) as [wsp|] eqn:Hw; [|by left].
    destruct (workspaceMembers d !! (ws, user_id user)) as [r|] eqn:Hm; [|by left].
    simpl. rewrite room_sockets_join. case_decide as Hr; [|by left].
    intros Hin. apply elem_of_union in Hin as [Hin|Hin].
    + apply elem_of_singleton in Hin as ->. right. right. exists ws. subst room.
      split; [done|]. split; [done|]. exists user. by rewrite Hw, Hm.
    + left. by subst.
  - unfold leave_workspace. destruct (sockets io !! s); [|by left]. simpl.
    intros Hin. left. by apply room_sockets_leave in Hin.
  - intros Hin. left. by apply room_sockets_disconnect in Hin as [Hin _].
Qed.

(** A socket that stays in a room over an event keeps its user. *)
Lemma handle_sockets d e io room sid user :
  sid ∈ room_sockets (handle d e io) room →
  sockets io !! sid = Some user →
  sockets (handle d e io) !! sid = Some user.
Proof.
  intros Hin Hs. destruct e as [s u|s b|s b|s ws|s ws|s]; simpl in *.
  - unfold connection. destruct (sockets io !! s) eqn:Hs'; [done|]. simpl.
    rewrite lookup_insert_ne; [done|]. congruence.
  - unfold join_board. destruct (sockets io !! s); [|done].
    destruct (board_findUnique _ _ _ _) as [[[bi|]|err] w']; [|done..].
    by case_decide.
  - unfold leave_board. by destruct (sockets io !! s).
  - unfold join_workspace. destruct (sockets io !! s); [|done].
    destruct (workspaces d !! ws); [|done]. by case_decide.
  - unfold leave_workspace. by destruct (sockets io !! s).
  - apply room_sockets_disconnect in Hin as [_ Hne]. by rewrite lookup_delete_ne.
Qed.

Lemma rooms_of_connected_handle_all d es : ∀ io,
  rooms_of_connected io → rooms_of_connected (handle_all d es io).
Proof.
  unfold handle_all. induction es as [|e es IH]; intros io Hinv; simpl; [done|].
  apply IH. intros room sid Hin.
  destruct (handle_rooms d e io room sid Hin) as [Hold|[(b & _ & _ & user & Hs & _)
                                                        |(ws & _ & _ & user & Hs & _)]].
  - destruct (Hinv room sid Hold) as [user Hs]. exists user. by eapply handle_sockets.
  - exists user. by eapply handle_sockets.
  - exists user. by eapply handle_sockets.
Qed.

Lemma workspace_rooms_handle_all d es : ∀ io,
  workspace_rooms_of_members d io → workspace_rooms_of_members d (handle_all d es io).
Proof.
  unfold handle_all. induction es as [|e es IH]; intros io Hinv; simpl; [done|].
  apply IH. intros ws sid Hin.
  destruct (handle_rooms d e io _ sid Hin) as [Hold|[(b & _ & Hroom & _)
                                                    |(ws' & _ & Hroom & user & Hs & Hw & Hm)]].
  - destruct (Hinv ws sid Hold) as (user & Hs & Hw & Hm). exists user.
    split; [by eapply handle_sockets | done].
  - by apply workspace_room_board_room in Hroom.
  - apply workspace_room_inj in Hroom as <-. exists user.
    split; [by eapply handle_sockets | done].
Qed.

Lemma io_init_rooms room : room_sockets io_init room = ∅.
Proof. unfold room_sockets, io_init. simpl. by rewrite lookup_empty. Qed.

(** X10.  A join-workspace request adds the socket to the room of the
    workspace exactly when the workspace exists and the user of the socket
    has a membership row in it; otherwise the socket gets one error event and
    the rooms stay as they are.  With the membership rows unchanged, every
    socket in the room of a workspace is connected and belongs to a member
    of that workspace. *)
Theorem join_workspace_members_only (d : Db) :
  (∀ sid ws io,
     match sockets io !! sid with
     | None => join_workspace d sid ws io = (io, [])
     | Some user =>
         if decide (is_Some (workspaces d !! ws)
                    ∧ is_Some (workspaceMembers d !! (ws, user_id user)))
         then (join_workspace d sid ws io).1 = socket_join sid (workspace_room ws) io
         else ∃ message, join_workspace d sid ws io
                         = (io, [socket_emit sid "error" (DMessage message)])
     end)
  ∧ (∀ es, workspace_rooms_of_members d (handle_all d es io_init)).
Proof.
  split.
  - intros sid ws io. rewrite join_workspace_unfold.
    destruct (sockets io !! sid) as [user|]; [|done].
    destruct (workspaces d !! ws) as [wsp|].
    + destruct (workspaceMembers d !! (ws, user_id user)) as [r|].
      * by rewrite decide_True by (split; eauto).
      * rewrite decide_False by (by intros [_ [? ?]]). by eexists.
    + rewrite decide_False by (by intros [[? ?] _]). by eexists.
  - intros es. apply workspace_rooms_handle_all.
    intros ws sid Hin. rewrite io_init_rooms in Hin. by apply elem_of_empty in Hin.
Qed.

Lemma join_workspace_members_only_witness :
  "socket-carol" ∈ room_sockets (handle_all sample_db workspace_joins io_init)
                     (workspace_room "cworkspace01")
  ∧ ∃ user, sockets (handle_all sample_db workspace_joins io_init) !! "socket-carol"
            = Some user
            ∧ is_Some (workspaces sample_db !! "cworkspace01")
            ∧ is_Some (workspaceMembers sample_db !! ("cworkspace01", user_id user)).
Proof.
  assert ("socket-carol" ∈ room_sockets (handle_all sample_db workspace_joins io_init)
                             (workspace_room "cworkspace01")) as Hin
    by (apply (bool_decide_unpack _); by vm_compute).
  split; [exact Hin|].
  exact (proj2 (join_workspace_members_only sample_db) workspace_joins
           "cworkspace01" "socket-carol" Hin).
Defined.

Lemma rooms_of_members_reachable d es :
  rooms_of_members d (handle_all d es io_init).
Proof.
  apply rooms_of_members_handle_all. intros b sid Hin.
  rewrite io_init_rooms in Hin. by apply elem_of_empty in Hin.
Qed.

Lemma rooms_of_connected_reachable d es :
  rooms_of_connected (handle_all d es io_init).
Proof.
  apply rooms_of_connected_handle_all. intros room sid Hin.
  rewrite io_init_rooms in Hin. by apply elem_of_empty in Hin.
Qed.

(** X11.  The presence signals (typing-start, typing-stop, task-focus,
    task-unfocus) are relayed without any check on the sender: whether or
    not the sending socket has joined the room, or could join it, the signal
    goes to every socket of the room of the board except the sender itself.
    With the membership rows unchanged, each of these recipients is a
    connected socket of a member of the workspace of the board. *)
Theorem presence_signals_relayed (d : Db) (es : list SocketEvent) (io : Io)
    (sid taskId boardId : string) (user : User) :
  io = handle_all d es io_init →
  sockets io !! sid = Some user →
  ∀ signals,
    signals ∈ [typing_start sid taskId boardId io; typing_stop sid taskId boardId io;
               task_focus sid taskId boardId io; task_unfocus sid taskId boardId io] →
    ∃ s, signals = [s]
         ∧ signal_recipients s = room_sockets io (board_room boardId) ∖ {[sid]}
         ∧ (sid ∉ signal_recipients s)
         ∧ ∀ sid', sid' ∈ signal_recipients s →
             ∃ user', sockets io !! sid' = Some user'
                      ∧ member_of_board d (user_id user') boardId.
Proof.
  intros -> Hs signals Hin. set (io := handle_all d es io_init) in *.
  assert (∃ event data, signals = relay io sid boardId event data) as (event & data & ->).
  { repeat (apply elem_of_cons in Hin as [->|Hin]; [by eexists _, _|]).
    by apply elem_of_nil in Hin. }
  unfold relay. rewrite Hs. eexists. split; [done|]. simpl. split; [done|]. split.
  - intros Hx. apply elem_of_difference in Hx as [_ Hx]. apply Hx. by apply elem_of_singleton.
  - intros sid' Hx. apply elem_of_difference in Hx as [Hx _].
    by apply (rooms_of_members_reachable d es).
Qed.

Lemma onlineUsers_elem io b u :
  u ∈ onlineUsers io b
  ↔ ∃ sid, sid ∈ room_sockets io (board_room b) ∧ sockets io !! sid = Some u.
Proof.
  unfold onlineUsers. rewrite list_elem_of_omap. split.
  - intros (sid & Hin & Hs). exists sid. split; [by apply elem_of_elements in Hin | done].
  - intros (sid & Hin & Hs). exists sid. split; [by apply elem_of_elements | done].
Qed.

Lemma length_omap_total {A B} (f : A → option B) (l : list A) :
  (∀ x, x ∈ l → is_Some (f x)) → length (omap f l) = length l.
Proof.
  induction l as [|x l IH]; intros Hall; simpl; [done|].
  destruct (Hall x) as [y Hy]; [by left|]. rewrite Hy. simpl.
  f_equal. apply IH. intros z Hz. apply Hall. by right.
Qed.

(** X12.  get-online-users answers any connected socket, member or not,
    joined or not.  The users of the answer are exactly the users of the
    sockets in the room of the board, one entry per socket; with the
    membership rows unchanged, every one of them is a member of the workspace
    of the board. *)
Theorem online_users_of_room (d : Db) (es : list SocketEvent) (io : Io)
    (sid boardId : string) (user : User) :
  io = handle_all d es io_init →
  sockets io !! sid = Some user →
  get_online_users sid boardId io
  = [{| signal_recipients := {[sid]}; signal_event := "online-users";
        signal_data := SOnlineUsers boardId (onlineUsers io boardId) |}]
  ∧ (∀ u, u ∈ onlineUsers io boardId
          ↔ ∃ sid', sid' ∈ room_sockets io (board_room boardId)
                    ∧ sockets io !! sid' = Some u)
  ∧ length (onlineUsers io boardId) = size (room_sockets io (board_room boardId))
  ∧ ∀ u, u ∈ onlineUsers io boardId → member_of_board d (user_id u) boardId.
Proof.
  intros -> Hs. set (io := handle_all d es io_init) in *. split_and!.
  - unfold get_online_users. by rewrite Hs.
  - apply onlineUsers_elem.
  - unfold onlineUsers. rewrite length_omap_total; [done|].
    intros x Hx. apply elem_of_elements in Hx.
    by apply (rooms_of_connected_reachable d es (board_room boardId)).
  - intros u Hu. apply onlineUsers_elem in Hu as (sid' & Hin & Hu).
    destruct (rooms_of_members_reachable d es boardId sid' Hin) as (u' & Hu' & Hmem).
    unfold io in Hu. congruence.
Qed.

(** X13.  Joining and leaving the room of a board.  For a connected socket
    of a member: after join-board the socket is in the room; joining again
    changes nothing; after leave-board the room is what it was without the
    socket, and no other room changes.  leave-board itself checks nothing. *)
Theorem join_then_leave_board (d : Db) (sid b : string) (io : Io) (user : User) :
  sockets io !! sid = Some user →
  member_of_board d (user_id user) b →
  let joined := (join_board d sid b io).1 in
  let left := (leave_board sid b joined).1 in
  room_sockets joined (board_room b) = {[sid]} ∪ room_sockets io (board_room b)
  ∧ (join_board d sid b joined).1 = joined
  ∧ room_sockets left (board_room b) = room_sockets io (board_room b) ∖ {[sid]}
  ∧ ∀ room, room ≠ board_room b → room_sockets left room = room_sockets io room.
Proof.
  intros Hs Hmem. simpl.
  pose proof (join_board_spec d sid b io) as Hj. rewrite Hs in Hj.
  rewrite decide_True in Hj by done. rewrite Hj. simpl.
  assert (sockets (socket_join sid (board_room b) io) !! sid = Some user) as Hs' by done.
  split_and!.
  - rewrite room_sockets_join. by rewrite decide_True.
  - pose proof (join_board_spec d sid b (socket_join sid (board_room b) io)) as Hj'.
    rewrite Hs' in Hj'. rewrite decide_True in Hj' by done. rewrite Hj'. simpl.
    unfold socket_join. simpl. f_equal.
    rewrite insert_insert_eq. f_equal.
    unfold room_sockets at 1. simpl. rewrite lookup_insert_eq. simpl.
    by rewrite (assoc_L (∪)), (idemp_L (∪)).
  - unfold leave_board. rewrite Hs'. simpl.
    rewrite room_sockets_leave_eq, decide_True by done.
    rewrite room_sockets_join, decide_True by done.
    apply set_eq. intros x. rewrite !elem_of_difference, elem_of_union. tauto.
  - intros room Hne. unfold leave_board. rewrite Hs'. simpl.
    rewrite room_sockets_leave_eq, decide_False by done.
    by rewrite room_sockets_join, decide_False.
Qed.

Lemma presence_signals_relayed_witness :
  sockets (handle_all sample_db carol_joins io_init) !! "socket-mallory" = Some mallory_user
  ∧ ∃ s, typing_start "socket-mallory" "ctask0000001" board1
           (handle_all sample_db carol_joins io_init) = [s]
         ∧ signal_recipients s
           = room_sockets (handle_all sample_db carol_joins io_init) (board_room board1)
               ∖ {["socket-mallory"]}
         ∧ ("socket-mallory" ∉ signal_recipients s)
         ∧ ∀ sid', sid' ∈ signal_recipients s →
             ∃ user', sockets (handle_all sample_db carol_joins io_init) !! sid' = Some user'
                      ∧ member_of_board sample_db (user_id user') board1.
Proof.
  assert (sockets (handle_all sample_db carol_joins io_init) !! "socket-mallory"
          = Some mallory_user) as Hsock by reflexivity.
  split; [exact Hsock|].
  apply (presence_signals_relayed sample_db carol_joins _ "socket-mallory" "ctask0000001"
           board1 mallory_user eq_refl Hsock).
  by left.
Defined.

Lemma online_users_of_room_witness :
  get_online_users "socket-mallory" board1 (handle_all sample_db carol_joins io_init)
  = [{| signal_recipients := {["socket-mallory"]}; signal_event := "online-users";
        signal_data := SOnlineUsers board1
                         (onlineUsers (handle_all sample_db carol_joins io_init) board1) |}]
  ∧ (∀ u, u ∈ onlineUsers (handle_all sample_db carol_joins io_init) board1
          ↔ ∃ sid', sid' ∈ room_sockets (handle_all sample_db carol_joins io_init)
                              (board_room board1)
                    ∧ sockets (handle_all sample_db carol_joins io_init) !! sid' = Some u)
  ∧ length (onlineUsers (handle_all sample_db carol_joins io_init) board1)
    = size (room_sockets (handle_all sample_db carol_joins io_init) (board_room board1))
  ∧ ∀ u, u ∈ onlineUsers (handle_all sample_db carol_joins io_init) board1 →
         member_of_board sample_db (user_id u) board1.
Proof.
  exact (online_users_of_room sample_db carol_joins _ "socket-mallory" board1 mallory_user
           eq_refl eq_refl).
Defined.

Lemma join_then_leave_board_witness :
  let io := handle_all sample_db (take 2 carol_joins) io_init in
  let joined := (join_board sample_db "socket-carol" board1 io).1 in
  let left := (leave_board "socket-carol" board1 joined).1 in
  room_sockets joined (board_room board1)
  = {["socket-carol"]} ∪ room_sockets io (board_room board1)
  ∧ (join_board sample_db "socket-carol" board1 joined).1 = joined
  ∧ room_sockets left (board_room board1)
    = room_sockets io (board_room board1) ∖ {["socket-carol"]}
  ∧ ∀ room, room ≠ board_room board1 → room_sockets left room = room_sockets io room.
Proof.
  apply (join_then_leave_board sample_db "socket-carol" board1
           (handle_all sample_db (take 2 carol_joins) io_init) carol_user).
  - reflexivity.
  - exists VIEWER. reflexivity.
Defined.

(** ** Workspaces and their members *)

Lemma members_where_admin d ws u :
  length (members_where d ws u (Some [ADMIN])) ≠ 0%nat
  ↔ workspaceMembers d !! (ws, u) = Some ADMIN.
Proof.
  unfold members_where. destruct (workspaceMembers d !! (ws, u)) as [r|]; [|done].
  case_decide as Hin.
  - apply list_elem_of_singleton in Hin as ->. done.
  - split; [done|]. intros [= ->]. exfalso. apply Hin. by left.
Qed.

(** The store after each request of the workspace controller. *)

Lemma createWorkspace_db u body newId w :
  db (createWorkspace u body newId w).2 = db w
  ∨ (workspaceSchema_issues body = []
     ∧ workspaces (db w) !! newId = None
     ∧ workspaceMembers (db w) !! (newId, u) = None
     ∧ db (createWorkspace u body newId w).2
       = set_workspaceMembers
           (set_workspaces (db w)
              (<[newId := {| workspace_name := wbody_name body; createdBy := u |}]>
                 (workspaces (db w))))
           (<[(newId, u) := ADMIN]> (workspaceMembers (db w)))).
Proof.
  unfold createWorkspace. unfold bind, parse, workspaceSchema_parse, prisma, prisma_write, prisma_try, lift_write, modify, gets, throw, ret.
  destruct (workspaceSchema_issues body) eqn:Hi; [|by left].
  destruct (workspaces (db w) !! newId) eqn:Hw; [by left|].
  destruct (workspaceMembers (db w) !! (newId, u)) eqn:Hm; [by left|].
  by right.
Qed.

Lemma updateWorkspace_db u id body w :
  db (updateWorkspace u id body w).2 = db w
  ∨ ∃ workspace,
      workspaces (db w) !! id = Some workspace
      ∧ workspaceMembers (db w) !! (id, u) = Some ADMIN
      ∧ db (updateWorkspace u id body w).2
        = set_workspaces (db w)
            (<[id := {| workspace_name := wbody_name body;
                        createdBy := createdBy workspace |}]> (workspaces (db w))).
Proof.
  unfold updateWorkspace. unfold bind, parse, workspaceSchema_parse, prisma, prisma_write, prisma_try, lift_write, modify, gets, throw, ret.
  destruct (workspaceSchema_issues body) eqn:Hi; [|by left].
  destruct (workspaces (db w) !! id) as [workspace|] eqn:Hw; [|by left].
  case_decide as Hlen; [by left|]. apply members_where_admin in Hlen.
  right. exists workspace. split_and!; [done..|reflexivity].
Qed.

Lemma deleteWorkspace_db u id w :
  db (deleteWorkspace u id w).2 = db w
  ∨ ∃ workspace,
      workspaces (db w) !! id = Some workspace ∧ createdBy workspace = u
      ∧ db (deleteWorkspace u id w).2 = workspace_delete id (db w).
Proof.
  unfold deleteWorkspace. unfold bind, parse, prisma, prisma_write, prisma_try, lift_write, modify, gets, throw, ret.
  destruct (workspaces (db w) !! id) as [workspace|] eqn:Hw; [|by left].
  case_decide as Hc; [by left|]. right. exists workspace.
  by split_and!.
Qed.

Lemma inviteUser_db email_format users u id body w :
  db (inviteUser email_format users u id body w).2 = db w
  ∨ ∃ invitedUser,
      email_format (invite_email body) = true
      ∧ is_Some (workspaces (db w) !! id)
      ∧ workspaceMembers (db w) !! (id, u) = Some ADMIN
      ∧ users !! invite_email body = Some invitedUser
      ∧ workspaceMembers (db w) !! (id, invitedUser) = None
      ∧ db (inviteUser email_format users u id body w).2
        = set_workspaceMembers (db w)
            (<[(id, invitedUser) := default MEMBER (invite_role body)]>
               (workspaceMembers (db w))).
Proof.
  unfold inviteUser. unfold bind, parse, prisma, prisma_write, prisma_try, lift_write, modify, gets, throw, ret.
  destruct (email_format (invite_email body)) eqn:He; [|by left].
  destruct (workspaces (db w) !! id) as [workspace|] eqn:Hw; [|by left].
  case_decide as Hlen; [by left|]. apply members_where_admin in Hlen.
  destruct (users !! invite_email body) as [invitedUser|] eqn:Hu; [|by left].
  simpl.
  destruct (workspaceMembers (db w) !! (id, invitedUser)) eqn:Hm; [by left|].
  right. exists invitedUser. by split_and!.
Qed.

Lemma removeUser_db u id target w :
  db (removeUser u id target w).2 = db w
  ∨ ∃ workspace,
      workspaces (db w) !! id = Some workspace
      ∧ workspaceMembers (db w) !! (id, u) = Some ADMIN
      ∧ createdBy workspace ≠ target
      ∧ is_Some (workspaceMembers (db w) !! (id, target))
      ∧ db (removeUser u id target w).2
        = set_workspaceMembers (db w) (delete (id, target) (workspaceMembers (db w))).
Proof.
  unfold removeUser. unfold bind, parse, prisma, prisma_write, prisma_try, lift_write, modify, gets, throw, ret.
  destruct (workspaces (db w) !! id) as [workspace|] eqn:Hw; [|by left].
  case_decide as Hlen; [by left|]. apply members_where_admin in Hlen.
  case_decide as Hc; [by left|].
  simpl.
  destruct (workspaceMembers (db w) !! (id, target)) eqn:Hm; [|by left].
  right. exists workspace. by split_and!.
Qed.

Section Roles.
Context `{ZodFormats}.

Lemma updateUserRole_db u id body w :
  db (updateUserRole u id body w).2 = db w
  ∨ ∃ workspace,
      workspaces (db w) !! id = Some workspace
      ∧ workspaceMembers (db w) !! (id, u) = Some ADMIN
      ∧ (createdBy workspace = role_userId body → role_role body = ADMIN)
      ∧ is_Some (workspaceMembers (db w) !! (id, role_userId body))
      ∧ db (updateUserRole u id body w).2
        = set_workspaceMembers (db w)
            (<[(id, role_userId body) := role_role body]> (workspaceMembers (db w))).
Proof.
  unfold updateUserRole. unfold bind, parse, prisma, prisma_write, prisma_try, lift_write, modify, gets, throw, ret.
  destruct (cuid (role_userId body)) eqn:Hc; [|by left].
  destruct (workspaces (db w) !! id) as [workspace|] eqn:Hw; [|by left].
  case_decide as Hlen; [by left|]. apply members_where_admin in Hlen.
  case_decide as Hcr; [by left|].
  simpl.
  destruct (workspaceMembers (db w) !! (id, role_userId body)) eqn:Hm; [|by left].
  right. exists workspace. split_and!; try done.
  intros Heq. destruct (decide (role_role body = ADMIN)); [done|]. by destruct Hcr.
Qed.

(** X14.  No request of the workspace controller takes the ADMIN role from
    the creator of a workspace: if the creator of every workspace is an ADMIN
    member of it before createWorkspace, updateWorkspace, deleteWorkspace,
    inviteUser, removeUser or updateUserRole, the same holds after it,
    whoever sends the request and whether it succeeds or fails. *)
Theorem creator_stays_admin (u : string) (req : WorkspaceRequest) (w : World) :
  creator_is_admin (db w) →
  creator_is_admin (db (after_workspace_request u req w)).
Proof.
  intros Hinv. destruct req as [body newId|id body|id|ef users id body|id target|id body];
    simpl.
  - destruct (createWorkspace_db u body newId w) as [->|(_ & Hw & Hm & ->)]; [done|].
    intros id0 ws0. simpl. destruct (decide (id0 = newId)) as [->|Hne].
    + rewrite lookup_insert_eq. intros [= <-]. simpl. by rewrite lookup_insert_eq.
    + rewrite lookup_insert_ne by done. intros Hws0.
      rewrite lookup_insert_ne by congruence. by apply Hinv.
  - destruct (updateWorkspace_db u id body w) as [->|(ws & Hw & _ & ->)]; [done|].
    intros id0 ws0. simpl. destruct (decide (id0 = id)) as [->|Hne].
    + rewrite lookup_insert_eq. intros [= <-]. simpl. by apply Hinv.
    + rewrite lookup_insert_ne by done. by apply Hinv.
  - destruct (deleteWorkspace_db u id w) as [->|(ws & Hw & _ & ->)]; [done|].
    intros id0 ws0. simpl. intros Hws0.
    destruct (decide (id0 = id)) as [->|Hne]; [by rewrite lookup_delete_eq in Hws0|].
    rewrite lookup_delete_ne in Hws0 by done.
    apply map_lookup_filter_Some. split; [by apply Hinv | done].
  - destruct (inviteUser_db ef users u id body w)
      as [->|(inv & _ & _ & _ & _ & Hnone & ->)]; [done|].
    intros id0 ws0 Hws0. simpl in *. rewrite lookup_insert_ne; [by apply Hinv|].
    intros [= -> ->]. specialize (Hinv _ _ Hws0). congruence.
  - destruct (removeUser_db u id target w) as [->|(ws & Hw & _ & Hc & _ & ->)]; [done|].
    intros id0 ws0 Hws0. simpl in *. rewrite lookup_delete_ne; [by apply Hinv|].
    intros [= -> ->]. congruence.
  - destruct (updateUserRole_db u id body w) as [->|(ws & Hw & _ & Hc & _ & ->)]; [done|].
    intros id0 ws0 Hws0. simpl in *.
    destruct (decide ((id, role_userId body) = (id0, createdBy ws0))) as [[= -> Heq]|Hne].
    + rewrite Heq, lookup_insert_eq. f_equal. apply Hc. congruence.
    + rewrite lookup_insert_ne by done. by apply Hinv.
Qed.

End Roles.

Lemma creator_is_admin_sample : creator_is_admin sample_db.
Proof.
  intros id workspace Hw. unfold sample_db in Hw. simpl in Hw.
  apply lookup_singleton_Some in Hw as [<- <-]. reflexivity.
Qed.

Lemma creator_stays_admin_witness :
  creator_is_admin (db sample_world)
  ∧ creator_is_admin
      (db (after_workspace_request (H := zod) alice
             (WsRole "cworkspace01" {| role_userId := bob; role_role := ADMIN |})
             sample_world)).
Proof.
  split; [exact creator_is_admin_sample|].
  exact (creator_stays_admin (H := zod) alice
           (WsRole "cworkspace01" {| role_userId := bob; role_role := ADMIN |})
           sample_world creator_is_admin_sample).
Defined.

Ltac run_handler :=
  unfold bind, parse, prisma, prisma_write, prisma_try, lift_write, modify, gets, throw, ret.

Lemma removeUser_run u id target w :
  match removeUser u id target w with
  | (Ok resp, w') =>
      ∃ workspace,
        workspaces (db w) !! id = Some workspace
        ∧ workspaceMembers (db w) !! (id, u) = Some ADMIN
        ∧ createdBy workspace ≠ target
        ∧ is_Some (workspaceMembers (db w) !! (id, target))
        ∧ w' = {| db := set_workspaceMembers (db w)
                          (delete (id, target) (workspaceMembers (db w)));
                  outbox := outbox w |}
        ∧ resp = {| status := 200; json := JMessage "User removed successfully" |}
  | (Throw _, w') => w' = w
  end.
Proof.
  unfold removeUser. run_handler.
  destruct (workspaces (db w) !! id) as [workspace|] eqn:Hw; [|done].
  case_decide as Hlen; [done|]. apply members_where_admin in Hlen.
  case_decide as Hc; [done|]. simpl.
  destruct (workspaceMembers (db w) !! (id, target)) eqn:Hm; [|done].
  exists workspace. by split_and!.
Qed.

Lemma board_workspaceId_set_workspaceMembers d ms b :
  board_workspaceId (set_workspaceMembers d ms) b = board_workspaceId d b.
Proof. done. Qed.

Lemma role_on_board_set_workspaceMembers d ms v b :
  role_on_board (set_workspaceMembers d ms) v b
  = ws ← board_workspaceId d b; ms !! (ws, v).
Proof. done. Qed.

Lemma getTasks_no_row u b w ws :
  board_workspaceId (db w) b = Some ws →
  workspaceMembers (db w) !! (ws, u) = None →
  getTasks u b w = (Throw (createError "Access denied" 403), w).
Proof.
  intros Hws Hm. apply board_workspaceId_inv in Hws as (bd & Hb & Hws).
  unfold getTasks. unfold bind at 1, board_findUnique. rewrite Hb, Hws. simpl.
  unfold members_where. by rewrite Hm.
Qed.

(** X15.  When removeUser succeeds, the caller is an ADMIN of the workspace
    and the target is not its creator; the target then has no role on any
    board of the workspace, and getTasks of such a board answers the target
    with 403.  Every other role, on every board, is as before, and no event
    is sent. *)
Theorem removeUser_revokes_access (u id target : string) (w w' : World) (resp : Response) :
  removeUser u id target w = (Ok resp, w') →
  status resp = 200
  ∧ outbox w' = outbox w
  ∧ tasks (db w') = tasks (db w)
  ∧ workspaceMembers (db w) !! (id, u) = Some ADMIN
  ∧ (∃ workspace, workspaces (db w) !! id = Some workspace ∧ createdBy workspace ≠ target)
  ∧ (∀ b, board_workspaceId (db w) b = Some id →
       role_on_board (db w') target b = None
       ∧ getTasks target b w' = (Throw (createError "Access denied" 403), w'))
  ∧ (∀ v b, v ≠ target ∨ board_workspaceId (db w) b ≠ Some id →
       role_on_board (db w') v b = role_on_board (db w) v b).
Proof.
  intros Hrun. pose proof (removeUser_run u id target w) as Hr. rewrite Hrun in Hr.
  destruct Hr as (workspace & Hw & Hadmin & Hc & Hm & -> & ->). simpl.
  split_and!; try done.
  - by exists workspace.
  - intros b Hb. split.
    + rewrite role_on_board_set_workspaceMembers, Hb. simpl. apply lookup_delete_eq.
    + apply getTasks_no_row with id; [done|]. simpl. apply lookup_delete_eq.
  - intros v b Hne. rewrite role_on_board_set_workspaceMembers. unfold role_on_board.
    destruct (board_workspaceId (db w) b) as [ws|]; [|done]. simpl.
    apply lookup_delete_ne. intros [= -> ->]. by destruct Hne.
Qed.

Section RoleChanges.
Context `{ZodFormats}.

Lemma updateUserRole_run u id body w :
  match updateUserRole u id body w with
  | (Ok resp, w') =>
      ∃ workspace,
        workspaces (db w) !! id = Some workspace
        ∧ workspaceMembers (db w) !! (id, u) = Some ADMIN
        ∧ (createdBy workspace = role_userId body → role_role body = ADMIN)
        ∧ is_Some (workspaceMembers (db w) !! (id, role_userId body))
        ∧ w' = {| db := set_workspaceMembers (db w)
                          (<[(id, role_userId body) := role_role body]>
                             (workspaceMembers (db w)));
                  outbox := outbox w |}
        ∧ ws_status resp = 200
  | (Throw _, w') => w' = w
  end.
Proof.
  unfold updateUserRole. run_handler.
  destruct (cuid (role_userId body)) eqn:Hc; [|done].
  destruct (workspaces (db w) !! id) as [workspace|] eqn:Hw; [|done].
  case_decide as Hlen; [done|]. apply members_where_admin in Hlen.
  case_decide as Hcr; [done|]. simpl.
  destruct (workspaceMembers (db w) !! (id, role_userId body)) eqn:Hm; [|done].
  exists workspace. split_and!; try done.
  intros Heq. destruct (decide (role_role body = ADMIN)); [done|]. by destruct Hcr.
Qed.

(** X16.  When updateUserRole succeeds, the target, who was a member, holds
    the new role on every board of the workspace, and every other role is as
    before; no task is touched and no event is sent.  A target whose new role
    is VIEWER is from then on refused by updateBoard and deleteBoard with 403. *)
Theorem updateUserRole_takes_effect (u id : string) (body : UpdateUserRoleBody)
    (w w' : World) (resp : WorkspaceResponse) :
  updateUserRole u id body w = (Ok resp, w') →
  ws_status resp = 200
  ∧ outbox w' = outbox w
  ∧ tasks (db w') = tasks (db w)
  ∧ is_Some (workspaceMembers (db w) !! (id, role_userId body))
  ∧ (∀ b, board_workspaceId (db w) b = Some id →
       role_on_board (db w') (role_userId body) b = Some (role_role body)
       ∧ (role_role body = VIEWER →
            (∀ body', updateBoard (role_userId body) b body' w'
               = (Throw (createError "Access denied - insufficient permissions" 403), w'))
            ∧ deleteBoard (role_userId body) b w'
              = (Throw (createError "Access denied - insufficient permissions" 403), w')))
  ∧ (∀ v b, v ≠ role_userId body ∨ board_workspaceId (db w) b ≠ Some id →
       role_on_board (db w') v b = role_on_board (db w) v b).
Proof.
  intros Hrun. pose proof (updateUserRole_run u id body w) as Hr. rewrite Hrun in Hr.
  destruct Hr as (workspace & Hw & Hadmin & Hc & Hm & -> & Hst). simpl.
  split_and!; try done.
  - intros b Hb. split.
    + rewrite role_on_board_set_workspaceMembers, Hb. simpl. apply lookup_insert_eq.
    + intros Hv. apply board_workspaceId_inv in Hb as (bd & Hb & Hws).
      apply board_gate_forbidden with bd id; [done..|]. left. simpl.
      rewrite <- Hv. apply lookup_insert_eq.
  - intros v b Hne. rewrite role_on_board_set_workspaceMembers. unfold role_on_board.
    destruct (board_workspaceId (db w) b) as [ws|]; [|done]. simpl.
    apply lookup_insert_ne. intros [= <- <-]. by destruct Hne.
Qed.

End RoleChanges.

Lemma inviteUser_run email_format users u id body w :
  match inviteUser email_format users u id body w with
  | (Ok resp, w') =>
      ∃ invitedUser,
        email_format (invite_email body) = true
        ∧ is_Some (workspaces (db w) !! id)
        ∧ workspaceMembers (db w) !! (id, u) = Some ADMIN
        ∧ users !! invite_email body = Some invitedUser
        ∧ workspaceMembers (db w) !! (id, invitedUser) = None
        ∧ w' = {| db := set_workspaceMembers (db w)
                          (<[(id, invitedUser) := default MEMBER (invite_role body)]>
                             (workspaceMembers (db w)));
                  outbox := outbox w |}
        ∧ resp = {| ws_status := 201;
                    ws_json := JMember "User invited successfully" id invitedUser
                                 (default MEMBER (invite_role body)) |}
  | (Throw _, w') => w' = w
  end.
Proof.
  unfold inviteUser. run_handler.
  destruct (email_format (invite_email body)) eqn:He; [|done].
  destruct (workspaces (db w) !! id) as [workspace|] eqn:Hw; [|done].
  case_decide as Hlen; [done|]. apply members_where_admin in Hlen.
  destruct (users !! invite_email body) as [invitedUser|] eqn:Hu; [|done]. simpl.
  destruct (workspaceMembers (db w) !! (id, invitedUser)) eqn:Hm; [done|].
  exists invitedUser. by split_and!.
Qed.

(** X17.  When inviteUser succeeds, the address belongs to a registered user
    who was not a member; that user now holds the requested role, MEMBER when
    the body names none, on every board of the workspace, and every other role
    is as before.  Inviting the same address again, whatever the role asked
    for, is answered with 409 and changes nothing. *)
Theorem inviteUser_adds_one_member (email_format : string → bool) (users : gmap string string)
    (u id : string) (body : InviteUserBody) (w w' : World) (resp : WorkspaceResponse) :
  inviteUser email_format users u id body w = (Ok resp, w') →
  ∃ invitedUser,
    users !! invite_email body = Some invitedUser
    ∧ workspaceMembers (db w) !! (id, invitedUser) = None
    ∧ resp = {| ws_status := 201;
                ws_json := JMember "User invited successfully" id invitedUser
                             (default MEMBER (invite_role body)) |}
    ∧ outbox w' = outbox w
    ∧ tasks (db w') = tasks (db w)
    ∧ (∀ b, board_workspaceId (db w) b = Some id →
         role_on_board (db w') invitedUser b = Some (default MEMBER (invite_role body)))
    ∧ (∀ v b, v ≠ invitedUser ∨ board_workspaceId (db w) b ≠ Some id →
         role_on_board (db w') v b = role_on_board (db w) v b)
    ∧ (∀ role, inviteUser email_format users u id
                 {| invite_email := invite_email body; invite_role := role |} w'
               = (Throw (createError "User is already a member of this workspace" 409), w')).
Proof.
  intros Hrun. pose proof (inviteUser_run email_format users u id body w) as Hr.
  rewrite Hrun in Hr.
  destruct Hr as (invitedUser & He & [workspace Hw] & Hadmin & Hu & Hm & -> & ->).
  exists invitedUser. simpl. split_and!; try done.
  - intros b Hb. rewrite role_on_board_set_workspaceMembers, Hb. simpl.
    apply lookup_insert_eq.
  - intros v b Hne. rewrite role_on_board_set_workspaceMembers. unfold role_on_board.
    destruct (board_workspaceId (db w) b) as [ws|]; [|done]. simpl.
    apply lookup_insert_ne. intros [= -> ->]. by destruct Hne.
  - intros role.
    set (w' := {| db := set_workspaceMembers (db w)
                          (<[(id, invitedUser) := default MEMBER (invite_role body)]>
                             (workspaceMembers (db w)));
                  outbox := outbox w |}).
    assert (workspaces (db w') !! id = Some workspace) as Hw' by done.
    assert (members_where (db w') id u (Some [ADMIN]) = [ADMIN]) as Hadmin'.
    { unfold members_where. simpl. rewrite lookup_insert_ne by congruence.
      rewrite Hadmin. rewrite decide_True; [done|]. by left. }
    assert (workspaceMembers (db w') !! (id, invitedUser)
            = Some (default MEMBER (invite_role body))) as Hm'.
    { simpl. apply lookup_insert_eq. }
    clearbody w'. unfold inviteUser. run_handler. simpl.
    rewrite He, Hw', Hadmin'. simpl. by rewrite Hu, Hm'.
Qed.

(** ** Deleting a workspace *)

Lemma filter_lookup_keep `{Countable K} {A} (P : K * A → Prop) `{∀ x, Decision (P x)}
    (m : gmap K A) k :
  (∀ v, m !! k = Some v → P (k, v)) → filter P m !! k = m !! k.
Proof.
  intros HP. destruct (m !! k) as [v|] eqn:Hk.
  - apply map_lookup_filter_Some. split; [done|]. by apply HP.
  - apply map_lookup_filter_None. by left.
Qed.

Lemma filter_lookup_drop `{Countable K} {A} (P : K * A → Prop) `{∀ x, Decision (P x)}
    (m : gmap K A) k :
  (∀ v, m !! k = Some v → ¬ P (k, v)) → filter P m !! k = None.
Proof.
  intros HP. apply map_lookup_filter_None. destruct (m !! k) as [v|] eqn:Hk.
  - right. intros v' [= <-]. by apply HP.
  - by left.
Qed.

Lemma filter_filter_nil {A} (P Q : A → Prop) `{∀ x, Decision (P x)} `{∀ x, Decision (Q x)}
    (l : list A) :
  (∀ x, Q x → ¬ P x) → filter Q (filter P l) = [].
Proof.
  intros HPQ. induction l as [|x l IH]; [done|].
  rewrite filter_cons. destruct (decide (P x)) as [HP|HP]; [|done].
  rewrite filter_cons. destruct (decide (Q x)) as [HQ|HQ]; [|done].
  by destruct (HPQ x HQ).
Qed.

Lemma filter_filter_keep {A} (P Q : A → Prop) `{∀ x, Decision (P x)} `{∀ x, Decision (Q x)}
    (l : list A) :
  (∀ x, Q x → P x) → filter Q (filter P l) = filter Q l.
Proof.
  intros HPQ. induction l as [|x l IH]; [done|].
  rewrite (filter_cons P). destruct (decide (P x)) as [HP|HP].
  - rewrite !filter_cons. destruct (decide (Q x)); by rewrite IH.
  - rewrite IH, filter_cons. destruct (decide (Q x)) as [HQ|]; [|done].
    by destruct (HP (HPQ x HQ)).
Qed.

Lemma deleteWorkspace_run u id w :
  match deleteWorkspace u id w with
  | (Ok resp, w') =>
      ∃ workspace,
        workspaces (db w) !! id = Some workspace ∧ createdBy workspace = u
        ∧ w' = {| db := workspace_delete id (db w); outbox := outbox w |}
        ∧ resp = {| ws_status := 200; ws_json := JDone "Workspace deleted successfully" |}
  | (Throw e, w') =>
      w' = w
      ∧ (workspaces (db w) !! id = None → NotFound e)
      ∧ (∀ workspace, workspaces (db w) !! id = Some workspace →
           createdBy workspace ≠ u ∧ Forbidden e)
  end.
Proof.
  unfold deleteWorkspace. run_handler.
  destruct (workspaces (db w) !! id) as [workspace|] eqn:Hw; [|by split_and!].
  case_decide as Hc.
  - split; [done|]. split; [done|]. by intros ? [= <-].
  - exists workspace. by split_and!.
Qed.

Lemma board_workspaceId_project d b ws :
  board_workspaceId d b = Some ws →
  ∃ bd p, boards d !! b = Some bd ∧ projects d !! projectId bd = Some p
          ∧ workspaceId p = ws ∧ is_Some (workspaces d !! ws).
Proof.
  intros Hb. apply board_workspaceId_inv in Hb as (bd & Hb & Hws).
  unfold board_workspace in Hws.
  destruct (projects d !! projectId bd) as [p|] eqn:Hp; [|done]. simpl in Hws.
  destruct (workspaces d !! workspaceId p) as [x|] eqn:Hx; [|done]. simpl in Hws.
  injection Hws as <-. exists bd, p. by split_and!.
Qed.

(** X18.  deleteWorkspace is open to the creator of the workspace alone,
    whatever the roles of the others: for anyone else it answers 403 and for a
    missing workspace 404, changing nothing.  When it succeeds, the workspace,
    its membership rows, its projects, their boards and the tasks of these
    boards are gone, and a board of another workspace keeps its workspace, its
    roles and its tasks. *)
Theorem deleteWorkspace_cascade (u id : string) (w : World) :
  match deleteWorkspace u id w with
  | (Ok resp, w') =>
      (∃ workspace, workspaces (db w) !! id = Some workspace ∧ createdBy workspace = u)
      ∧ ws_status resp = 200
      ∧ outbox w' = outbox w
      ∧ workspaces (db w') !! id = None
      ∧ (∀ v, workspaceMembers (db w') !! (id, v) = None)
      ∧ (∀ p project, projects (db w') !! p = Some project → workspaceId project ≠ id)
      ∧ (∀ b, board_workspaceId (db w) b = Some id →
           boards (db w') !! b = None
           ∧ filter (fun t => boardId t = b) (tasks (db w')) = [])
      ∧ (∀ b ws, board_workspaceId (db w) b = Some ws → ws ≠ id →
           board_workspaceId (db w') b = Some ws
           ∧ (∀ v, role_on_board (db w') v b = role_on_board (db w) v b)
           ∧ filter (fun t => boardId t = b) (tasks (db w'))
             = filter (fun t => boardId t = b) (tasks (db w)))
  | (Throw e, w') =>
      w' = w
      ∧ (workspaces (db w) !! id = None → NotFound e)
      ∧ (∀ workspace, workspaces (db w) !! id = Some workspace →
           createdBy workspace ≠ u ∧ Forbidden e)
  end.
Proof.
  pose proof (deleteWorkspace_run u id w) as Hr.
  destruct (deleteWorkspace u id w) as [[resp|e] w']; [|done].
  destruct Hr as (workspace & Hw & Hc & -> & ->). simpl.
  split; [by exists workspace|]. split; [done|]. split; [done|].
  split; [apply lookup_delete_eq|].
  split; [intros v; apply filter_lookup_drop; intros r _ Hne; by apply Hne|].
  split; [intros p project Hp; by apply map_lookup_filter_Some in Hp as [_ Hp]|].
  split.
  - intros b Hb. apply board_workspaceId_project in Hb as (bd & p & Hb & Hp & Hws & _).
    assert (filter (λ kv : string * Project, workspaceId kv.2 = id) (projects (db w))
              !! projectId bd = Some p) as Hgone.
    { by apply map_lookup_filter_Some. }
    split.
    + apply filter_lookup_drop. intros bd' Hbd'. simpl. rewrite Hb in Hbd'.
      injection Hbd' as <-. by rewrite Hgone.
    + apply filter_filter_nil. intros t -> Hnone.
      apply map_lookup_filter_None in Hnone as [Hnone|Hnone]; [congruence|].
      apply (Hnone bd Hb). simpl. by rewrite Hgone.
  - intros b ws Hb Hne.
    apply board_workspaceId_project in Hb as (bd & p & Hb & Hp & Hws & Hx).
    assert (filter (λ kv : string * Project, workspaceId kv.2 = id) (projects (db w))
              !! projectId bd = None) as Hkept.
    { apply filter_lookup_drop. intros p' Hp'. simpl. rewrite Hp in Hp'.
      injection Hp' as <-. congruence. }
    assert (board_workspaceId (workspace_delete id (db w)) b = Some ws) as Hb'.
    { unfold board_workspaceId, workspace_delete. simpl.
      rewrite filter_lookup_keep.
      2:{ intros bd' Hbd'. simpl. rewrite Hb in Hbd'. by injection Hbd' as <-. }
      rewrite Hb. simpl. unfold board_workspace. simpl.
      rewrite filter_lookup_keep.
      2:{ intros p' Hp'. simpl. rewrite Hp in Hp'. injection Hp' as <-. congruence. }
      rewrite Hp. simpl. rewrite Hws, lookup_delete_ne by done.
      destruct Hx as [x ->]. done. }
    split; [done|]. split.
    + intros v. unfold role_on_board. rewrite Hb'.
      assert (board_workspaceId (db w) b = Some ws) as ->.
      { unfold board_workspaceId. rewrite Hb. simpl. unfold board_workspace.
        rewrite Hp. simpl. rewrite Hws. by destruct Hx as [x ->]. }
      simpl. apply filter_lookup_keep. intros r _. simpl. congruence.
    + apply filter_filter_keep. intros t ->.
      apply map_lookup_filter_None. right. intros bd' Hbd'. simpl.
      rewrite Hb in Hbd'. injection Hbd' as <-. rewrite Hkept. by intros [? ?].
Qed.

Lemma removeUser_revokes_access_witness :
  ∃ resp w',
    removeUser alice "cworkspace01" carol two_in_todo = (Ok resp, w')
    ∧ role_on_board (db two_in_todo) carol board1 = Some VIEWER
    ∧ role_on_board (db w') carol board1 = None
    ∧ getTasks carol board1 w' = (Throw (createError "Access denied" 403), w')
    ∧ role_on_board (db w') bob board1 = Some MEMBER.
Proof.
  destruct (removeUser alice "cworkspace01" carol two_in_todo) as [[resp|e] w'] eqn:Hrun;
    [|by vm_compute in Hrun].
  destruct (removeUser_revokes_access alice "cworkspace01" carol two_in_todo w' resp Hrun)
    as (_ & _ & _ & _ & _ & Hgone & Hkept).
  exists resp, w'. split; [done|]. split; [reflexivity|].
  destruct (Hgone board1 eq_refl) as [Hrole Hget]. split; [exact Hrole|]. split; [exact Hget|].
  rewrite (Hkept bob board1); [reflexivity|]. left. discriminate.
Defined.

Lemma updateUserRole_takes_effect_witness :
  ∃ resp w',
    updateUserRole (H := zod) alice "cworkspace01"
      {| role_userId := bob; role_role := VIEWER |} two_in_todo = (Ok resp, w')
    ∧ role_on_board (db w') bob board1 = Some VIEWER
    ∧ deleteBoard bob board1 w'
      = (Throw (createError "Access denied - insufficient permissions" 403), w')
    ∧ role_on_board (db w') carol board1 = Some VIEWER.
Proof.
  destruct (updateUserRole (H := zod) alice "cworkspace01"
              {| role_userId := bob; role_role := VIEWER |} two_in_todo)
    as [[resp|e] w'] eqn:Hrun; [|by vm_compute in Hrun].
  destruct (updateUserRole_takes_effect (H := zod) alice "cworkspace01"
              {| role_userId := bob; role_role := VIEWER |} two_in_todo w' resp Hrun)
    as (_ & _ & _ & _ & Hnew & Hkept).
  exists resp, w'. split; [done|].
  destruct (Hnew board1 eq_refl) as [Hrole Hgate]. split; [exact Hrole|].
  split; [exact (proj2 (Hgate eq_refl))|].
  rewrite (Hkept carol board1); [reflexivity|]. left. discriminate.
Defined.

Lemma inviteUser_adds_one_member_witness :
  ∃ resp w',
    inviteUser (fun _ => true) sample_users alice "cworkspace01"
      {| invite_email := "dave@example.org"; invite_role := None |} two_in_todo
    = (Ok resp, w')
    ∧ role_on_board (db two_in_todo) dave board1 = None
    ∧ role_on_board (db w') dave board1 = Some MEMBER
    ∧ inviteUser (fun _ => true) sample_users alice "cworkspace01"
        {| invite_email := "dave@example.org"; invite_role := Some ADMIN |} w'
      = (Throw (createError "User is already a member of this workspace" 409), w').
Proof.
  destruct (inviteUser (fun _ => true) sample_users alice "cworkspace01"
              {| invite_email := "dave@example.org"; invite_role := None |} two_in_todo)
    as [[resp|e] w'] eqn:Hrun; [|by vm_compute in Hrun].
  destruct (inviteUser_adds_one_member (fun _ => true) sample_users alice "cworkspace01"
              {| invite_email := "dave@example.org"; invite_role := None |}
              two_in_todo w' resp Hrun)
    as (invited & Hu & _ & _ & _ & _ & Hnew & _ & Hagain).
  assert (invited = dave) as ->.
  { change (Some dave = Some invited) in Hu. congruence. }
  exists resp, w'. split; [done|]. split; [reflexivity|].
  split; [exact (Hnew board1 eq_refl)|]. exact (Hagain (Some ADMIN)).
Defined.

(** ** Comments *)

Lemma comment_findUnique_fmap (f : Comment → Comment) d id :
  (∀ c, comment_id (f c) = comment_id c) →
  comment_findUnique (set_comments d (f <$> comments d)) id = f <$> comment_findUnique d id.
Proof.
  intros Hf. unfold comment_findUnique. simpl. induction (comments d) as [|c cs IH]; [done|].
  simpl. rewrite Hf. by destruct (bool_decide (comment_id c = id)).
Qed.

Lemma comment_findUnique_filter d id id' :
  comment_findUnique (set_comments d (filter (fun c => comment_id c ≠ id) (comments d))) id'
  = if decide (id' = id) then None else comment_findUnique d id'.
Proof.
  unfold comment_findUnique. simpl. induction (comments d) as [|c cs IH].
  - by destruct (decide (id' = id)).
  - rewrite filter_cons. destruct (decide (comment_id c ≠ id)) as [Hne|Heq]; simpl.
    + rewrite IH. destruct (decide (id' = id)) as [->|]; [|done].
      by rewrite bool_decide_eq_false_2.
    + rewrite IH. apply dec_stable in Heq.
      destruct (decide (id' = id)) as [->|Hne]; [done|].
      rewrite bool_decide_eq_false_2; [done | congruence].
Qed.

Section Comments.
Context `{ZodFormats}.

(** X19.  Any member of the workspace of a task, a VIEWER included, can
    comment on it: with a body that passes the schema, addComment appends the
    comment, sends one commentAdded event to the room of the board and answers
    201; getComments of that task then answers every member with the earlier
    comments of the task followed by the new one. *)
Theorem addComment_then_getComments (u : string) (body : CommentBody) (newId : string)
    (w : World) (task : Task) (r : Role) :
  commentSchema_issues body = [] →
  task_findUnique (db w) (cbody_taskId body) = Some task →
  role_on_board (db w) u (boardId task) = Some r →
  comment_findUnique (db w) newId = None →
  ∃ comment w',
    comment = {| comment_id := newId; comment_content := cbody_content body;
                 comment_taskId := cbody_taskId body; comment_userId := u |}
    ∧ w' = {| db := set_comments (db w) (comments (db w) ++ [comment]);
              outbox := outbox w ++ [{| emit_room := board_room (boardId task);
                                        emit_event := "commentAdded";
                                        emit_payload := PComment comment |}] |}
    ∧ addComment u body newId w
      = (Ok {| c_status := 201; c_json := JComment "Comment added successfully" comment |}, w')
    ∧ ∀ v, is_Some (role_on_board (db w) v (boardId task)) →
        getComments v (cbody_taskId body) w'
        = (Ok {| c_status := 200;
                 c_json := JComments (comment_findMany (db w) (cbody_taskId body)
                                        ++ [comment]) |},
           w').
Proof.
  intros Hi Hf Hr Hnew.
  apply role_on_board_inv in Hr as (bd & ws & Hb & Hws & Hm).
  eexists _, _. split; [done|]. split; [done|]. split.
  - unfold addComment. unfold bind at 1, parse, commentSchema_parse. rewrite Hi.
    unfold bind at 1.
    rewrite (task_findUnique_include_member _ u any_member w task bd ws) by done. simpl.
    unfold members_where, any_member. rewrite Hm. simpl.
    unfold bind, prisma_try, lift_write, comment_create. simpl. by rewrite Hnew.
  - intros v [r' Hr']. apply role_on_board_inv in Hr' as (bd' & ws' & Hb' & Hws' & Hm').
    assert (bd' = bd) as -> by congruence. assert (ws' = ws) as -> by congruence.
    unfold getComments. unfold bind at 1.
    rewrite (task_findUnique_include_member _ v any_member _ task bd ws) by done. simpl.
    unfold members_where, any_member. simpl. rewrite Hm'. simpl.
    unfold bind, prisma, gets, ret, comment_findMany. simpl.
    rewrite filter_app, filter_cons, decide_True by done. by rewrite filter_nil.
Qed.

End Comments.

Lemma comment_findUnique_include_found id w c task :
  comment_findUnique (db w) id = Some c →
  task_findUnique (db w) (comment_taskId c) = Some task →
  comment_findUnique_include id w = (Ok (Some (c, task)), w).
Proof. intros Hc Ht. unfold comment_findUnique_include. by rewrite Hc, Ht. Qed.

Lemma comment_findUnique_id d id c : comment_findUnique d id = Some c → comment_id c = id.
Proof.
  unfold comment_findUnique. intros Hf. apply find_some in Hf as [_ Heq].
  by apply bool_decide_eq_true in Heq.
Qed.

(** X20.  A comment can be edited and deleted by its author alone: for any
    other user, an ADMIN of the workspace included, updateComment and
    deleteComment answer 403 and change nothing.  For the author,
    updateComment asks for no membership and checks no schema: whatever the
    new text, the empty string included, it is stored as it is, one
    commentUpdated event goes to the room of the board and the answer is 200. *)
Theorem comment_author_only (id : string) (w : World) (c : Comment) (task : Task) :
  comment_findUnique (db w) id = Some c →
  task_findUnique (db w) (comment_taskId c) = Some task →
  (∀ u, u ≠ comment_userId c →
     (∀ content, updateComment u id content w
        = (Throw (createError "Access denied - can only edit your own comments" 403), w))
     ∧ deleteComment u id w
       = (Throw (createError "Access denied - can only delete your own comments" 403), w))
  ∧ (∀ text, ∃ updated w',
       updated = {| comment_id := id; comment_content := text;
                    comment_taskId := comment_taskId c;
                    comment_userId := comment_userId c |}
       ∧ updateComment (comment_userId c) id (Some text) w
         = (Ok {| c_status := 200;
                  c_json := JComment "Comment updated successfully" updated |}, w')
       ∧ comment_findUnique (db w') id = Some updated
       ∧ (∀ id', id' ≠ id → comment_findUnique (db w') id' = comment_findUnique (db w) id')
       ∧ db w' = set_comments (db w) (comments (db w'))
       ∧ outbox w'
         = (outbox w ++ [{| emit_room := board_room (boardId task);
                            emit_event := "commentUpdated";
                            emit_payload := PComment updated |}])%list).
Proof.
  intros Hc Ht. pose proof (comment_findUnique_id _ _ _ Hc) as Hid. split.
  - intros u Hne. split; [intros content; unfold updateComment | unfold deleteComment];
      unfold bind at 1; rewrite (comment_findUnique_include_found id w c task) by done;
      simpl; by rewrite decide_True by congruence.
  - intros text.
    set (f := fun c' : Comment =>
                if decide (comment_id c' = id)
                then {| comment_id := comment_id c'; comment_content := text;
                        comment_taskId := comment_taskId c';
                        comment_userId := comment_userId c' |}
                else c').
    assert (∀ c', comment_id (f c') = comment_id c') as Hf.
    { intros c'. unfold f. by case_decide. }
    assert (∀ id', comment_findUnique (comment_update id (Some text) (db w)) id'
                   = f <$> comment_findUnique (db w) id') as Hfind.
    { intros id'. unfold comment_update. simpl. fold f.
      by rewrite comment_findUnique_fmap. }
    assert (f c = {| comment_id := id; comment_content := text;
                     comment_taskId := comment_taskId c;
                     comment_userId := comment_userId c |}) as Hfc.
    { unfold f. rewrite decide_True by done. by rewrite Hid. }
    assert (∀ c', comment_id c' ≠ id → f c' = c') as Hother.
    { intros c' Hne. unfold f. by rewrite decide_False. }
    clearbody f.
    exists (f c),
      {| db := comment_update id (Some text) (db w);
         outbox := outbox w ++ [{| emit_room := board_room (boardId task);
                                   emit_event := "commentUpdated";
                                   emit_payload := PComment (f c) |}] |}.
    split; [done|]. split; [|split; [|split; [|split]]].
    + unfold updateComment. unfold bind at 1.
      rewrite (comment_findUnique_include_found id w c task) by done. simpl.
      rewrite decide_False by (intros Hne; by apply Hne).
      unfold bind, prisma_write, prisma, modify, gets, io_to_emit, ret. simpl.
      rewrite Hfind, Hc. simpl. rewrite Hfc. reflexivity.
    + simpl. by rewrite Hfind, Hc.
    + intros id' Hne. simpl. rewrite Hfind.
      destruct (comment_findUnique (db w) id') as [c'|] eqn:Hc'; [|done]. simpl.
      apply comment_findUnique_id in Hc'. rewrite Hother by congruence. done.
    + done.
    + done.
Qed.

(** X21.  deleteComment by the author, member or not, removes the rows with
    that id and no other, sends one commentDeleted event to the room of the
    board and answers 200; after it, updateComment and deleteComment of that
    id answer everyone with 404. *)
Theorem deleteComment_then_not_found (id : string) (w : World) (c : Comment)
    (task : Task) :
  comment_findUnique (db w) id = Some c →
  task_findUnique (db w) (comment_taskId c) = Some task →
  ∃ w',
    deleteComment (comment_userId c) id w
    = (Ok {| c_status := 200; c_json := JCommentDone "Comment deleted successfully" |}, w')
    ∧ db w' = set_comments (db w) (comments (db w'))
    ∧ comments (db w') = filter (fun c' => comment_id c' ≠ id) (comments (db w))
    ∧ outbox w'
      = (outbox w ++ [{| emit_room := board_room (boardId task);
                         emit_event := "commentDeleted";
                         emit_payload := PCommentId id |}])%list
    ∧ (∀ id', id' ≠ id → comment_findUnique (db w') id' = comment_findUnique (db w) id')
    ∧ (∀ u, deleteComment u id w' = (Throw (createError "Comment not found" 404), w'))
    ∧ (∀ u content,
         updateComment u id content w' = (Throw (createError "Comment not found" 404), w')).
Proof.
  intros Hc Ht.
  eexists. split; [|split; [|split; [|split; [|split; [|split]]]]].
  - unfold deleteComment. unfold bind at 1.
    rewrite (comment_findUnique_include_found id w c task) by done. simpl.
    rewrite decide_False by (intros Hne; by apply Hne). reflexivity.
  - done.
  - done.
  - done.
  - intros id' Hne. simpl. unfold comment_delete.
    rewrite comment_findUnique_filter. by rewrite decide_False.
  - intros u. unfold deleteComment. unfold bind at 1, comment_findUnique_include.
    simpl. unfold comment_delete. rewrite comment_findUnique_filter. by rewrite decide_True.
  - intros u content. unfold updateComment. unfold bind at 1, comment_findUnique_include.
    simpl. unfold comment_delete. rewrite comment_findUnique_filter. by rewrite decide_True.
Qed.

Lemma addComment_then_getComments_witness :
  ∃ comment w',
    comment = {| comment_id := "ccomment0002"; comment_content := "Thanks";
                 comment_taskId := "ctask0000001"; comment_userId := carol |}
    ∧ w' = {| db := set_comments (db sample_comments)
                      (comments (db sample_comments) ++ [comment]);
              outbox := outbox sample_comments
                        ++ [{| emit_room := board_room board1;
                               emit_event := "commentAdded";
                               emit_payload := PComment comment |}] |}
    ∧ addComment (H := zod) carol
        {| cbody_content := "Thanks"; cbody_taskId := "ctask0000001" |}
        "ccomment0002" sample_comments
      = (Ok {| c_status := 201; c_json := JComment "Comment added successfully" comment |}, w')
    ∧ ∀ v, is_Some (role_on_board (db sample_comments) v board1) →
        getComments v "ctask0000001" w'
        = (Ok {| c_status := 200;
                 c_json := JComments (comment_findMany (db sample_comments) "ctask0000001"
                                        ++ [comment]) |}, w').
Proof.
  exact (addComment_then_getComments (H := zod) carol
           {| cbody_content := "Thanks"; cbody_taskId := "ctask0000001" |}
           "ccomment0002" sample_comments (sample_task "ctask0000001" "todo" 0) VIEWER
           eq_refl eq_refl eq_refl eq_refl).
Defined.

Lemma comment_author_only_witness :
  (∀ content, updateComment alice "ccomment0001" content sample_comments
     = (Throw (createError "Access denied - can only edit your own comments" 403),
        sample_comments))
  ∧ deleteComment alice "ccomment0001" sample_comments
    = (Throw (createError "Access denied - can only delete your own comments" 403),
       sample_comments)
  ∧ ∃ updated w',
      updated = {| comment_id := "ccomment0001"; comment_content := "";
                   comment_taskId := "ctask0000001"; comment_userId := carol |}
      ∧ updateComment carol "ccomment0001" (Some "") sample_comments
        = (Ok {| c_status := 200;
                 c_json := JComment "Comment updated successfully" updated |}, w')
      ∧ comment_findUnique (db w') "ccomment0001" = Some updated.
Proof.
  destruct (comment_author_only "ccomment0001" sample_comments carol_comment
              (sample_task "ctask0000001" "todo" 0) eq_refl eq_refl) as [Hother Hauthor].
  destruct (Hother alice) as [Hupd Hdel]; [discriminate|].
  split; [exact Hupd|]. split; [exact Hdel|].
  destruct (Hauthor "") as (updated & w' & Heq & Hrun & Hfind & _).
  by exists updated, w'.
Defined.

Lemma deleteComment_then_not_found_witness :
  ∃ w',
    deleteComment carol "ccomment0001" sample_comments
    = (Ok {| c_status := 200; c_json := JCommentDone "Comment deleted successfully" |}, w')
    ∧ comments (db w') = []
    ∧ deleteComment carol "ccomment0001" w'
      = (Throw (createError "Comment not found" 404), w').
Proof.
  destruct (deleteComment_then_not_found "ccomment0001" sample_comments carol_comment
              (sample_task "ctask0000001" "todo" 0) eq_refl eq_refl)
    as (w' & Hrun & _ & Hrows & _ & _ & Hagain & _).
  exists w'. split; [exact Hrun|]. split; [exact Hrows|]. exact (Hagain carol).
Defined.

(** ** The columns of the board view *)

Lemma insert_by_position_perm x l : insert_by_position x l ≡ₚ x :: l.
Proof.
  induction l as [|y l IH]; [done|]. simpl. case_decide; [done|].
  rewrite IH. apply Permutation_swap.
Qed.

Lemma sort_by_position_perm l : sort_by_position l ≡ₚ l.
Proof.
  induction l as [|x l IH]; [done|]. unfold sort_by_position. simpl.
  rewrite insert_by_position_perm. by f_equiv.
Qed.

Lemma insert_by_position_sorted x l :
  StronglySorted position_le l → StronglySorted position_le (insert_by_position x l).
Proof.
  induction 1 as [|y l Hs IH Hall]; simpl.
  - by repeat constructor.
  - case_decide as Hle.
    + constructor; [by constructor|]. constructor; [done|].
      eapply Forall_impl; [exact Hall|]. unfold position_le. intros z Hz. lia.
    + constructor; [done|]. rewrite insert_by_position_perm.
      constructor; [|done]. unfold position_le. lia.
Qed.

Lemma sort_by_position_sorted l : StronglySorted position_le (sort_by_position l).
Proof.
  induction l as [|x l IH]; [constructor|]. by apply insert_by_position_sorted.
Qed.

Lemma StronglySorted_seqZ m (n : nat) : StronglySorted Z.le (seqZ m (Z.of_nat n)).
Proof.
  revert m. induction n as [|n IH]; intros m; [constructor|].
  rewrite seqZ_cons by lia. replace (Z.pred (Z.of_nat (S n))) with (Z.of_nat n) by lia.
  constructor; [apply IH|]. apply Forall_seqZ. lia.
Qed.

(** X22.  Over the rows of a board, in whatever order the page holds them,
    getTasksByColumn lists exactly the tasks of the column, in ascending order
    of position; when the positions of the column are 0, 1, ..., n-1, the
    task shown at index i is the one with position i. *)
Theorem getTasksByColumn_index_is_position (d : Db) (b c : string) (ts : list Task) :
  ts ≡ₚ filter (fun t => boardId t = b) (tasks d) →
  getTasksByColumn ts c ≡ₚ column_tasks d b c
  ∧ StronglySorted position_le (getTasksByColumn ts c)
  ∧ (dense d b c →
     ∀ (i : nat) t, getTasksByColumn ts c !! i = Some t → position t = Z.of_nat i).
Proof.
  intros Hts.
  assert (getTasksByColumn ts c ≡ₚ column_tasks d b c) as Hperm.
  { unfold getTasksByColumn, column_tasks. rewrite sort_by_position_perm, Hts.
    rewrite list_filter_filter. apply reflexive_eq, list_filter_iff.
    unfold in_column. tauto. }
  split; [done|]. split; [apply sort_by_position_sorted|].
  intros Hdense i t Hi.
  assert (position <$> getTasksByColumn ts c
          = seqZ 0 (Z.of_nat (length (column_tasks d b c)))) as Heq.
  { apply (StronglySorted_unique Z.le).
    - eapply (StronglySorted_fmap position position_le Z.le);
        [|apply sort_by_position_sorted]. by unfold position_le.
    - apply StronglySorted_seqZ.
    - rewrite Hperm. exact Hdense. }
  assert ((position <$> getTasksByColumn ts c) !! i = Some (position t)) as Hpos.
  { by rewrite list_lookup_fmap, Hi. }
  rewrite Heq in Hpos. apply lookup_seqZ in Hpos. lia.
Qed.

(** ** Boards *)

Section Boards.
Context `{ZodFormats}.

Lemma createBoard_run u body newId w :
  match createBoard u body newId w with
  | (Ok resp, w') =>
      ∃ p r,
        boardSchema_issues body = []
        ∧ projects (db w) !! bbody_projectId body = Some p
        ∧ is_Some (workspaces (db w) !! workspaceId p)
        ∧ workspaceMembers (db w) !! (workspaceId p, u) = Some r ∧ r ≠ VIEWER
        ∧ boards (db w) !! newId = None
        ∧ w' = {| db := set_boards (db w)
                          (<[newId := {| board_name := bbody_name body;
                                         projectId := bbody_projectId body;
                                         columns := default_columns |}]> (boards (db w)));
                  outbox := outbox w |}
        ∧ resp = {| status := 201;
                    json := JBoard "Board created successfully"
                              {| board_name := bbody_name body;
                                 projectId := bbody_projectId body;
                                 columns := default_columns |} |}
  | (Throw _, w') => w' = w
  end.
Proof.
  unfold createBoard. unfold bind at 1, parse, boardSchema_parse.
  destruct (boardSchema_issues body) eqn:Hi; [|done].
  unfold bind at 1, project_findUnique.
  destruct (projects (db w) !! bbody_projectId body) as [p|] eqn:Hp; [|done].
  destruct (workspaces (db w) !! workspaceId p) as [x|] eqn:Hx; [|done]. simpl.
  case_decide as Hlen; [done|].
  apply members_where_nonempty in Hlen as (r & Hm & Hr). apply writer_role in Hr.
  unfold bind, prisma_try, lift_write, board_create, ret.
  destruct (boards (db w) !! newId) eqn:Hb; [done|].
  exists p, r. by split_and!.
Qed.

(** X23.  When createBoard succeeds, the caller is an ADMIN or a MEMBER of
    the workspace of the project; the new board has the four default columns
    todo, in-progress, done and shelved, every user holds on it the role of
    the membership row in that workspace, and nothing else changes.
    deleteBoard of the new board by the same user then gives back the store
    as it was before. *)
Theorem createBoard_deleteBoard_round_trip (u : string) (body : BoardBody) (newId : string)
    (w w' : World) (resp : Response) :
  (∀ t, t ∈ tasks (db w) → boardId t ≠ newId) →
  createBoard u body newId w = (Ok resp, w') →
  (∃ r, role_on_board (db w') u newId = Some r ∧ r ≠ VIEWER)
  ∧ boards (db w) !! newId = None
  ∧ (∃ board, boards (db w') !! newId = Some board
              ∧ col_id <$> columns board = ["todo"; "in-progress"; "done"; "shelved"]
              ∧ json resp = JBoard "Board created successfully" board)
  ∧ (∃ p, projects (db w) !! bbody_projectId body = Some p
          ∧ ∀ v, role_on_board (db w') v newId
                 = workspaceMembers (db w) !! (workspaceId p, v))
  ∧ (∀ b, b ≠ newId → boards (db w') !! b = boards (db w) !! b)
  ∧ tasks (db w') = tasks (db w)
  ∧ outbox w' = outbox w
  ∧ deleteBoard u newId w'
    = (Ok {| status := 200; json := JMessage "Board deleted successfully" |}, w).
Proof.
  intros Hfk Hrun. pose proof (createBoard_run u body newId w) as Hr. rewrite Hrun in Hr.
  destruct Hr as (p & r & Hi & Hp & [x Hx] & Hm & Hne & Hb & -> & ->).
  set (board := {| board_name := bbody_name body; projectId := bbody_projectId body;
                   columns := default_columns |}).
  set (d' := set_boards (db w) (<[newId := board]> (boards (db w)))).
  assert (boards d' !! newId = Some board) as Hb' by apply lookup_insert_eq.
  assert (board_workspace d' board = Some (workspaceId p)) as Hws'.
  { unfold board_workspace. simpl. rewrite Hp. simpl. by rewrite Hx. }
  assert (∀ v, role_on_board d' v newId = workspaceMembers (db w) !! (workspaceId p, v))
    as Hrole.
  { intros v. by rewrite (role_on_board_intro d' v newId board (workspaceId p)). }
  simpl. split_and!.
  - exists r. by rewrite Hrole.
  - done.
  - exists board. split_and!; [done|reflexivity|done].
  - exists p. by split.
  - intros b Hbne. by apply lookup_insert_ne.
  - done.
  - done.
  - unfold deleteBoard. unfold bind at 1.
    rewrite (board_findUnique_member d' (outbox w) newId u (Some [ADMIN; MEMBER])
               board (workspaceId p)) by done.
    simpl. fold writers. rewrite (members_where_writers d' (workspaceId p) u r) by done.
    rewrite (decide_False (P := r = VIEWER)) by done. simpl.
    unfold bind, prisma_write, modify, ret. simpl. f_equal.
    destruct w as [d ob]. simpl in *. f_equal.
    unfold board_delete, comments_without, attachments_without, d', set_tasks, set_boards.
    simpl. rewrite delete_insert_id by done.
    assert (filter (λ t : Task, boardId t = newId) (tasks d) = []) as ->.
    { clear -Hfk. induction (tasks d) as [|t l IH]; [done|].
      rewrite filter_cons, decide_False by (apply Hfk; by left).
      apply IH. intros t' Ht'. apply Hfk. by right. }
    rewrite (filter_all (λ t : Task, boardId t ≠ newId)) by done.
    rewrite (filter_all (λ c : Comment, _)) by (intros ? _; apply not_elem_of_nil).
    rewrite (filter_all (λ a : Attachment, _)) by (intros ? _; apply not_elem_of_nil).
    by destruct d.
Qed.

End Boards.

(** ** Creating and reading a workspace *)

Lemma createWorkspace_run u body newId w :
  match createWorkspace u body newId w with
  | (Ok resp, w') =>
      workspaceSchema_issues body = []
      ∧ workspaces (db w) !! newId = None
      ∧ workspaceMembers (db w) !! (newId, u) = None
      ∧ w' = {| db := set_workspaceMembers
                        (set_workspaces (db w)
                           (<[newId := {| workspace_name := wbody_name body;
                                          createdBy := u |}]> (workspaces (db w))))
                        (<[(newId, u) := ADMIN]> (workspaceMembers (db w)));
                outbox := outbox w |}
      ∧ resp = {| ws_status := 201;
                  ws_json := JWorkspace "Workspace created successfully" newId
                               {| workspace_name := wbody_name body; createdBy := u |} |}
  | (Throw e, w') => w' = w ∧ (workspaceSchema_issues body ≠ [] → ValidationFailed e)
  end.
Proof.
  unfold createWorkspace. unfold bind at 1, parse, workspaceSchema_parse.
  destruct (workspaceSchema_issues body) eqn:Hi; [|done].
  unfold bind, prisma_try, lift_write, ret.
  destruct (workspaces (db w) !! newId) eqn:Hw; [done|].
  destruct (workspaceMembers (db w) !! (newId, u)) eqn:Hm; [done|].
  by split_and!.
Qed.

(** X24.  createWorkspace needs a name of 1 to 100 characters and a
    description of at most 500, and fails with ValidationFailed without them.
    When it succeeds, getWorkspace answers the creator with the new workspace
    and the role ADMIN, and anyone else with 403; the answers of getWorkspace
    for the other workspaces are as before. *)
Theorem createWorkspace_then_getWorkspace (u : string) (body : WorkspaceBody)
    (newId : string) (w : World) :
  (∀ v, v ≠ u → workspaceMembers (db w) !! (newId, v) = None) →
  match createWorkspace u body newId w with
  | (Ok resp, w') =>
      (1 ≤ String.length (wbody_name body) ≤ 100)%nat
      ∧ (∀ text, wbody_description body = Some text → (String.length text ≤ 500)%nat)
      ∧ ws_status resp = 201
      ∧ outbox w' = outbox w
      ∧ getWorkspace u newId w'
        = (Ok {| ws_status := 200;
                 ws_json := JWorkspaceRole newId
                              {| workspace_name := wbody_name body; createdBy := u |}
                              ADMIN |}, w')
      ∧ (∀ v, v ≠ u → getWorkspace v newId w' = (Throw (createError "Access denied" 403), w'))
      ∧ (∀ v id, id ≠ newId → (getWorkspace v id w').1 = (getWorkspace v id w).1)
  | (Throw e, w') =>
      w' = w
      ∧ (¬ (1 ≤ String.length (wbody_name body) ≤ 100)%nat → ValidationFailed e)
  end.
Proof.
  intros Hfk. pose proof (createWorkspace_run u body newId w) as Hr.
  destruct (createWorkspace u body newId w) as [[resp|e] w'].
  - destruct Hr as (Hi & Hw & Hm & -> & ->).
    unfold workspaceSchema_issues in Hi. apply app_eq_nil in Hi as [Hn Hd].
    apply issue_nil in Hn. apply issue_nil in Hd.
    unfold length_between in Hn. apply andb_true_iff in Hn as [Hlo Hhi].
    apply bool_decide_eq_true in Hlo, Hhi.
    split; [done|]. split.
    { intros text Ht. rewrite Ht in Hd. simpl in Hd. unfold length_between in Hd.
      apply andb_true_iff in Hd as [_ Hd]. by apply bool_decide_eq_true in Hd. }
    split; [done|]. split; [done|].
    set (w' := {| db := set_workspaceMembers
                          (set_workspaces (db w)
                             (<[newId := {| workspace_name := wbody_name body;
                                            createdBy := u |}]> (workspaces (db w))))
                          (<[(newId, u) := ADMIN]> (workspaceMembers (db w)));
                  outbox := outbox w |}).
    assert (workspaces (db w') !! newId
            = Some {| workspace_name := wbody_name body; createdBy := u |}) as Hnew.
    { apply lookup_insert_eq. }
    assert (∀ id, id ≠ newId → workspaces (db w') !! id = workspaces (db w) !! id) as Hold.
    { intros id Hne. simpl. by apply lookup_insert_ne. }
    assert (∀ id v, (id, v) ≠ (newId, u) →
              workspaceMembers (db w') !! (id, v) = workspaceMembers (db w) !! (id, v)) as Hrows.
    { intros id v Hne. simpl. by apply lookup_insert_ne. }
    assert (workspaceMembers (db w') !! (newId, u) = Some ADMIN) as Hrow.
    { apply lookup_insert_eq. }
    clearbody w'. split; [|split].
    + unfold getWorkspace, bind, prisma, gets, ret. by rewrite Hnew, Hrow.
    + intros v Hne. unfold getWorkspace, bind, prisma, gets, throw.
      rewrite Hnew, Hrows by congruence. by rewrite Hfk.
    + intros v id Hne. unfold getWorkspace, bind, prisma, gets, throw, ret.
      rewrite Hold by done. destruct (workspaces (db w) !! id); [|done].
      rewrite Hrows by congruence.
      by destruct (workspaceMembers (db w) !! (id, v)).
  - destruct Hr as [-> Hv]. split; [done|]. intros Hlen. apply Hv.
    unfold workspaceSchema_issues. intros Hi. apply app_eq_nil in Hi as [Hn _].
    apply issue_nil in Hn. unfold length_between in Hn.
    apply andb_true_iff in Hn as [Hlo Hhi]. apply bool_decide_eq_true in Hlo, Hhi.
    by apply Hlen.
Qed.

Lemma getTasksByColumn_index_is_position_witness :
  getTasksByColumn (tasks (db three_in_todo)) "todo"
  ≡ₚ column_tasks (db three_in_todo) board1 "todo"
  ∧ StronglySorted position_le (getTasksByColumn (tasks (db three_in_todo)) "todo")
  ∧ ∀ (i : nat) t, getTasksByColumn (tasks (db three_in_todo)) "todo" !! i = Some t →
      position t = Z.of_nat i.
Proof.
  destruct (getTasksByColumn_index_is_position (db three_in_todo) board1 "todo"
              (tasks (db three_in_todo))) as (Hperm & Hsorted & Hindex).
  - reflexivity.
  - split; [exact Hperm|]. split; [exact Hsorted|]. apply Hindex.
    unfold dense. vm_compute. reflexivity.
Defined.

Lemma createBoard_deleteBoard_round_trip_witness :
  ∃ resp w',
    createBoard (H := zod) bob
      {| bbody_name := "Sprint board"; bbody_projectId := "cproject0001" |}
      "cboard000002" two_in_todo = (Ok resp, w')
    ∧ (∃ board, boards (db w') !! "cboard000002" = Some board
                ∧ col_id <$> columns board = ["todo"; "in-progress"; "done"; "shelved"]
                ∧ json resp = JBoard "Board created successfully" board)
    ∧ deleteBoard bob "cboard000002" w'
      = (Ok {| status := 200; json := JMessage "Board deleted successfully" |}, two_in_todo).
Proof.
  destruct (createBoard (H := zod) bob
              {| bbody_name := "Sprint board"; bbody_projectId := "cproject0001" |}
              "cboard000002" two_in_todo) as [[resp|e] w'] eqn:Hrun;
    [|by vm_compute in Hrun].
  destruct (createBoard_deleteBoard_round_trip (H := zod) bob
              {| bbody_name := "Sprint board"; bbody_projectId := "cproject0001" |}
              "cboard000002" two_in_todo w' resp)
    as (_ & _ & Hboard & _ & _ & _ & _ & Hdel).
  - intros t Hin. unfold two_in_todo, with_tasks in Hin. simpl in Hin.
    repeat (apply elem_of_cons in Hin as [->|Hin]); [discriminate..|].
    by apply elem_of_nil in Hin.
  - exact Hrun.
  - by exists resp, w'.
Defined.

Lemma createWorkspace_then_getWorkspace_witness :
  match createWorkspace bob {| wbody_name := "Second"; wbody_description := None |}
          "cworkspace02" sample_world with
  | (Ok resp, w') =>
      (1 ≤ String.length "Second" ≤ 100)%nat
      ∧ (∀ text, None = Some text → (String.length text ≤ 500)%nat)
      ∧ ws_status resp = 201
      ∧ outbox w' = outbox sample_world
      ∧ getWorkspace bob "cworkspace02" w'
        = (Ok {| ws_status := 200;
                 ws_json := JWorkspaceRole "cworkspace02"
                              {| workspace_name := "Second"; createdBy := bob |}
                              ADMIN |}, w')
      ∧ (∀ v, v ≠ bob →
           getWorkspace v "cworkspace02" w' = (Throw (createError "Access denied" 403), w'))
      ∧ (∀ v id, id ≠ "cworkspace02" →
           (getWorkspace v id w').1 = (getWorkspace v id sample_world).1)
  | (Throw e, w') =>
      w' = sample_world
      ∧ (¬ (1 ≤ String.length "Second" ≤ 100)%nat → ValidationFailed e)
  end.
Proof.
  apply (createWorkspace_then_getWorkspace bob
           {| wbody_name := "Second"; wbody_description := None |}
           "cworkspace02" sample_world).
  intros v Hne. simpl. rewrite !lookup_insert_ne by discriminate.
  apply lookup_singleton_ne. discriminate.
Defined.

(** ** Drag and drop *)

Lemma drag_calls_picked_up role ts : ∀ es st call,
  call ∈ drag_calls role ts st es →
  ∃ t c, (st = Some t ∨ (DragStart t ∈ es ∧ role ≠ VIEWER))
         ∧ columnId t ≠ c
         ∧ call = (task_id t,
                   {| move_columnId := Some c;
                      move_position :=
                        Some (Z.of_nat (length (filter (fun x => columnId x = c) ts))) |}).
Proof.
  induction es as [|e es IH]; intros st call Hin; [by apply elem_of_nil in Hin|].
  simpl in Hin. destruct e as [task| |column]; simpl in Hin.
  - apply IH in Hin as (t & c & Hst & Hne & ->). exists t, c. split; [|done].
    unfold handleDragStart in Hst. destruct Hst as [Hst|[Hst Hr]].
    + case_decide as Hrole; [by left|]. injection Hst as <-. right. split; [by left|done].
    + right. split; [by right|done].
  - apply IH in Hin as (t & c & [Hst|[Hst Hr]] & Hne & ->); [done|].
    exists t, c. split; [|done]. right. split; [by right|done].
  - destruct (handleDrop ts st column) as [call'|] eqn:Hdrop.
    + apply elem_of_cons in Hin as [->|Hin].
      * unfold handleDrop in Hdrop. destruct st as [dragged|]; [|done].
        case_decide as Hc; [done|]. injection Hdrop as <-.
        exists dragged, column. split; [by left|]. split; [done|].
        unfold getTasksByColumn. by rewrite length_sort_by_position.
      * apply IH in Hin as (t & c & [Hst|[Hst Hr]] & Hne & ->); [done|].
        exists t, c. split; [|done]. right. split; [by right|done].
    + apply IH in Hin as (t & c & Hst & Hne & ->). exists t, c. split; [|done].
      destruct Hst as [Hst|[Hst Hr]]; [by left|]. right. split; [by right|done].
Qed.

(** X25.  Drag and drop in the board view, from the state in which no card
    is held.  For a VIEWER no sequence of drag events calls onTaskMove.  For
    the other roles every call names a card picked up earlier in the
    sequence, a column other than the one the page shows the card in, and as
    position the number of cards the page holds for that column. *)
Theorem drag_and_drop_calls (role : Role) (ts : list Task) (es : list DragEvent) :
  (role = VIEWER → drag_calls role ts None es = [])
  ∧ (∀ id body, (id, body) ∈ drag_calls role ts None es →
       ∃ t c, DragStart t ∈ es
              ∧ id = task_id t
              ∧ move_columnId body = Some c
              ∧ c ≠ columnId t
              ∧ move_position body = Some (Z.of_nat (length (getTasksByColumn ts c)))).
Proof.
  split.
  - intros ->. destruct (drag_calls VIEWER ts None es) as [|call l] eqn:Hcalls; [done|].
    assert (call ∈ drag_calls VIEWER ts None es) as Hin by (rewrite Hcalls; by left).
    by apply drag_calls_picked_up in Hin as (t & c & [Hst|[_ Hr]] & _).
  - intros id body Hin.
    apply drag_calls_picked_up in Hin as (t & c & [Hst|[Hst _]] & Hne & Heq); [done|].
    injection Heq as -> ->. exists t, c. simpl. split_and!; try done.
    unfold getTasksByColumn. by rewrite length_sort_by_position.
Qed.

(** ** Reading one task *)

Lemma getTask_run u id w :
  match getTask u id w with
  | (Ok t, w') =>
      w' = w ∧ task_findUnique (db w) id = Some t
      ∧ is_Some (role_on_board (db w) u (boardId t))
  | (Throw e, w') =>
      w' = w
      ∧ (task_findUnique (db w) id = None → NotFound e)
      ∧ (∀ t, task_findUnique (db w) id = Some t →
           board_workspaceId (db w) (boardId t) ≠ None →
           role_on_board (db w) u (boardId t) = None ∧ Forbidden e)
  end.
Proof.
  unfold getTask. unfold bind at 1, task_findUnique_include, board_findUnique.
  unfold role_on_board, board_workspaceId.
  destruct (task_findUnique (db w) id) as [t|] eqn:Hf; [|by split_and!].
  destruct (boards (db w) !! boardId t) as [bd|] eqn:Hb.
  2:{ split; [done|]. split; [done|]. intros t' [= <-]. by rewrite Hb. }
  destruct (board_workspace (db w) bd) as [ws|] eqn:Hws.
  2:{ split; [done|]. split; [done|]. intros t' [= <-]. rewrite Hb. simpl. by rewrite Hws. }
  simpl. unfold members_where, any_member.
  destruct (workspaceMembers (db w) !! (ws, u)) as [r|] eqn:Hm; simpl.
  - split; [done|]. split; [done|]. rewrite Hb. simpl. rewrite Hws. simpl. by rewrite Hm.
  - split; [done|]. split; [done|]. intros t' [= <-] _. rewrite Hb. simpl. rewrite Hws.
    simpl. by rewrite Hm.
Qed.

(** X26.  getTask and getTasks agree.  getTask never writes; it answers a
    user who has a membership row in the workspace of the board of the task,
    of whatever role, with the stored row, fails with NotFound for an unknown
    id and with Forbidden without a membership row.  With unique task ids,
    the tasks getTasks lists for a board are exactly the tasks of that board
    getTask gives to the same user. *)
Theorem getTask_agrees_with_getTasks (u : string) (w : World) :
  primary_key (db w) →
  (∀ id, match getTask u id w with
         | (Ok t, w') =>
             w' = w ∧ task_findUnique (db w) id = Some t
             ∧ is_Some (role_on_board (db w) u (boardId t))
         | (Throw e, w') =>
             w' = w
             ∧ (task_findUnique (db w) id = None → NotFound e)
             ∧ (∀ t, task_findUnique (db w) id = Some t →
                  board_workspaceId (db w) (boardId t) ≠ None →
                  role_on_board (db w) u (boardId t) = None ∧ Forbidden e)
         end)
  ∧ (∀ b resp ts,
       getTasks u b w = (Ok resp, w) → json resp = JTasks ts →
       ∀ t, t ∈ ts ↔ boardId t = b ∧ getTask u (task_id t) w = (Ok t, w)).
Proof.
  intros Hkey. split; [intros id; apply getTask_run|].
  intros b resp ts Hrun Hjson.
  assert (is_Some (role_on_board (db w) u b)
          ∧ ts ≡ₚ filter (fun t => boardId t = b) (tasks (db w))) as [Hrole Hts].
  { revert Hrun. unfold getTasks. unfold bind at 1, board_findUnique.
    unfold role_on_board, board_workspaceId.
    destruct (boards (db w) !! b) as [bd|] eqn:Hb; simpl; [|done].
    destruct (board_workspace (db w) bd) as [ws|] eqn:Hws; simpl; [|done].
    unfold members_where, any_member.
    destruct (workspaceMembers (db w) !! (ws, u)) as [r|] eqn:Hm; simpl; [|done].
    intros [= <-]. simpl in Hjson. injection Hjson as <-. split; [by eauto|].
    unfold task_findMany_board, orderBy_position_asc. apply merge_sort_Permutation. }
  intros t. rewrite Hts, list_elem_of_filter. split.
  - intros [Hb Hin]. split; [done|].
    pose proof (task_findUnique_elem _ _ Hkey Hin) as Hf.
    pose proof (getTask_run u (task_id t) w) as Hg.
    destruct (getTask u (task_id t) w) as [[t'|e] w'].
    + destruct Hg as (-> & Hf' & _). congruence.
    + destruct Hg as (_ & _ & Hforb). exfalso.
      destruct Hrole as [r Hr]. rewrite <- Hb in Hr.
      destruct (Hforb t Hf) as [Hnone _]; [|congruence].
      unfold role_on_board in Hr. by destruct (board_workspaceId (db w) (boardId t)).
  - intros [Hb Hg]. split; [done|].
    pose proof (getTask_run u (task_id t) w) as Hg'. rewrite Hg in Hg'.
    destruct Hg' as (_ & Hf & _). by apply task_findUnique_Some in Hf as [Hin _].
Qed.

Lemma drag_and_drop_calls_witness :
  drag_calls VIEWER (tasks (db three_in_todo)) None
    [DragStart (sample_task "ctask0000001" "todo" 0); Drop "doing"] = []
  ∧ drag_calls MEMBER (tasks (db three_in_todo)) None
      [DragStart (sample_task "ctask0000001" "todo" 0); Drop "doing"]
    = [("ctask0000001", {| move_columnId := Some "doing"; move_position := Some 1 |})]
  ∧ ∃ t c, DragStart t ∈ [DragStart (sample_task "ctask0000001" "todo" 0); Drop "doing"]
           ∧ "ctask0000001" = task_id t
           ∧ Some "doing" = Some c
           ∧ c ≠ columnId t
           ∧ Some 1 = Some (Z.of_nat (length (getTasksByColumn (tasks (db three_in_todo)) c))).
Proof.
  split; [|split].
  - exact (proj1 (drag_and_drop_calls VIEWER (tasks (db three_in_todo))
                    [DragStart (sample_task "ctask0000001" "todo" 0); Drop "doing"])
             eq_refl).
  - reflexivity.
  - apply (proj2 (drag_and_drop_calls MEMBER (tasks (db three_in_todo))
                    [DragStart (sample_task "ctask0000001" "todo" 0); Drop "doing"])
             "ctask0000001" {| move_columnId := Some "doing"; move_position := Some 1 |}).
    change (("ctask0000001", {| move_columnId := Some "doing"; move_position := Some 1 |})
            ∈ [("ctask0000001", {| move_columnId := Some "doing"; move_position := Some 1 |})]).
    by left.
Defined.

Lemma getTask_agrees_with_getTasks_witness :
  getTask carol "ctask0000003" three_in_todo
  = (Ok (sample_task "ctask0000003" "doing" 0), three_in_todo)
  ∧ ∀ resp ts,
      getTasks carol board1 three_in_todo = (Ok resp, three_in_todo) →
      json resp = JTasks ts →
      sample_task "ctask0000003" "doing" 0 ∈ ts.
Proof.
  destruct (getTask_agrees_with_getTasks carol three_in_todo primary_key_three_in_todo)
    as [_ Hagree].
  assert (getTask carol "ctask0000003" three_in_todo
          = (Ok (sample_task "ctask0000003" "doing" 0), three_in_todo)) as Hget
    by reflexivity.
  split; [exact Hget|]. intros resp ts Hrun Hjson.
  apply (Hagree board1 resp ts Hrun Hjson). split; [reflexivity | exact Hget].
Defined.
